(** * The training / evaluation control loop of [msg3d/main.py]

    A shallow embedding of class [Processor] (model and optimizer set-up,
    gradient-accumulated training, multi-view evaluation with score fusion,
    best-metric and early-stopping bookkeeping, checkpoint persistence), of
    the parts of [main] that check the keys of the configuration file,
    derive the input channels from the stream name and prepare the
    test-time-augmentation views, and of [str2bool].

    Conventions of the embedding:
    - Python [int] is [Z]; [//] and [%] are [Z.div] and [Z.modulo], which
      round the same way as Python's (towards minus infinity, the remainder
      takes the sign of the divisor); division by zero is raised explicitly.
    - Python [float] is an exact rational [Q]: rounding, infinities and NaN
      are outside the embedding.
    - [self] is the record [Processor]; a method is a computation in the
      state-and-exception monad [M], so a raised exception keeps the
      mutations made before it.
    - What the program does to the outside (tensorboard scalars, torch
      calls, files written, log lines) is appended to [trace].
    - torch, the network, the loss and the feeder are collaborators whose
      code is not part of the program: they are the fields of the class
      [Backend].  [Module.load_state_dict], [DataLoader] and the numpy
      in-place arithmetic used by score fusion are written out.
    - Not embedded: console lines that only format numbers or times, apex
      half precision, [DataParallel], device placement, the tqdm bars, the
      YAML dump of the arguments and the two text report streams of the
      test phase. *)

From Stdlib Require Import ZArith QArith List String Ascii Lia DecimalString
  DecimalZ.
From stdpp Require Import gmap strings list.

Local Open Scope Z_scope.

(** ** Python values and operators *)

Module Py.

(** [str(z)] for an [int]. *)
Definition str (z : Z) : string := NilZero.string_of_int (Z.to_int z).

(** [s[:-n]]. *)
Definition drop_last (n : nat) (s : string) : string :=
  String.substring 0 (String.length s - n) s.

(** The text that follows the first occurrence of [sep] in [s]. *)
Fixpoint after_first (sep s : string) : option string :=
  if String.prefix sep s
  then Some (String.substring (String.length sep)
               (String.length s - String.length sep) s)
  else match s with
       | EmptyString => None
       | String _ s' => after_first sep s'
       end.

(** [s.split(sep)[-1]] for a non-empty [sep]: pieces are cut from left to
    right, the last piece follows the last cut. *)
Fixpoint split_last_from (fuel : nat) (sep s : string) : string :=
  match fuel with
  | O => s
  | S fuel' =>
      match after_first sep s with
      | None => s
      | Some rest => split_last_from fuel' sep rest
      end
  end.

Definition split_last (sep s : string) : string :=
  split_last_from (String.length s) sep s.

(** [sub in s]. *)
Definition contains (sub s : string) : bool :=
  bool_decide (is_Some (after_first sub s)).

(** [os.path.join(a, b)] on a POSIX system. *)
Definition path_join (a b : string) : string :=
  if String.prefix "/" b then b
  else if String.eqb a "" then b
  else if String.eqb (String.substring (String.length a - 1) 1 a) "/"
       then a +:+ b
       else a +:+ "/" +:+ b.

(** [list(range(a, b))]. *)
Definition range (a b : Z) : list Z :=
  map (fun i : nat => a + Z.of_nat i) (seq 0 (Z.to_nat (b - a))).

(** [l[left:right]] for [0 <= left <= right]. *)
Definition slice {A} (l : list A) (left right : Z) : list A :=
  take (Z.to_nat (right - left)) (drop (Z.to_nat left) l).

(** [len(l)]. *)
Definition len {A} (l : list A) : Z := Z.of_nat (length l).

(** [int(x)] for a [float]: truncation towards zero. *)
Definition int (x : Q) : Z := Z.quot (Qnum x) (Zpos (Qden x)).

Definition sum (l : list Q) : Q := fold_left Qplus l 0%Q.

(** [np.mean(l)] of a non-empty list. *)
Definition mean (l : list Q) : Q := (sum l / inject_Z (len l))%Q.

(** [x > y] and [x != y] on floats. *)
Definition gt (x y : Q) : bool := negb (Qle_bool x y).
Definition ne (x y : Q) : bool := negb (Qeq_bool x y).

(** [c.lower()] on one character of a byte string: the capital letters of
    ASCII change, every other byte is kept. *)
Definition lower_char (c : ascii) : ascii :=
  let n := nat_of_ascii c in
  if (65 <=? n)%nat && (n <=? 90)%nat then ascii_of_nat (n + 32) else c.

(** [s.lower()] *)
Fixpoint lower (s : string) : string :=
  match s with
  | EmptyString => EmptyString
  | String c s' => String (lower_char c) (lower s')
  end.

End Py.

(** ** Exceptions *)

Inductive exn : Type :=
| ValueError (msg : string)
| AssertionError (msg : string)
| RuntimeError (msg : string)
| KeyError (key : string)
| FileNotFoundError (path : string)
| ZeroDivisionError
| IndexError
| AttributeError
| TypeError
| UnboundLocalError.

Inductive result (A : Type) : Type :=
| Ok (a : A)
| Raise (e : exn).
Arguments Ok {A} a.
Arguments Raise {A} e.

(** ** Tensors, score matrices and state dicts *)

Record tensor : Type := Tensor { shape : list Z; values : list Q }.

(** A two-dimensional array, row by row: one row of class scores per
    sample. *)
Abbreviation matrix := (list (list Q)).

Module np.

Definition zeros (n c : nat) : matrix := replicate n (replicate c 0%Q).

(** Broadcasting of the right operand of an in-place operation to the
    shape [n] x [c] of the left operand: a dimension must agree or be 1. *)
Definition broadcast_row (c : nat) (r : list Q) : option (list Q) :=
  if decide (length r = c) then Some r
  else match r with
       | [x] => Some (replicate c x)
       | _ => None
       end.

Definition broadcast (n c : nat) (m : matrix) : option matrix :=
  match mapM (broadcast_row c) m with
  | None => None
  | Some rows =>
      if decide (length rows = n) then Some rows
      else match rows with
           | [r] => Some (replicate n r)
           | _ => None
           end
  end.

Definition add_rows (r1 r2 : list Q) : list Q := zip_with Qplus r1 r2.

(** [score += m]: [None] stands for the [ValueError] of operands that
    cannot be broadcast together. *)
Definition iadd (score m : matrix) : option matrix :=
  match broadcast (length score) (length (hd [] score)) m with
  | None => None
  | Some m' => Some (zip_with add_rows score m')
  end.

(** [score /= k] for an [int] [k]. *)
Definition idiv (score : matrix) (k : Z) : matrix :=
  map (map (fun x => (x / inject_Z k)%Q)) score.

End np.



(** [torch.nn.Module.load_state_dict(sd, strict)] on a module whose own
    state dict is [m].  Every entry of [sd] whose name is known to the
    module and whose shape fits is copied in place; a name known to the
    module with another shape is an error whatever [strict] is; missing and
    unexpected names are errors under [strict] only.  The copies are made
    before the error is raised. *)
Module nn.

Definition mismatched (sd : gmap string tensor) (kp : string * tensor)
  : bool :=
  match sd !! kp.1 with
  | Some t => negb (bool_decide (shape t = shape kp.2))
  | None => false
  end.

Definition size_mismatch (m sd : gmap string tensor) : list string :=
  elements (dom (filter (fun kp => Is_true (mismatched sd kp)) m)).

Definition missing_keys (m sd : gmap string tensor) : list string :=
  elements (dom m ∖ dom sd).

Definition unexpected_keys (m sd : gmap string tensor) : list string :=
  elements (dom sd ∖ dom m).

Definition copy_param (sd : gmap string tensor) (k : string) (p : tensor)
  : option tensor :=
  match sd !! k with
  | Some t => if decide (shape t = shape p) then Some t else Some p
  | None => Some p
  end.

Definition copy_params (m sd : gmap string tensor) : gmap string tensor :=
  map_imap (copy_param sd) m.

Definition error_msgs (m sd : gmap string tensor) (strict : bool)
  : list string :=
  (if strict then unexpected_keys m sd ++ missing_keys m sd else [])
    ++ size_mismatch m sd.

Definition load_state_dict (m sd : gmap string tensor) (strict : bool)
  : result unit * gmap string tensor :=
  (match error_msgs m sd strict with
   | [] => Ok tt
   | _ :: _ => Raise (RuntimeError "Error(s) in loading state_dict")
   end,
   copy_params m sd).

End nn.

(** [torch.utils.data.DataLoader].  A sample is [(data, label, index)]. *)
Module data.

Record DataLoader (D : Type) : Type := mkDataLoader {
  dataset : list (D * Z * Z);
  batch_size : Z;
  shuffle : bool;
  drop_last : bool
}.
Arguments mkDataLoader {D}.
Arguments dataset {D}.
Arguments batch_size {D}.
Arguments shuffle {D}.
Arguments drop_last {D}.

(** Consecutive groups of [n] elements; the last group may be shorter. *)
Fixpoint chunks {A} (fuel n : nat) (l : list A) : list (list A) :=
  match fuel, l with
  | O, _ | _, [] => []
  | S fuel', _ :: _ => take n l :: chunks fuel' n (drop n l)
  end.

(** One pass over the loader.  [perm] is the permutation drawn for this
    pass when [shuffle] is set. *)
Definition batches {D} (perm : list (D * Z * Z) -> list (D * Z * Z))
    (ld : DataLoader D) : list (list (D * Z * Z)) :=
  let samples := if shuffle ld then perm (dataset ld) else dataset ld in
  let n := Z.to_nat (batch_size ld) in
  let groups := chunks (length samples) n samples in
  if drop_last ld
  then filter (fun b => length b = n) groups
  else groups.

(** [len(loader)]. *)
Definition len {D} (ld : DataLoader D) : Z :=
  let size := Py.len (dataset ld) in
  if drop_last ld
  then size / batch_size ld
  else (size + batch_size ld - 1) / batch_size ld.

End data.

(** ** The command-line arguments read by the control loop *)

Module arg.

Record t : Type := mk {
  work_dir : string;
  phase : string;
  save_score : bool;
  save_interval : Z;
  eval_start : Z;
  weights : option string;
  ignore_weights : list string;
  base_lr : Q;
  step : list Z;
  optimizer : string;
  nesterov : bool;
  batch_size : Z;
  test_batch_size : Z;
  forward_batch_size : Z;
  start_epoch : Z;
  num_epoch : Z;
  weight_decay : Q;
  checkpoint : option string;
  debug : bool;
  use_tta : bool;
  tta : list (bool * Z);
  lr_scheduler : string;
  gamma : Q;
  factor : Q;
  patience : Z;
  cooldown : Z;
  tmax : Z;
  eta_min : Q;
  epoch_warn : Z;
  early_stopping : Z
}.

(** [arg.field = v] *)
Definition set_tta (v : list (bool * Z)) (a : t) : t :=
  mk (work_dir a) (phase a) (save_score a) (save_interval a) (eval_start a)
     (weights a) (ignore_weights a) (base_lr a) (step a) (optimizer a)
     (nesterov a) (batch_size a) (test_batch_size a) (forward_batch_size a)
     (start_epoch a) (num_epoch a) (weight_decay a) (checkpoint a) (debug a)
     (use_tta a) v (lr_scheduler a) (gamma a) (factor a) (patience a)
     (cooldown a) (tmax a) (eta_min a) (epoch_warn a) (early_stopping a).

Definition set_weights (v : option string) (a : t) : t :=
  mk (work_dir a) (phase a) (save_score a) (save_interval a) (eval_start a)
     v (ignore_weights a) (base_lr a) (step a) (optimizer a) (nesterov a)
     (batch_size a) (test_batch_size a) (forward_batch_size a)
     (start_epoch a) (num_epoch a) (weight_decay a) (checkpoint a) (debug a)
     (use_tta a) (tta a) (lr_scheduler a) (gamma a) (factor a) (patience a)
     (cooldown a) (tmax a) (eta_min a) (epoch_warn a) (early_stopping a).

Definition set_optimizer (v : string) (a : t) : t :=
  mk (work_dir a) (phase a) (save_score a) (save_interval a) (eval_start a)
     (weights a) (ignore_weights a) (base_lr a) (step a) v (nesterov a)
     (batch_size a) (test_batch_size a) (forward_batch_size a)
     (start_epoch a) (num_epoch a) (weight_decay a) (checkpoint a) (debug a)
     (use_tta a) (tta a) (lr_scheduler a) (gamma a) (factor a) (patience a)
     (cooldown a) (tmax a) (eta_min a) (epoch_warn a) (early_stopping a).

Definition set_batch_size (v : Z) (a : t) : t :=
  mk (work_dir a) (phase a) (save_score a) (save_interval a) (eval_start a)
     (weights a) (ignore_weights a) (base_lr a) (step a) (optimizer a)
     (nesterov a) v (test_batch_size a) (forward_batch_size a)
     (start_epoch a) (num_epoch a) (weight_decay a) (checkpoint a) (debug a)
     (use_tta a) (tta a) (lr_scheduler a) (gamma a) (factor a) (patience a)
     (cooldown a) (tmax a) (eta_min a) (epoch_warn a) (early_stopping a).

Definition set_forward_batch_size (v : Z) (a : t) : t :=
  mk (work_dir a) (phase a) (save_score a) (save_interval a) (eval_start a)
     (weights a) (ignore_weights a) (base_lr a) (step a) (optimizer a)
     (nesterov a) (batch_size a) (test_batch_size a) v (start_epoch a)
     (num_epoch a) (weight_decay a) (checkpoint a) (debug a) (use_tta a)
     (tta a) (lr_scheduler a) (gamma a) (factor a) (patience a) (cooldown a)
     (tmax a) (eta_min a) (epoch_warn a) (early_stopping a).

Definition set_start_epoch (v : Z) (a : t) : t :=
  mk (work_dir a) (phase a) (save_score a) (save_interval a) (eval_start a)
     (weights a) (ignore_weights a) (base_lr a) (step a) (optimizer a)
     (nesterov a) (batch_size a) (test_batch_size a) (forward_batch_size a)
     v (num_epoch a) (weight_decay a) (checkpoint a) (debug a) (use_tta a)
     (tta a) (lr_scheduler a) (gamma a) (factor a) (patience a) (cooldown a)
     (tmax a) (eta_min a) (epoch_warn a) (early_stopping a).

Definition set_num_epoch (v : Z) (a : t) : t :=
  mk (work_dir a) (phase a) (save_score a) (save_interval a) (eval_start a)
     (weights a) (ignore_weights a) (base_lr a) (step a) (optimizer a)
     (nesterov a) (batch_size a) (test_batch_size a) (forward_batch_size a)
     (start_epoch a) v (weight_decay a) (checkpoint a) (debug a) (use_tta a)
     (tta a) (lr_scheduler a) (gamma a) (factor a) (patience a) (cooldown a)
     (tmax a) (eta_min a) (epoch_warn a) (early_stopping a).

Definition set_checkpoint (v : option string) (a : t) : t :=
  mk (work_dir a) (phase a) (save_score a) (save_interval a) (eval_start a)
     (weights a) (ignore_weights a) (base_lr a) (step a) (optimizer a)
     (nesterov a) (batch_size a) (test_batch_size a) (forward_batch_size a)
     (start_epoch a) (num_epoch a) (weight_decay a) v (debug a) (use_tta a)
     (tta a) (lr_scheduler a) (gamma a) (factor a) (patience a) (cooldown a)
     (tmax a) (eta_min a) (epoch_warn a) (early_stopping a).

Definition set_lr_scheduler (v : string) (a : t) : t :=
  mk (work_dir a) (phase a) (save_score a) (save_interval a) (eval_start a)
     (weights a) (ignore_weights a) (base_lr a) (step a) (optimizer a)
     (nesterov a) (batch_size a) (test_batch_size a) (forward_batch_size a)
     (start_epoch a) (num_epoch a) (weight_decay a) (checkpoint a) (debug a)
     (use_tta a) (tta a) v (gamma a) (factor a) (patience a) (cooldown a)
     (tmax a) (eta_min a) (epoch_warn a) (early_stopping a).

Definition set_early_stopping (v : Z) (a : t) : t :=
  mk (work_dir a) (phase a) (save_score a) (save_interval a) (eval_start a)
     (weights a) (ignore_weights a) (base_lr a) (step a) (optimizer a)
     (nesterov a) (batch_size a) (test_batch_size a) (forward_batch_size a)
     (start_epoch a) (num_epoch a) (weight_decay a) (checkpoint a) (debug a)
     (use_tta a) (tta a) (lr_scheduler a) (gamma a) (factor a) (patience a)
     (cooldown a) (tmax a) (eta_min a) (epoch_warn a) v.


Definition set_ignore_weights (v : list string) (a : t) : t :=
  mk (work_dir a) (phase a) (save_score a) (save_interval a) (eval_start a)
     (weights a) v (base_lr a) (step a) (optimizer a) (nesterov a)
     (batch_size a) (test_batch_size a) (forward_batch_size a) (start_epoch a)
     (num_epoch a) (weight_decay a) (checkpoint a) (debug a) (use_tta a)
     (tta a) (lr_scheduler a) (gamma a) (factor a) (patience a) (cooldown a)
     (tmax a) (eta_min a) (epoch_warn a) (early_stopping a).

Definition set_phase (v : string) (a : t) : t :=
  mk (work_dir a) v (save_score a) (save_interval a) (eval_start a)
     (weights a) (ignore_weights a) (base_lr a) (step a) (optimizer a)
     (nesterov a) (batch_size a) (test_batch_size a) (forward_batch_size a)
     (start_epoch a) (num_epoch a) (weight_decay a) (checkpoint a) (debug a)
     (use_tta a) (tta a) (lr_scheduler a) (gamma a) (factor a) (patience a)
     (cooldown a) (tmax a) (eta_min a) (epoch_warn a) (early_stopping a).

Definition set_save_interval (v : Z) (a : t) : t :=
  mk (work_dir a) (phase a) (save_score a) v (eval_start a) (weights a)
     (ignore_weights a) (base_lr a) (step a) (optimizer a) (nesterov a)
     (batch_size a) (test_batch_size a) (forward_batch_size a) (start_epoch a)
     (num_epoch a) (weight_decay a) (checkpoint a) (debug a) (use_tta a)
     (tta a) (lr_scheduler a) (gamma a) (factor a) (patience a) (cooldown a)
     (tmax a) (eta_min a) (epoch_warn a) (early_stopping a).

End arg.

(** ** The monad of methods

    A method reads and mutates [self], of type [S], and returns a value or
    raises. *)

Definition M (S A : Type) : Type := S -> result A * S.

Definition ret {S A} (a : A) : M S A := fun s => (Ok a, s).

Definition bind {S A C} (c : M S A) (k : A -> M S C) : M S C :=
  fun s =>
    match c s with
    | (Ok a, s') => k a s'
    | (Raise e, s') => (Raise e, s')
    end.

Definition raise {S A} (e : exn) : M S A := fun s => (Raise e, s).

Definition gets {S A} (f : S -> A) : M S A := fun s => (Ok (f s), s).

Definition modify {S} (f : S -> S) : M S unit := fun s => (Ok tt, f s).

(** [try: c  except Exception as e: handler] *)
Definition try_except {S A} (c : M S A) (handler : exn -> M S A) : M S A :=
  fun s =>
    match c s with
    | (Ok a, s') => (Ok a, s')
    | (Raise e, s') => handler e s'
    end.

(** [for x in l: body(x)] *)
Fixpoint for_each {S A} (l : list A) (body : A -> M S unit) : M S unit :=
  match l with
  | [] => ret tt
  | x :: l' => bind (body x) (fun _ => for_each l' body)
  end.

(** A loop that carries the local variables [acc] of the enclosing
    method. *)
Fixpoint for_fold {S A C} (l : list A) (acc : C) (body : C -> A -> M S C)
  : M S C :=
  match l with
  | [] => ret acc
  | x :: l' => bind (body acc x) (fun acc' => for_fold l' acc' body)
  end.

(** [respects R c]: whatever [c] returns or raises, the state it leaves is
    related by [R] to the state it started from. *)
Definition respects {S A} (R : relation S) (c : M S A) : Prop :=
  forall s, R s (c s).2.

Declare Scope py_scope.
Delimit Scope py_scope with py.
Notation "x <- c ;; k" := (bind c (fun x => k))
  (at level 100, c at next level, right associativity) : py_scope.
Notation "c ;; k" := (bind c (fun _ => k))
  (at level 100, right associativity) : py_scope.

(** ** The collaborators *)

Class Backend : Type := {
  (** features of one sample *)
  Data : Type;
  (** the [.grad] buffers of the parameters *)
  Grad : Type;
  (** what [optimizer.state_dict()] and [lr_scheduler.state_dict()] hold;
      an optimizer or scheduler object is identified with this state *)
  OptState : Type;
  SchedState : Type;

  (** state dict of the model built by the constructor of the model class *)
  Model : gmap string tensor;
  (** [self.model(x)]: the scores, one row per sample, and the mean of the
      auxiliary term when the model returns a tuple *)
  forward : gmap string tensor -> list Data -> matrix * option Q;
  (** [nn.CrossEntropyLoss()] *)
  CrossEntropyLoss : matrix -> list Z -> Q;
  (** [torch.mean((torch.max(output, 1)[1] == label).float())] *)
  batch_accuracy : matrix -> list Z -> Q;
  (** gradients after [optimizer.zero_grad()] *)
  zero_grad : Grad;
  (** [loss.backward()] for [loss = CrossEntropyLoss(model(x), y) / splits]:
      adds to the buffers *)
  backward : gmap string tensor -> list Data -> list Z -> Z -> Grad -> Grad;

  (** [optim.SGD(params, lr, momentum, nesterov, weight_decay)] *)
  SGD : Q -> Q -> bool -> Q -> OptState;
  (** [optim.Adam(params, lr, weight_decay)] *)
  Adam : Q -> Q -> OptState;
  (** whether [optimizer.load_state_dict] accepts a saved state *)
  optimizer_accepts : OptState -> OptState -> bool;
  (** [optimizer.step()] *)
  optimizer_step :
    OptState -> gmap string tensor -> Grad -> OptState * gmap string tensor;
  (** [optimizer.param_groups[0]['lr']] *)
  optimizer_lr : OptState -> Q;

  (** the three schedulers; building one reads the optimizer *)
  MultiStepLR : OptState -> list Z -> Q -> SchedState;
  ReduceLROnPlateau : OptState -> Q -> Z -> Z -> SchedState;
  CosineAnnealingLR : OptState -> Z -> Q -> SchedState;
  (** [lr_scheduler.step()] and [lr_scheduler.step(loss)]: the scheduler
      writes the new rate into the optimizer it shares *)
  scheduler_step : SchedState -> option Q -> OptState -> SchedState * OptState;

  (** the feeder: training samples, test samples of a TTA entry, and its
      [top_k(score, k)] *)
  train_feeder : list (Data * Z * Z);
  test_feeder : bool * Z -> list (Data * Z * Z);
  top_k : list (Data * Z * Z) -> matrix -> Z -> Q;
  (** the permutation drawn by the shuffling loader for the pass of an
      epoch *)
  randperm : Z -> list (Data * Z * Z) -> list (Data * Z * Z);

  (** [int(s)] on a string; [None] when it raises *)
  parse_int : string -> option Z
}.

Section Methods.

Context `{B : Backend}.

Abbreviation sample := (Data * Z * Z)%type.
Abbreviation batch := (list (Data * Z * Z)).

(** Files read with [torch.load] and written with [torch.save] or
    [pickle.dump]. *)
Inductive file : Type :=
| CheckpointFile (epoch : Z) (optimizer_states : OptState)
    (lr_scheduler_states : SchedState)
| WeightsFile (entries : list (string * tensor))
| ScoreFile (score : matrix).

Inductive writer : Type := train_writer | val_writer.

(** Lines of [print_log] that report what was loaded, skipped or decided. *)
Inductive message : Type :=
| CannotParseGlobalStep
| LoadingWeightsFrom (path : string)
| SuccessfullyRemovedWeight (w : string)
| CannotRemoveWeight (w : string)
| ErrorLoadingWeights
| CannotFindTheseWeights
| MissingWeight (name : string)
| WeightsLoadedPartially
| LoadingOptimizerStatesFrom (path : string)
| LoadingLrScheduler (name : string)
| LoadingLrSchedulerStatesFrom (path : string)
| LoadDataset (name : string)
| EvalEpoch (epoch : Z)
| CounterEarlyStopping (n : Z)
| CounterEarlyStoppingLimit.

Inductive event : Type :=
| Log (m : message)
| Scalar (w : writer) (tag : string) (value : Q) (global_step : Q)
| ModelMode (training : bool)
| ZeroGrad
| Forward (x : list Data)
| Backward (loss : Q)
| OptimizerStep
| SchedulerStep (metric : option Q)
| TorchSave (path : string)
| PickleDump (path : string)
| EmptyCache.

(** ** [self] *)

Record Processor : Type := mkProcessor {
  global_step : Q;
  lr : Q;
  best_acc : Q;
  best_acc_epoch : Z;
  best_loss_val : Q;
  counter_early_stopping : Z;
  model : gmap string tensor;
  grad : Grad;
  optimizer : option OptState;
  lr_scheduler : option SchedState;
  lst_name_test_tta : list string;
  data_loader : gmap string (data.DataLoader Data);
  disk : gmap string file;
  trace : list event
}.

Definition set_global_step (v : Q) (s : Processor) : Processor :=
  mkProcessor v (lr s) (best_acc s) (best_acc_epoch s) (best_loss_val s)
    (counter_early_stopping s) (model s) (grad s) (optimizer s)
    (lr_scheduler s) (lst_name_test_tta s) (data_loader s) (disk s) (trace s).
Definition set_lr (v : Q) (s : Processor) : Processor :=
  mkProcessor (global_step s) v (best_acc s) (best_acc_epoch s)
    (best_loss_val s) (counter_early_stopping s) (model s) (grad s)
    (optimizer s) (lr_scheduler s) (lst_name_test_tta s) (data_loader s)
    (disk s) (trace s).
Definition set_best_acc (v : Q) (s : Processor) : Processor :=
  mkProcessor (global_step s) (lr s) v (best_acc_epoch s) (best_loss_val s)
    (counter_early_stopping s) (model s) (grad s) (optimizer s)
    (lr_scheduler s) (lst_name_test_tta s) (data_loader s) (disk s) (trace s).
Definition set_best_acc_epoch (v : Z) (s : Processor) : Processor :=
  mkProcessor (global_step s) (lr s) (best_acc s) v (best_loss_val s)
    (counter_early_stopping s) (model s) (grad s) (optimizer s)
    (lr_scheduler s) (lst_name_test_tta s) (data_loader s) (disk s) (trace s).
Definition set_best_loss_val (v : Q) (s : Processor) : Processor :=
  mkProcessor (global_step s) (lr s) (best_acc s) (best_acc_epoch s) v
    (counter_early_stopping s) (model s) (grad s) (optimizer s)
    (lr_scheduler s) (lst_name_test_tta s) (data_loader s) (disk s) (trace s).
Definition set_counter_early_stopping (v : Z) (s : Processor) : Processor :=
  mkProcessor (global_step s) (lr s) (best_acc s) (best_acc_epoch s)
    (best_loss_val s) v (model s) (grad s) (optimizer s) (lr_scheduler s)
    (lst_name_test_tta s) (data_loader s) (disk s) (trace s).
Definition set_model (v : gmap string tensor) (s : Processor) : Processor :=
  mkProcessor (global_step s) (lr s) (best_acc s) (best_acc_epoch s)
    (best_loss_val s) (counter_early_stopping s) v (grad s) (optimizer s)
    (lr_scheduler s) (lst_name_test_tta s) (data_loader s) (disk s) (trace s).
Definition set_grad (v : Grad) (s : Processor) : Processor :=
  mkProcessor (global_step s) (lr s) (best_acc s) (best_acc_epoch s)
    (best_loss_val s) (counter_early_stopping s) (model s) v (optimizer s)
    (lr_scheduler s) (lst_name_test_tta s) (data_loader s) (disk s) (trace s).
Definition set_optimizer (v : option OptState) (s : Processor) : Processor :=
  mkProcessor (global_step s) (lr s) (best_acc s) (best_acc_epoch s)
    (best_loss_val s) (counter_early_stopping s) (model s) (grad s) v
    (lr_scheduler s) (lst_name_test_tta s) (data_loader s) (disk s) (trace s).
Definition set_lr_scheduler (v : option SchedState) (s : Processor)
  : Processor :=
  mkProcessor (global_step s) (lr s) (best_acc s) (best_acc_epoch s)
    (best_loss_val s) (counter_early_stopping s) (model s) (grad s)
    (optimizer s) v (lst_name_test_tta s) (data_loader s) (disk s) (trace s).
Definition set_lst_name_test_tta (v : list string) (s : Processor)
  : Processor :=
  mkProcessor (global_step s) (lr s) (best_acc s) (best_acc_epoch s)
    (best_loss_val s) (counter_early_stopping s) (model s) (grad s)
    (optimizer s) (lr_scheduler s) v (data_loader s) (disk s) (trace s).
Definition set_data_loader (v : gmap string (data.DataLoader Data))
    (s : Processor) : Processor :=
  mkProcessor (global_step s) (lr s) (best_acc s) (best_acc_epoch s)
    (best_loss_val s) (counter_early_stopping s) (model s) (grad s)
    (optimizer s) (lr_scheduler s) (lst_name_test_tta s) v (disk s) (trace s).
Definition set_disk (v : gmap string file) (s : Processor) : Processor :=
  mkProcessor (global_step s) (lr s) (best_acc s) (best_acc_epoch s)
    (best_loss_val s) (counter_early_stopping s) (model s) (grad s)
    (optimizer s) (lr_scheduler s) (lst_name_test_tta s) (data_loader s) v
    (trace s).
Definition set_trace (v : list event) (s : Processor) : Processor :=
  mkProcessor (global_step s) (lr s) (best_acc s) (best_acc_epoch s)
    (best_loss_val s) (counter_early_stopping s) (model s) (grad s)
    (optimizer s) (lr_scheduler s) (lst_name_test_tta s) (data_loader s)
    (disk s) v.

Local Open Scope py_scope.

Abbreviation Method := (M Processor).

Definition emit (e : event) : Method unit :=
  modify (fun s => set_trace (trace s ++ [e]) s).

Definition print_log (m : message) : Method unit := emit (Log m).

(** [torch.load(path)] *)
Definition torch_load (path : string) : Method file :=
  d <- gets disk ;;
  match d !! path with
  | Some f => ret f
  | None => raise (FileNotFoundError path)
  end.

(** ** [Processor.get_lst_name_test_tta] *)

Definition get_lst_name_test_tta (a : arg.t) : Method unit :=
  for_each (imap (fun idx _ => idx) (arg.tta a)) (fun idx =>
    let name_test_tta := "test_tta_" +:+ Py.str (Z.of_nat idx) in
    modify (fun s =>
      set_lst_name_test_tta (lst_name_test_tta s ++ [name_test_tta]) s)).

(** ** [Processor.load_model] *)

(** [OrderedDict([[k.split('module.')[-1], v] for k, v in weights.items()])]:
    a later entry replaces an earlier one of the same name. *)
Definition strip_module (entries : list (string * tensor))
  : gmap string tensor :=
  fold_left (fun w kv => <[Py.split_last "module." kv.1 := kv.2]> w)
    entries ∅.

(** Lines 454-472: the load that tolerates missing and unexpected names,
    and what is done when it raises. *)
Definition try_load_state_dict (weights : gmap string tensor)
  : Method unit :=
  try_except
    (fun s =>
       let '(r, m) := nn.load_state_dict (model s) weights false in
       (r, set_model m s))
    (fun e =>
       print_log ErrorLoadingWeights ;;
       state <- gets model ;;
       print_log CannotFindTheseWeights ;;
       for_each (elements (dom state ∖ dom weights))
         (fun d => print_log (MissingWeight d)) ;;
       (fun s =>
          let '(r, m) :=
            nn.load_state_dict (model s) (weights ∪ state) true in
          (r, set_model m s)) ;;
       print_log WeightsLoadedPartially).

(** One turn of [for w in self.arg.ignore_weights]. *)
Definition ignore_weight (weights : gmap string tensor) (w : string)
  : Method (gmap string tensor) :=
  match weights !! w with
  | Some _ =>
      print_log (SuccessfullyRemovedWeight w) ;;
      ret (delete w weights)
  | None =>
      print_log (CannotRemoveWeight w) ;;
      ret weights
  end.

Definition load_model (a : arg.t) : Method unit :=
  modify (set_model Model) ;;
  match arg.weights a with
  | None | Some EmptyString => ret tt
  | Some path =>
      match parse_int (Py.split_last "-" (Py.drop_last 3 path)) with
      | Some n => modify (set_global_step (inject_Z n))
      | None =>
          print_log CannotParseGlobalStep ;;
          modify (set_global_step 0%Q)
      end ;;
      print_log (LoadingWeightsFrom path) ;;
      f <- (if Py.contains ".pkl" path
            then (* the pickle is opened in text mode *)
              torch_load path ;; raise TypeError
            else torch_load path) ;;
      entries <- match f with
                 | WeightsFile entries => ret entries
                 | _ => raise AttributeError
                 end ;;
      weights <- for_fold (arg.ignore_weights a) (strip_module entries)
                   ignore_weight ;;
      try_load_state_dict weights
  end.

(** ** [Processor.load_optimizer] and [Processor.load_lr_scheduler] *)

Definition checkpoint_of (f : file) (key : string)
  : Method (Z * OptState * SchedState) :=
  match f with
  | CheckpointFile epoch o sch => ret (epoch, o, sch)
  | _ => raise (KeyError key)
  end.

(** [self.optimizer], an [AttributeError] while it is not assigned. *)
Definition get_optimizer : Method OptState :=
  o <- gets optimizer ;;
  match o with
  | Some o => ret o
  | None => raise AttributeError
  end.

Definition load_optimizer (a : arg.t) : Method unit :=
  (if String.eqb (arg.optimizer a) "SGD"
   then modify (set_optimizer (Some
          (SGD (arg.base_lr a) (9 # 10) (arg.nesterov a) (arg.weight_decay a))))
   else if String.eqb (arg.optimizer a) "Adam"
   then modify (set_optimizer (Some
          (Adam (arg.base_lr a) (arg.weight_decay a))))
   else raise (ValueError ("Unsupported optimizer: " +:+ arg.optimizer a))) ;;
  match arg.checkpoint a with
  | None => ret tt
  | Some path =>
      print_log (LoadingOptimizerStatesFrom path) ;;
      f <- torch_load path ;;
      c <- checkpoint_of f "optimizer_states" ;;
      o <- get_optimizer ;;
      if optimizer_accepts o c.1.2
      then modify (set_optimizer (Some c.1.2))
      else raise (ValueError "loaded state dict does not fit the optimizer")
  end.

Definition load_lr_scheduler (a : arg.t) : Method unit :=
  print_log (LoadingLrScheduler (arg.lr_scheduler a)) ;;
  modify (set_lr_scheduler None) ;;
  (if String.eqb (arg.lr_scheduler a) "MultiStepLR"
   then o <- get_optimizer ;;
        modify (set_lr_scheduler
                  (Some (MultiStepLR o (arg.step a) (arg.gamma a))))
   else ret tt) ;;
  (if String.eqb (arg.lr_scheduler a) "ReduceLROnPlateau"
   then o <- get_optimizer ;;
        modify (set_lr_scheduler
                  (Some (ReduceLROnPlateau o (arg.factor a) (arg.patience a)
                           (arg.cooldown a))))
   else ret tt) ;;
  (if String.eqb (arg.lr_scheduler a) "CosineAnnealingLR"
   then o <- get_optimizer ;;
        modify (set_lr_scheduler
                  (Some (CosineAnnealingLR o (arg.tmax a) (arg.eta_min a))))
   else ret tt) ;;
  match arg.checkpoint a with
  | None => ret tt
  | Some path =>
      f <- torch_load path ;;
      c <- checkpoint_of f "lr_scheduler_states" ;;
      print_log (LoadingLrSchedulerStatesFrom path) ;;
      sch <- gets lr_scheduler ;;
      match sch with
      | None => raise AttributeError
      | Some _ => modify (set_lr_scheduler (Some c.2))
      end
  end.

(** ** [Processor.load_data] *)

(** [DataLoader(...)]: the constructor rejects a batch size that is not
    positive. *)
Definition new_DataLoader (dataset : batch) (batch_size : Z)
    (shuffle drop_last : bool) : Method (data.DataLoader Data) :=
  if batch_size <=? 0
  then raise (ValueError "batch_size should be a positive integer value")
  else ret (data.mkDataLoader dataset batch_size shuffle drop_last).

Definition load_data (a : arg.t) : Method unit :=
  modify (set_data_loader ∅) ;;
  (if String.eqb (arg.phase a) "train"
   then
     ld <- new_DataLoader train_feeder (arg.batch_size a) true true ;;
     modify (fun s => set_data_loader (<["train" := ld]> (data_loader s)) s)
   else ret tt) ;;
  names <- gets lst_name_test_tta ;;
  for_each (imap (fun idx name => (idx, name)) names) (fun p =>
    print_log (LoadDataset p.2) ;;
    tta_idx <- match arg.tta a !! p.1 with
               | Some c => ret c
               | None => raise IndexError
               end ;;
    ld <- new_DataLoader (test_feeder tta_idx) (arg.test_batch_size a)
            false false ;;
    modify (fun s => set_data_loader (<[p.2 := ld]> (data_loader s)) s)).

(** ** [Processor.__init__] *)

(** The object before [__init__] has assigned anything; [files] is the
    file system the process starts on. *)
Definition blank (files : gmap string file) : Processor :=
  mkProcessor 0%Q 0%Q 0%Q 0 0%Q 0 ∅ zero_grad None None [] ∅ files [].

Definition init (a : arg.t) : Method unit :=
  modify (set_lst_name_test_tta []) ;;
  get_lst_name_test_tta a ;;
  load_model a ;;
  load_optimizer a ;;
  load_lr_scheduler a ;;
  load_data a ;;
  modify (set_global_step 0%Q) ;;
  modify (set_lr (arg.base_lr a)) ;;
  modify (set_best_acc 0%Q) ;;
  modify (set_best_acc_epoch 0) ;;
  modify (set_best_loss_val (-1)%Q) ;;
  modify (set_counter_early_stopping 0).

(** ** [Processor.save_states], [save_checkpoint], [save_weights] *)

Definition save_states (a : arg.t) (states : file)
    (out_folder out_name : string) : Method unit :=
  let out_folder_path := Py.path_join (arg.work_dir a) out_folder in
  let out_path := Py.path_join out_folder_path out_name in
  modify (fun s => set_disk (<[out_path := states]> (disk s)) s) ;;
  emit (TorchSave out_path).

Definition save_checkpoint (a : arg.t) (epoch : Z) : Method unit :=
  o <- get_optimizer ;;
  sch <- gets lr_scheduler ;;
  sch <- match sch with
         | Some sch => ret sch
         | None => raise AttributeError
         end ;;
  gs <- gets global_step ;;
  let checkpoint_name :=
    "checkpoint-" +:+ Py.str epoch +:+ "-fwbz"
      +:+ Py.str (arg.forward_batch_size a) +:+ "-" +:+ Py.str (Py.int gs)
      +:+ ".pt" in
  save_states a (CheckpointFile epoch o sch) "checkpoints" checkpoint_name.

Definition save_weights (a : arg.t) (epoch : Z) : Method unit :=
  state_dict <- gets model ;;
  let weights :=
    map (fun kv : string * tensor => (Py.split_last "module." kv.1, kv.2))
      (map_to_list state_dict) in
  let weights_name := "weights-" +:+ Py.str epoch +:+ ".pt" in
  save_states a (WeightsFile weights) "weights" weights_name.

(** ** [Processor.train] *)

Definition get_loader (name : string) : Method (data.DataLoader Data) :=
  loaders <- gets data_loader ;;
  match loaders !! name with
  | Some ld => ret ld
  | None => raise (KeyError name)
  end.

(** One turn of [for i in range(splits)]; [stats] is
    [(loss_values, acc_values)]. *)
Definition train_split (splits real_batch_size : Z) (data : list Data)
    (label : list Z) (stats : list Q * list Q) (i : Z)
  : Method (list Q * list Q) :=
  let left := i * real_batch_size in
  let right := left + real_batch_size in
  let batch_data := Py.slice data left right in
  let batch_label := Py.slice label left right in
  w <- gets model ;;
  emit (Forward batch_data) ;;
  let output := forward w batch_data in
  let l1 := default 0%Q output.2 in
  let loss := (CrossEntropyLoss output.1 batch_label / inject_Z splits)%Q in
  modify (fun s =>
    set_grad (backward (model s) batch_data batch_label splits (grad s)) s) ;;
  emit (Backward loss) ;;
  let acc := batch_accuracy output.1 batch_label in
  gs <- gets global_step ;;
  emit (Scalar train_writer "acc" acc gs) ;;
  emit (Scalar train_writer "loss" (loss * inject_Z splits)%Q gs) ;;
  emit (Scalar train_writer "loss_l1" l1 gs) ;;
  ret (stats.1 ++ [loss], stats.2 ++ [acc]).

(** One turn of [for batch_idx, (data, label, index) in enumerate(process)]. *)
Definition train_batch (a : arg.t) (stats : list Q * list Q) (b : batch)
  : Method (list Q * list Q) :=
  modify (fun s => set_global_step (global_step s + 1)%Q s) ;;
  let data := map (fun x : sample => x.1.1) b in
  let label := map (fun x : sample => x.1.2) b in
  get_optimizer ;;
  modify (set_grad zero_grad) ;;
  emit ZeroGrad ;;
  let real_batch_size := arg.forward_batch_size a in
  (if real_batch_size =? 0 then raise ZeroDivisionError else ret tt) ;;
  let splits := Py.len data / real_batch_size in
  (if Py.len data mod real_batch_size =? 0 then ret tt
   else raise (AssertionError
                 "Real batch size should be a factor of arg.batch_size!")) ;;
  stats' <- for_fold (Py.range 0 splits) stats
              (train_split splits real_batch_size data label) ;;
  o <- get_optimizer ;;
  modify (fun s =>
    let ow := optimizer_step o (model s) (grad s) in
    set_model ow.2 (set_optimizer (Some ow.1) s)) ;;
  emit OptimizerStep ;;
  modify (fun s => set_lr (from_option optimizer_lr (lr s) (optimizer s)) s) ;;
  l <- gets lr ;;
  gs <- gets global_step ;;
  emit (Scalar train_writer "lr" l gs) ;;
  (* [del output]: the name is bound only when a split has run *)
  if splits <=? 0 then raise UnboundLocalError else ret stats'.

Definition train (a : arg.t) (epoch : Z) (save_model : bool) : Method unit :=
  emit (ModelMode true) ;;
  loader <- get_loader "train" ;;
  gs <- gets global_step ;;
  emit (Scalar train_writer "epoch" (inject_Z (epoch + 1)) gs) ;;
  (* [current_lr = self.optimizer.param_groups[0]['lr']] *)
  get_optimizer ;;
  stats <- for_fold (data.batches (randperm epoch) loader) ([], [])
             (train_batch a) ;;
  (* [torch.stack(acc_values)] *)
  (match stats.2 with
   | [] => raise (RuntimeError "stack expects a non-empty TensorList")
   | _ :: _ => ret tt
   end) ;;
  (* [num_splits = self.arg.batch_size // self.arg.forward_batch_size] *)
  (if arg.forward_batch_size a =? 0 then raise ZeroDivisionError
   else ret tt) ;;
  sch <- gets lr_scheduler ;;
  match sch with
  | Some sch =>
      if negb (String.eqb (arg.lr_scheduler a) "ReduceLROnPlateau")
         && (arg.epoch_warn a <=? epoch)
      then
        o <- get_optimizer ;;
        let so := scheduler_step sch None o in
        modify (set_lr_scheduler (Some so.1)) ;;
        modify (set_optimizer (Some so.2)) ;;
        emit (SchedulerStep None)
      else ret tt
  | None => ret tt
  end ;;
  if save_model
  then save_weights a (epoch + 1) ;; save_checkpoint a (epoch + 1)
  else ret tt.

(** ** [Processor.eval] *)

(** One turn of the loop over the batches of a view; [st] is
    [(score_batches, loss_values, l1)]. *)
Definition eval_batch (st : list matrix * list Q * Q) (b : batch)
  : Method (list matrix * list Q * Q) :=
  let data := map (fun x : sample => x.1.1) b in
  let label := map (fun x : sample => x.1.2) b in
  w <- gets model ;;
  emit (Forward data) ;;
  let output := forward w data in
  let l1 := default 0%Q output.2 in
  let loss := CrossEntropyLoss output.1 label in
  ret (st.1.1 ++ [output.1], st.1.2 ++ [loss], l1).

(** One turn of [for ln_idx, ln in enumerate(loader_name)]; [st] is
    [(lst_score, lst_losses, l1)].  The network gives every batch the same
    number of columns, so [np.concatenate] fails on an empty list only. *)
Definition eval_view (st : list matrix * list Q * Q) (ln : string)
  : Method (list matrix * list Q * Q) :=
  ld <- get_loader ln ;;
  r <- for_fold (data.batches (fun x => x) ld) ([], [], st.2) eval_batch ;;
  match r.1.1 with
  | [] => raise (ValueError "need at least one array to concatenate")
  | _ :: _ =>
      ret (st.1.1 ++ [concat r.1.1], st.1.2 ++ [Py.mean r.1.2], r.2)
  end.

(** One turn of [for i in range(len(lst_score))]; [st] is [(score, iter)]. *)
Definition fuse_step (st : option (matrix * Z)) (score_i : matrix)
  : option (matrix * Z) :=
  match st with
  | None => None
  | Some (score, iter) =>
      match np.iadd score score_i with
      | None => None
      | Some score' => Some (score', iter + 1)
      end
  end.

(** Lines 851-856: the fused score of the views. *)
Definition fuse (lst_score : list matrix) : result matrix :=
  match lst_score with
  | [] | [] :: _ => Raise IndexError
  | (row :: _) as first :: _ =>
      let score := np.zeros (length first) (length row) in
      match fold_left fuse_step lst_score (Some (score, 0)) with
      | None => Raise (ValueError "operands could not be broadcast together")
      | Some (score, iter) => Ok (np.idiv score iter)
      end
  end.

Definition lift {A} (r : result A) : Method A :=
  match r with
  | Ok a => ret a
  | Raise e => raise e
  end.

(** Lines 816-857: the pass over the views, then the fusion; the result is
    [(score, loss, l1)]. *)
Definition eval_views (loader_name : list string)
  : Method (matrix * Q * Q) :=
  r <- for_fold loader_name ([], [], 0%Q) eval_view ;;
  score <- lift (fuse r.1.1) ;;
  ret (score, Py.mean r.1.2, r.2).

(** Lines 860-870: best accuracy, best validation loss and the
    early-stopping counter. *)
Definition track_best (epoch : Z) (accuracy loss : Q) : Method unit :=
  ba <- gets best_acc ;;
  (if Py.gt accuracy ba
   then modify (set_best_acc accuracy) ;;
        modify (set_best_acc_epoch (epoch + 1))
   else ret tt) ;;
  bl <- gets best_loss_val ;;
  if Py.gt loss bl && Py.ne bl (-1)%Q
  then modify (fun s =>
         set_counter_early_stopping (counter_early_stopping s + 1) s)
  else modify (set_counter_early_stopping 0) ;;
       modify (set_best_loss_val loss).

(** Lines 874-894: what follows the bookkeeping. *)
Definition eval_report (a : arg.t) (epoch : Z) (save_score : bool)
    (score : matrix) (accuracy loss l1 : Q) : Method unit :=
  gs <- gets global_step ;;
  (if String.eqb (arg.phase a) "train" && negb (arg.debug a)
   then emit (Scalar val_writer "loss" loss gs) ;;
        emit (Scalar val_writer "loss_l1" l1 gs) ;;
        emit (Scalar val_writer "acc" accuracy gs)
   else ret tt) ;;
  sch <- gets lr_scheduler ;;
  (match sch with
   | Some sch =>
       if String.eqb (arg.lr_scheduler a) "ReduceLROnPlateau"
       then
         o <- get_optimizer ;;
         let so := scheduler_step sch (Some loss) o in
         modify (set_lr_scheduler (Some so.1)) ;;
         modify (set_optimizer (Some so.2)) ;;
         emit (SchedulerStep (Some loss))
       else ret tt
   | None => ret tt
   end) ;;
  (if save_score
   then
     let path := arg.work_dir a +:+ "/epoch" +:+ Py.str (epoch + 1)
                   +:+ "_test_score.pkl" in
     modify (fun s => set_disk (<[path := ScoreFile score]> (disk s)) s) ;;
     emit (PickleDump path)
   else ret tt) ;;
  emit EmptyCache.

Definition eval (a : arg.t) (epoch : Z) (save_score : bool)
    (loader_name : list string) : Method unit :=
  if epoch + 1 <? arg.eval_start a then ret tt
  else
    emit (ModelMode false) ;;
    print_log (EvalEpoch (epoch + 1)) ;;
    v <- eval_views loader_name ;;
    let score := v.1.1 in
    let loss := v.1.2 in
    let l1 := v.2 in
    ld <- get_loader (List.last loader_name "") ;;
    let accuracy := top_k (data.dataset ld) score 1 in
    track_best epoch accuracy loss ;;
    eval_report a epoch save_score score accuracy loss l1.

(** ** [Processor.start] *)

(** Lines 918-923: whether the loop is left with [break]. *)
Definition check_early_stopping (a : arg.t) : Method bool :=
  if 0 <? arg.early_stopping a
  then
    c <- gets counter_early_stopping ;;
    if 0 <? c
    then
      print_log (CounterEarlyStopping c) ;;
      if arg.early_stopping a <? c
      then print_log CounterEarlyStoppingLimit ;; ret true
      else ret false
    else ret false
  else ret false.

(** The body of [for epoch in range(start_epoch, num_epoch)]; the result
    tells whether the loop was left with [break]. *)
Definition loop_body (a : arg.t) (epoch : Z) : Method bool :=
  (if arg.save_interval a =? 0 then raise ZeroDivisionError else ret tt) ;;
  let save_model :=
    ((epoch + 1) mod arg.save_interval a =? 0)
    || (epoch + 1 =? arg.num_epoch a) in
  train a epoch save_model ;;
  names <- gets lst_name_test_tta ;;
  eval a epoch (arg.save_score a) names ;;
  check_early_stopping a.

Fixpoint epoch_loop (a : arg.t) (epochs : list Z) : Method unit :=
  match epochs with
  | [] => ret tt
  | epoch :: rest =>
      stop <- loop_body a epoch ;;
      if stop : bool then ret tt else epoch_loop a rest
  end.

Definition start (a : arg.t) : Method unit :=
  if String.eqb (arg.phase a) "train"
  then
    loader <- get_loader "train" ;;
    (if arg.batch_size a =? 0 then raise ZeroDivisionError else ret tt) ;;
    modify (set_global_step
              (inject_Z (arg.start_epoch a * data.len loader)
               / inject_Z (arg.batch_size a))%Q) ;;
    epoch_loop a (Py.range (arg.start_epoch a) (arg.num_epoch a))
  else if String.eqb (arg.phase a) "test"
  then
    match arg.weights a with
    | None => raise (ValueError "Please appoint --weights.")
    | Some _ =>
        names <- gets lst_name_test_tta ;;
        eval a 0 (arg.save_score a) names
    end
  else ret tt.

(** ** [main], from the parsed arguments on *)

Definition main (a : arg.t) : Method unit :=
  a <- (if arg.use_tta a then ret a
        else match arg.tta a with
             | first :: _ => ret (arg.set_tta [first] a)
             | [] => raise IndexError
             end) ;;
  init a ;;
  start a.

(** ** Reading a trace *)

(** What kind of event it is, without the tensors and numbers it
    carries. *)
Inductive kind : Type :=
| KLog (m : message)
| KScalar (w : writer) (tag : string)
| KModelMode (training : bool)
| KZeroGrad
| KForward (samples : nat)
| KBackward
| KOptimizerStep
| KSchedulerStep (on_metric : bool)
| KTorchSave (path : string)
| KPickleDump (path : string)
| KEmptyCache.

Definition kind_of (e : event) : kind :=
  match e with
  | Log m => KLog m
  | Scalar w tag _ _ => KScalar w tag
  | ModelMode training => KModelMode training
  | ZeroGrad => KZeroGrad
  | Forward x => KForward (length x)
  | Backward _ => KBackward
  | OptimizerStep => KOptimizerStep
  | SchedulerStep metric => KSchedulerStep (bool_decide (is_Some metric))
  | TorchSave path => KTorchSave path
  | PickleDump path => KPickleDump path
  | EmptyCache => KEmptyCache
  end.

(** What a training epoch does before it saves. *)
Definition training_event (e : event) : bool :=
  match e with
  | ModelMode true | Scalar train_writer _ _ _ | ZeroGrad | Forward _
  | Backward _ | OptimizerStep | SchedulerStep None => true
  | _ => false
  end.

(** What an evaluation does, with the early-stopping lines that follow
    it. *)
Definition evaluation_event (e : event) : bool :=
  match e with
  | ModelMode false | Log (EvalEpoch _) | Forward _ | Scalar val_writer _ _ _
  | SchedulerStep (Some _) | PickleDump _ | EmptyCache
  | Log (CounterEarlyStopping _) | Log CounterEarlyStoppingLimit => true
  | _ => false
  end.

Definition is_log (e : event) : bool :=
  match e with Log _ => true | _ => false end.

Definition is_zero_grad (e : event) : bool :=
  match e with ZeroGrad => true | _ => false end.

Definition is_backward (e : event) : bool :=
  match e with Backward _ => true | _ => false end.

Definition is_optimizer_step (e : event) : bool :=
  match e with OptimizerStep => true | _ => false end.

Definition count (P : event -> bool) (t : list event) : nat :=
  length (List.filter P t).

(** The epoch numbers a trace reports to the training writer. *)
Definition epochs_trained (t : list event) : list Q :=
  omap (fun e => match e with
                 | Scalar train_writer "epoch" v _ => Some v
                 | _ => None
                 end) t.

(** [extends P s s']: [s'] has the trace of [s] followed by events that all
    satisfy [P]. *)
Definition extends (P : event -> bool) (s s' : Processor) : Prop :=
  exists t, trace s' = trace s ++ t /\ forallb P t = true.

(** What one micro-batch must leave in the trace. *)
Definition micro_batch_events (w : gmap string tensor) (gs : Q)
    (splits real_batch_size : Z) (data : list Data) (label : list Z) (i : Z)
  : list event :=
  let left := i * real_batch_size in
  let right := left + real_batch_size in
  let x := Py.slice data left right in
  let y := Py.slice label left right in
  let output := forward w x in
  let loss := (CrossEntropyLoss output.1 y / inject_Z splits)%Q in
  [Forward x;
   Backward loss;
   Scalar train_writer "acc" (batch_accuracy output.1 y) gs;
   Scalar train_writer "loss" (loss * inject_Z splits)%Q gs;
   Scalar train_writer "loss_l1" (default 0%Q output.2) gs].

(** What the micro-batches of a macro-batch leave alone. *)
Definition frame (s s' : Processor) : Prop :=
  global_step s' = global_step s /\ model s' = model s /\
  optimizer s' = optimizer s /\ lr_scheduler s' = lr_scheduler s /\
  disk s' = disk s /\ data_loader s' = data_loader s.

(** What the loop over the macro-batches adds to the trace. *)
Record epoch_trace (n splits : nat) (t : list event) : Prop := {
  zero_grads : count is_zero_grad t = n;
  optimizer_steps : count is_optimizer_step t = n;
  backwards : count is_backward t = (n * splits)%nat;
  all_training : forallb training_event t = true
}.

(** The events that the counts of an epoch leave out. *)
Definition uncounted (e : event) : bool :=
  negb (is_zero_grad e || is_optimizer_step e || is_backward e).

(** [quiet s s']: no step was taken between [s] and [s']. *)
Definition quiet (s s' : Processor) : Prop :=
  global_step s' = global_step s /\ extends uncounted s s'.

(** The snapshot that [load_model] hands to the model: the entries of the
    file under their normalized names, without the ignored ones. *)
Definition snapshot (a : arg.t) (entries : list (string * tensor))
  : gmap string tensor :=
  fold_left (fun w k => delete k w) (arg.ignore_weights a)
    (strip_module entries).

(** No entry of the snapshot has another shape than the parameter of the
    same name. *)
Definition fits (m : gmap string tensor) (kt : string * tensor) : bool :=
  match m !! kt.1 with
  | Some p => bool_decide (shape kt.2 = shape p)
  | None => true
  end.

Definition compatible (m sd : gmap string tensor) : bool :=
  forallb (fits m) (map_to_list sd).

(** What [load_model] logs before it hands the snapshot to the model. *)
Definition loading_event (e : event) : bool :=
  match e with
  | Log CannotParseGlobalStep | Log (LoadingWeightsFrom _)
  | Log (SuccessfullyRemovedWeight _) | Log (CannotRemoveWeight _) => true
  | _ => false
  end.

Definition any_event (e : event) : bool := true.

(** [begins_with pre c s]: run from [s], the first thing [c] does to the
    outside is [pre]. *)
Definition begins_with {A} (pre : list event) (c : Method A) (s : Processor)
  : Prop :=
  exists t, trace (c s).2 = trace s ++ pre ++ t.

(** The fields updated by [track_best]. *)
Definition book (s : Processor) : Q * Z * Q * Z :=
  (best_acc s, best_acc_epoch s, best_loss_val s, counter_early_stopping s).

Definition same_book (s s' : Processor) : Prop := book s' = book s.

Definition best_acc_grows (s s' : Processor) : Prop :=
  (best_acc s <= best_acc s')%Q.

Definition same_views (s s' : Processor) : Prop :=
  lst_name_test_tta s' = lst_name_test_tta s.

(** The validation losses a trace reports, one per evaluated epoch. *)
Definition validation_losses (t : list event) : list Q :=
  omap (fun e => match e with
                 | Scalar val_writer "loss" v _ => Some v
                 | _ => None
                 end) t.

(** The epoch numbers a trace reports as evaluated. *)
Definition epochs_evaluated (t : list event) : list Z :=
  omap (fun e => match e with
                 | Log (EvalEpoch n) => Some n
                 | _ => None
                 end) t.

End Methods.

(** ** A small concrete world

    Samples are numbers; the model has a weight and a bias, and every
    optimizer step adds one to the bias, so the bias counts the steps taken.
    The network returns one row [bias, x] per sample and the loss reads the
    step count off the first column and looks it up in [losses], which
    makes the validation loss of each epoch a chosen number. *)

Module Demo.

Definition fc_weight : tensor := Tensor [2] [0%Q; 0%Q].
Definition fc_bias (k : Z) : tensor := Tensor [1] [inject_Z k].

Definition bias_of (w : gmap string tensor) : Q :=
  match w !! "fc.bias" with
  | Some (Tensor _ (k :: _)) => k
  | _ => 0%Q
  end.

Definition loss_of (losses : list Q) (output : matrix) : Q :=
  match output with
  | (k :: _) :: _ => nth (Z.to_nat (Qnum k)) losses 0%Q
  | _ => 0%Q
  end.

Definition samples (n : nat) : list (Z * Z * Z) :=
  map (fun i : nat => (Z.of_nat i, 0, Z.of_nat i)) (seq 0 n).

Definition world (losses : list Q) (n_train : nat) : Backend := {|
  Data := Z;
  Grad := Z;
  OptState := Z;
  SchedState := Z;
  Model := <["fc.weight" := fc_weight]> (<["fc.bias" := fc_bias 0]> ∅);
  forward w xs := (map (fun x => [bias_of w; inject_Z x]) xs, None);
  CrossEntropyLoss output _ := loss_of losses output;
  batch_accuracy _ _ := 1%Q;
  zero_grad := 0;
  backward _ _ _ _ g := g + 1;
  SGD _ _ _ _ := 0;
  Adam _ _ := 0;
  optimizer_accepts _ _ := true;
  optimizer_step o w g :=
    (o + 1, <["fc.bias" := Tensor [1] [(bias_of w + 1)%Q]]> w);
  optimizer_lr _ := (1 # 100)%Q;
  MultiStepLR _ _ _ := 0;
  ReduceLROnPlateau _ _ _ _ := 0;
  CosineAnnealingLR _ _ _ := 0;
  scheduler_step sch _ o := (sch + 1, o);
  train_feeder := samples n_train;
  test_feeder _ := samples 2;
  top_k _ score _ := match score with (k :: _) :: _ => k | _ => 0%Q end;
  randperm _ l := l;
  parse_int _ := Some 7
|}.

(** The defaults of [get_parser], with a training set-up of two samples
    per macro-batch. *)
Definition args : arg.t := {|
  arg.work_dir := "work";
  arg.phase := "train";
  arg.save_score := false;
  arg.save_interval := 1;
  arg.eval_start := 1;
  arg.weights := None;
  arg.ignore_weights := [];
  arg.base_lr := (1 # 100)%Q;
  arg.step := [20; 40; 60];
  arg.optimizer := "SGD";
  arg.nesterov := false;
  arg.batch_size := 2;
  arg.test_batch_size := 256;
  arg.forward_batch_size := 1;
  arg.start_epoch := 0;
  arg.num_epoch := 3;
  arg.weight_decay := (5 # 10000)%Q;
  arg.checkpoint := None;
  arg.debug := false;
  arg.use_tta := false;
  arg.tta := [(false, 1)];
  arg.lr_scheduler := "MultiStepLR";
  arg.gamma := (1 # 10)%Q;
  arg.factor := (1 # 10)%Q;
  arg.patience := 10;
  arg.cooldown := 0;
  arg.tmax := 0;
  arg.eta_min := (1 # 10000)%Q;
  arg.epoch_warn := 0;
  arg.early_stopping := 0
|}.

End Demo.

(** The small world with the validation losses 1.0, 1.2, 1.3, 1.1 of
    four successive epochs. *)
Module Run.

Definition losses : list Q := [0; 1; 12 # 10; 13 # 10; 11 # 10; 1]%Q.

Definition world : Backend := Demo.world losses 2.

(** The state after [__init__] on an empty file system. *)
Definition ready : Processor := (@init world Demo.args (@blank world ∅)).2.

(** Up to ten epochs, stopping early on two epochs without
    improvement. *)
Definition patient : arg.t :=
  arg.set_early_stopping 2 (arg.set_num_epoch 10 Demo.args).

(** A single epoch. *)
Definition single : arg.t := arg.set_num_epoch 1 Demo.args.



(** A single epoch resumed from a checkpoint that was written at the end
    of epoch 5. *)
Definition resumed : arg.t := arg.set_checkpoint (Some "ckpt.pt") single.

Definition resumed_disk : gmap string (@file world) :=
  {["ckpt.pt" := @CheckpointFile world 5 42 43]}.

(** Two epochs over three macro-batches each, the second one started
    from a weights file whose name ends in a step count. *)
Definition world3 : Backend := Demo.world losses 6.

Definition later : arg.t :=
  arg.set_weights (Some "weights-1-7.pt")
    (arg.set_start_epoch 1 (arg.set_num_epoch 2 Demo.args)).

Definition later_disk : gmap string (@file world3) :=
  {["weights-1-7.pt" := @WeightsFile world3 []]}.

(** Three training samples in one macro-batch, forwarded two at a
    time. *)
Definition odd_world : Backend := Demo.world losses 3.

Definition odd : arg.t :=
  arg.set_batch_size 3 (arg.set_forward_batch_size 2 single).

Definition odd_ready : Processor := (@init odd_world odd (@blank odd_world ∅)).2.

(** A single epoch started from a weights file: one that holds the weight
    only, under the name a distributed wrapper gives it, and one whose bias
    has another shape. *)
Definition restored : arg.t := arg.set_weights (Some "weights-1.pt") single.

Definition subset_disk : gmap string (@file world) :=
  {["weights-1.pt" :=
      @WeightsFile world [("module.fc.weight", Tensor [2] [1; 1]%Q)]]}.

Definition mismatch_disk : gmap string (@file world) :=
  {["weights-1.pt" :=
      @WeightsFile world [("fc.bias", Tensor [3] [0; 0; 0]%Q)]]}.

(** Names that the program does not know. *)
Definition unknown_optimizer : arg.t := arg.set_optimizer "RMSprop" single.

Definition unknown_scheduler : arg.t := arg.set_lr_scheduler "StepLR" single.

End Run.

(** ** Functions beside the class *)

Local Open Scope py_scope.

Module argparse.

Inductive error : Type := ArgumentTypeError (msg : string).

End argparse.

(** [str2bool], the converter of the boolean options. *)
Definition str2bool (v : string) : bool + argparse.error :=
  if existsb (String.eqb (Py.lower v)) ["yes"; "true"; "t"; "y"; "1"]
  then inl true
  else if existsb (String.eqb (Py.lower v)) ["no"; "false"; "f"; "n"; "0"]
  then inl false
  else inr (argparse.ArgumentTypeError "Boolean value expected.").

(** Lines 976-980 of [main]: every key of the configuration file must be a
    destination of the parser.  The state is what has been printed. *)
Definition check_config_keys (key default_arg : list string)
  : M (list string) unit :=
  for_each default_arg (fun k =>
    if negb (existsb (String.eqb k) key)
    then modify (fun out => out ++ ["WRONG ARG: " +:+ k]) ;;
         raise (AssertionError "")
    else ret tt).

(** Lines 998-1004 of [main]: the input channels of the model. *)
Definition in_channels (stream : string) : Z :=
  if negb (Py.contains "angles" stream)
  then Z.of_nat (String.length (Py.split_last "_" stream))
  else if Py.contains "angles_extended" stream then 4 else 1.

(** [x + t] for an [int] [x] and a tuple [t]: [int] does not add a tuple
    and a tuple has no reflected addition. *)
Definition int_add_tuple (x : Z) (t : nat * matrix) : result Z :=
  Raise TypeError.

(** [Processor.tta_process_ensemble], which takes no [self] and is called
    nowhere; its local list [lst_score_ens] is the state of the two
    loops. *)
Definition tta_process_ensemble (lst_score : list matrix) : result (list Z) :=
  match lst_score with
  | [] => Raise IndexError
  | first :: _ =>
      let loops : M (list Z) unit :=
        for_each (seq 0 (length lst_score)) (fun i =>
          for_each (imap (fun idx score => (idx, score)) lst_score)
            (fun score =>
               lst_score_ens <- gets (fun ens : list Z => ens) ;;
               x <- match lst_score_ens !! i with
                    | Some x => ret x
                    | None => raise IndexError
                    end ;;
               y <- match int_add_tuple x score with
                    | Ok y => ret y
                    | Raise e => raise e
                    end ;;
               modify (fun ens : list Z => <[i := y]> ens))) in
      match loops (replicate (length first) 0) with
      | (Ok _, lst_score_ens) => Ok lst_score_ens
      | (Raise e, _) => Raise e
      end
  end.

(** ** Reading a run *)

(** [c.upper()] on one character of a byte string. *)
Definition upper_char (c : ascii) : ascii :=
  let n := nat_of_ascii c in
  if (97 <=? n)%nat && (n <=? 122)%nat then ascii_of_nat (n - 32) else c.

(** [v] with each letter put in upper case where [mask] says so and in
    lower case elsewhere. *)
Fixpoint recase (mask : list bool) (v : string) : string :=
  match v, mask with
  | String c v', true :: mask' => String (upper_char c) (recase mask' v')
  | String c v', false :: mask' => String (Py.lower_char c) (recase mask' v')
  | _, _ => v
  end.

(** The names that [get_lst_name_test_tta] gives to [n] views. *)
Definition view_names (n : nat) : list string :=
  map (fun idx : nat => "test_tta_" +:+ Py.str (Z.of_nat idx)) (seq 0 n).

(** The file that [save_weights] writes for an epoch. *)
Definition weights_path (a : arg.t) (epoch : Z) : string :=
  Py.path_join (Py.path_join (arg.work_dir a) "weights")
    ("weights-" +:+ Py.str epoch +:+ ".pt").

Section Readers.
Context `{B : Backend}.

(** [unchanged f s s']: the field [f] has in [s'] the value it had in [s]. *)
Definition unchanged {A} (f : Processor -> A) (s s' : Processor) : Prop :=
  f s' = f s.

(** Any event but the line that reports a completed partial load. *)
Definition not_partial (e : event) : bool :=
  match e with Log WeightsLoadedPartially => false | _ => true end.

(** A file written by [torch.save] or [pickle.dump]. *)
Definition is_write (e : event) : bool :=
  match e with TorchSave _ | PickleDump _ => true | _ => false end.

Definition no_write (e : event) : bool := negb (is_write e).

(** An event that does not announce an epoch. *)
Definition not_epoch (e : event) : bool :=
  match epochs_trained [e] with
  | [] => true
  | _ :: _ => false
  end.

(** What an epoch of training does and an evaluation does not: the model
    put in training mode, the gradients reset, a backward pass, a step of
    the optimizer, a file written by [torch.save]. *)
Definition is_training (e : event) : bool :=
  match e with
  | ModelMode true | ZeroGrad | Backward _ | OptimizerStep | TorchSave _ =>
      true
  | _ => false
  end.

Definition not_training (e : event) : bool := negb (is_training e).

Definition is_forward (e : event) : bool :=
  match e with Forward _ => true | _ => false end.

Definition is_scheduler_step (e : event) : bool :=
  match e with SchedulerStep _ => true | _ => false end.

Definition not_scheduler_step (e : event) : bool :=
  negb (is_scheduler_step e).

(** [calm s s']: between [s] and [s'] the scheduler was neither stepped nor
    replaced. *)
Definition calm (s s' : Processor) : Prop :=
  lr_scheduler s' = lr_scheduler s /\ extends not_scheduler_step s s'.

End Readers.

(** Set-ups at the edges of the small world. *)
Module Edge.

(** One training sample, less than a macro-batch of two. *)
Definition short_world : Backend := Demo.world Run.losses 1.

Definition short_ready : Processor :=
  (@init short_world Run.single (@blank short_world ∅)).2.

(** A weights file whose bias has another shape, with the bias ignored. *)
Definition ignoring : arg.t := arg.set_ignore_weights ["fc.bias"] Run.restored.

(** Pickled weights. *)
Definition pickled : arg.t := arg.set_weights (Some "weights.pkl") Run.single.

(** A model after five steps, and a run started from the weights that an
    earlier run saved after its first epoch. *)
Definition trained : gmap string tensor :=
  <["fc.weight" := Demo.fc_weight]> (<["fc.bias" := Demo.fc_bias 5]> ∅).

Definition saved : Processor :=
  (@save_weights Run.world Demo.args 1
     (set_model trained (@blank Run.world ∅))).2.

Definition reloading : arg.t :=
  arg.set_weights (Some "work/weights/weights-1.pt") Run.single.

(** A run resumed from the checkpoint that [save_checkpoint] writes in the
    state that follows [__init__]. *)
Definition checkpointed : Processor :=
  (@save_checkpoint Run.world Demo.args 1 Run.ready).2.

Definition resuming : arg.t :=
  arg.set_checkpoint (Some "work/checkpoints/checkpoint-1-fwbz1-0.pt")
    Run.single.

(** A checkpoint and a scheduler name that the program does not know. *)
Definition unknown_resumed : arg.t :=
  arg.set_lr_scheduler "StepLR" Run.resumed.

(** The state after [__init__] with an unknown scheduler name. *)
Definition unscheduled : Processor :=
  (@init Run.world Run.unknown_scheduler (@blank Run.world ∅)).2.

(** The test phase, without and with weights. *)
Definition testing : arg.t := arg.set_phase "test" Run.single.

Definition testing_restored : arg.t := arg.set_phase "test" Run.restored.

(** A phase that the program does not know. *)
Definition idle : arg.t := arg.set_phase "validate" Run.single.

(** Two samples forwarded minus two at a time. *)
Definition negative : arg.t := arg.set_forward_batch_size (-2) Run.single.

(** Three epochs saved every other epoch, and never. *)
Definition sparse : arg.t := arg.set_save_interval 2 Demo.args.

Definition unsaved : arg.t := arg.set_save_interval 0 Demo.args.

(** A run that starts where it is to end. *)
Definition finished : arg.t := arg.set_start_epoch 3 Demo.args.

End Edge.

(** * Properties *)

Local Open Scope py_scope.

(** ** The monad *)

Section Monad.
Context {S : Type}.

Lemma bind_eq {A C} (c : M S A) (k : A -> M S C) s :
  bind c k s = match c s with
               | (Ok a, s') => k a s'
               | (Raise e, s') => (Raise e, s')
               end.
Proof. reflexivity. Qed.

Lemma bind_ok {A C} (c : M S A) (k : A -> M S C) s a s' :
  c s = (Ok a, s') -> bind c k s = k a s'.
Proof. intros H. unfold bind. now rewrite H. Qed.

Lemma bind_raise {A C} (c : M S A) (k : A -> M S C) s e s' :
  c s = (Raise e, s') -> bind c k s = (Raise e, s').
Proof. intros H. unfold bind. now rewrite H. Qed.

Lemma run_ok {A} (c : M S A) s a :
  (c s).1 = Ok a -> c s = (Ok a, (c s).2).
Proof. destruct (c s); simpl; congruence. Qed.

Lemma bind_inv_ok {A C} (c : M S A) (k : A -> M S C) s b s' :
  bind c k s = (Ok b, s') ->
  exists a s1, c s = (Ok a, s1) /\ k a s1 = (Ok b, s').
Proof.
  unfold bind. destruct (c s) as [[a|e] s1]; [eauto|discriminate].
Qed.

Context (R : relation S) `{!PreOrder R}.

Lemma respects_ret {A} (a : A) : respects R (ret a).
Proof. intros s. reflexivity. Qed.

Lemma respects_raise {A} e : respects R (@raise S A e).
Proof. intros s. reflexivity. Qed.

Lemma respects_gets {A} (f : S -> A) : respects R (gets f).
Proof. intros s. reflexivity. Qed.

Lemma respects_modify f : (forall s, R s (f s)) -> respects R (modify f).
Proof. intros H s. apply H. Qed.

Lemma respects_bind {A C} (c : M S A) (k : A -> M S C) :
  respects R c -> (forall a, respects R (k a)) -> respects R (bind c k).
Proof.
  intros Hc Hk s. unfold bind. specialize (Hc s).
  destruct (c s) as [[a|e] s1]; simpl in *; [|assumption].
  etransitivity; [eassumption|apply Hk].
Qed.

Lemma respects_try_except {A} (c : M S A) h :
  respects R c -> (forall e, respects R (h e)) -> respects R (try_except c h).
Proof.
  intros Hc Hh s. unfold try_except. specialize (Hc s).
  destruct (c s) as [[a|e] s1]; simpl in *; [assumption|].
  etransitivity; [eassumption|apply Hh].
Qed.

Lemma respects_for_each {A} (l : list A) body :
  (forall x, respects R (body x)) -> respects R (for_each l body).
Proof.
  intros Hb. induction l as [|x l IH]; simpl.
  - apply respects_ret.
  - apply respects_bind; auto.
Qed.

Lemma respects_for_fold {A C} (l : list A) (acc : C) body :
  (forall acc x, respects R (body acc x)) -> respects R (for_fold l acc body).
Proof.
  intros Hb. revert acc. induction l as [|x l IH]; intros acc; simpl.
  - apply respects_ret.
  - apply respects_bind; auto.
Qed.
End Monad.

(** *** Arrays *)



















(** *** [load_state_dict] *)

Lemma compatible_spec m sd :
  compatible m sd = true ->
  forall k t p, sd !! k = Some t -> m !! k = Some p -> shape t = shape p.
Proof.
  unfold compatible. rewrite forallb_forall. intros H k t p Ht Hp.
  assert (Hin : In (k, t) (map_to_list sd))
    by now apply list_elem_of_In, elem_of_map_to_list.
  specialize (H _ Hin). unfold fits in H. simpl in H. rewrite Hp in H.
  now apply bool_decide_eq_true in H.
Qed.

Lemma copy_params_lookup m sd k :
  nn.copy_params m sd !! k
  = match m !! k with
    | None => None
    | Some p =>
        match sd !! k with
        | Some t => if decide (shape t = shape p) then Some t else Some p
        | None => Some p
        end
    end.
Proof.
  unfold nn.copy_params. rewrite map_lookup_imap.
  destruct (m !! k) as [p|]; [|reflexivity]. simpl. unfold nn.copy_param.
  reflexivity.
Qed.

Lemma copy_params_dom m sd k :
  is_Some (nn.copy_params m sd !! k) <-> is_Some (m !! k).
Proof.
  rewrite copy_params_lookup. destruct (m !! k) as [p|].
  - destruct (sd !! k) as [t|]; [destruct (decide _)|];
      split; intros _; eauto.
  - split; intros [? H]; discriminate.
Qed.

Lemma size_mismatch_compatible m sd :
  compatible m sd = true -> nn.size_mismatch m sd = [].
Proof.
  intros Hc. pose proof (compatible_spec m sd Hc) as H.
  unfold nn.size_mismatch.
  assert (E : filter (fun kp => Is_true (nn.mismatched sd kp)) m = ∅).
  { apply map_empty. intros k.
    destruct (filter _ m !! k) as [p|] eqn:Ek; [|reflexivity].
    apply map_lookup_filter_Some in Ek as [Hm Hp]. exfalso.
    unfold nn.mismatched in Hp. simpl in Hp.
    destruct (sd !! k) as [t|] eqn:Et; [|exact Hp].
    rewrite (bool_decide_eq_true_2 _ (H k t p Et Hm)) in Hp. exact Hp. }
  rewrite E, dom_empty_L. apply elements_empty.
Qed.

Lemma size_mismatch_found m sd k t p :
  sd !! k = Some t -> m !! k = Some p -> shape t <> shape p ->
  nn.size_mismatch m sd <> [].
Proof.
  intros Ht Hp Hne E. unfold nn.size_mismatch in E.
  apply elements_empty_inv in E.
  assert (Hk : k ∈ dom (filter (fun kp => Is_true (nn.mismatched sd kp)) m)).
  { apply elem_of_dom. exists p. apply map_lookup_filter_Some. split; [exact Hp|].
    unfold nn.mismatched. simpl. rewrite Ht.
    now rewrite (bool_decide_eq_false_2 _ Hne). }
  set_solver.
Qed.

Lemma load_state_dict_lenient m sd :
  compatible m sd = true ->
  nn.load_state_dict m sd false = (Ok tt, nn.copy_params m sd).
Proof.
  intros H. unfold nn.load_state_dict, nn.error_msgs.
  now rewrite (size_mismatch_compatible m sd H).
Qed.

Lemma load_state_dict_mismatch m sd strict k t p :
  sd !! k = Some t -> m !! k = Some p -> shape t <> shape p ->
  nn.load_state_dict m sd strict
  = (Raise (RuntimeError "Error(s) in loading state_dict"),
     nn.copy_params m sd).
Proof.
  intros Ht Hp Hne. unfold nn.load_state_dict, nn.error_msgs.
  pose proof (size_mismatch_found m sd k t p Ht Hp Hne) as Hs.
  destruct (_ ++ nn.size_mismatch m sd) eqn:E; [|reflexivity].
  apply app_eq_nil in E as [_ E]. congruence.
Qed.



Ltac respects_step leaf :=
  lazymatch goal with
  | |- PreOrder _ => typeclasses eauto
  | |- respects _ (bind _ _) => apply respects_bind; [| |intros ?]
  | |- respects _ (ret _) => apply respects_ret
  | |- respects _ (raise _) => apply respects_raise
  | |- respects _ (gets _) => apply respects_gets
  | |- respects _ (lift ?r) => destruct r; simpl
  | |- respects _ (try_except _ _) => apply respects_try_except; [| |intros ?]
  | |- respects _ (for_each _ _) => apply respects_for_each; [|intros ?]
  | |- respects _ (for_fold _ _ _) => apply respects_for_fold; [|intros ? ?]
  | |- respects _ (if ?b then _ else _) => destruct b
  | |- respects _ (match ?x with _ => _ end) => destruct x
  | |- respects _ _ => leaf
  end.

Ltac respects_auto leaf := repeat (respects_step leaf).


(** A field that a method never assigns keeps its value: the leaves of a
    method are the assignments, and each is checked by computation. *)
Ltac field_leaf :=
  first [ assumption
        | apply respects_modify; intros ?;
          unfold same_book, same_views, book; simpl; reflexivity
        | intros ?; unfold same_book, same_views, book; simpl; reflexivity ].

Ltac unfold_methods :=
  unfold print_log, emit, torch_load, get_optimizer, get_loader,
    checkpoint_of, new_DataLoader, save_states.

Ltac extends_leaf :=
  first [ assumption
        | apply respects_modify; intros ?; eexists; split;
          [simpl; reflexivity | reflexivity]
        | apply respects_modify; intros ?; exists []; split;
          [simpl; now rewrite app_nil_r | reflexivity]
        | intros ?; exists []; split;
          [simpl; now rewrite app_nil_r | reflexivity] ].


(** Symbolic execution of the straight-line part of a method. *)
Ltac run :=
  repeat progress
    (unfold bind, gets, modify, emit, print_log, ret, raise, get_optimizer,
       get_loader, lift;
     cbn [fst snd
          set_global_step set_lr set_best_acc set_best_acc_epoch
          set_best_loss_val set_counter_early_stopping set_model set_grad
          set_optimizer set_lr_scheduler set_lst_name_test_tta
          set_data_loader set_disk set_trace
          global_step lr best_acc best_acc_epoch best_loss_val
          counter_early_stopping model grad optimizer lr_scheduler
          lst_name_test_tta data_loader disk trace]).

Ltac simp_state :=
  cbn [fst snd
       set_global_step set_lr set_best_acc set_best_acc_epoch
       set_best_loss_val set_counter_early_stopping set_model set_grad
       set_optimizer set_lr_scheduler set_lst_name_test_tta
       set_data_loader set_disk set_trace
       global_step lr best_acc best_acc_epoch best_loss_val
       counter_early_stopping model grad optimizer lr_scheduler
       lst_name_test_tta data_loader disk trace] in *.


Section Properties.
Context `{B : Backend}.

Abbreviation sample := (Data * Z * Z)%type.
Abbreviation batch := (list (Data * Z * Z)).

(** *** The relations are preorders *)

#[export] Instance best_acc_grows_preorder : PreOrder best_acc_grows.
Proof.
  split.
  - intros s. apply Qle_refl.
  - intros s1 s2 s3. apply Qle_trans.
Qed.

#[export] Instance same_book_preorder : PreOrder same_book.
Proof.
  split.
  - intros s. reflexivity.
  - intros s1 s2 s3 H1 H2. unfold same_book in *. congruence.
Qed.

#[export] Instance same_views_preorder : PreOrder same_views.
Proof.
  split.
  - intros s. reflexivity.
  - intros s1 s2 s3 H1 H2. unfold same_views in *. congruence.
Qed.

#[export] Instance extends_preorder P : PreOrder (extends P).
Proof.
  split.
  - intros s. exists []. split; [now rewrite app_nil_r|reflexivity].
  - intros s1 s2 s3 (t1 & E1 & F1) (t2 & E2 & F2). exists (t1 ++ t2). split.
    + now rewrite E2, E1, app_assoc.
    + now rewrite forallb_app, F1, F2.
Qed.

(** *** The best accuracy never decreases *)







(** *** An evaluation touches the bookkeeping in [track_best] only *)

Lemma eval_views_same_book names : respects same_book (eval_views names).
Proof.
  unfold eval_views, eval_view, eval_batch. unfold_methods.
  respects_auto field_leaf.
Qed.

Lemma eval_report_same_book a epoch save_score score accuracy loss l1 :
  respects same_book (eval_report a epoch save_score score accuracy loss l1).
Proof.
  unfold eval_report. unfold_methods.
  respects_auto field_leaf.
Qed.


(** *** Training, then saving, then evaluating *)


Lemma eval_extends a epoch save_score names :
  respects (extends evaluation_event) (eval a epoch save_score names).
Proof.
  unfold eval, eval_views, eval_view, eval_batch, eval_report, track_best.
  unfold_methods. respects_auto extends_leaf.
Qed.




Lemma check_early_stopping_run a s :
  exists s',
    check_early_stopping a s
    = (Ok (andb (0 <? arg.early_stopping a)
                (arg.early_stopping a <? counter_early_stopping s)), s') /\
    counter_early_stopping s' = counter_early_stopping s.
Proof.
  unfold check_early_stopping, bind, gets, print_log, emit, modify, ret.
  destruct (0 <? arg.early_stopping a) eqn:E1; simpl; [|eauto].
  destruct (0 <? counter_early_stopping s) eqn:E2; simpl.
  - destruct (arg.early_stopping a <? counter_early_stopping s); simpl; eauto.
  - assert ((arg.early_stopping a <? counter_early_stopping s) = false) as ->
      by lia.
    eauto.
Qed.


Lemma save_checkpoint_trace a n s r s' :
  save_checkpoint a n s = (r, s') ->
  r = Ok tt ->
  trace s' = trace s ++ [TorchSave
    (Py.path_join (Py.path_join (arg.work_dir a) "checkpoints")
       ("checkpoint-" +:+ Py.str n +:+ "-fwbz"
          +:+ Py.str (arg.forward_batch_size a) +:+ "-"
          +:+ Py.str (Py.int (global_step s)) +:+ ".pt"))].
Proof.
  unfold save_checkpoint, get_optimizer, bind, gets, save_states, emit,
    modify, ret, raise.
  destruct (optimizer s); simpl; [|intros [= <- <-]; discriminate].
  destruct (lr_scheduler s); simpl; intros [= <- <-]; [reflexivity|discriminate].
Qed.


(** C4, amended.  An epoch that completes leaves the loop exactly when the
    threshold is non-zero and the counter exceeds it, and the loop then
    runs no further epoch.  With [early_stopping = 2] and the validation
    losses 1.0, 1.2, 1.3, 1.1 the counter is 2 after the third epoch, which
    does not exceed the threshold: the fourth epoch runs, brings the counter
    to 3, and the run stops there although ten epochs were asked for. *)
Theorem early_stopping_rule (a : arg.t) :
  (forall epoch s b s',
     loop_body a epoch s = (Ok b, s') ->
     b = (0 <? arg.early_stopping a)
         && (arg.early_stopping a <? counter_early_stopping s')) /\
  (forall epoch rest s b s',
     loop_body a epoch s = (Ok b, s') ->
     epoch_loop a (epoch :: rest) s
     = if b then (Ok tt, s') else epoch_loop a rest s') /\
  (let r := @main Run.world Run.patient (@blank Run.world ∅) in
   r.1 = Ok tt /\
   validation_losses (trace r.2) = [1; 12 # 10; 13 # 10; 11 # 10]%Q /\
   epochs_trained (trace r.2) = [1; 2; 3; 4]%Q /\
   counter_early_stopping r.2 = 3).
Proof.
  split; [|split].
  - intros epoch s b s' H. unfold loop_body in H.
    apply bind_inv_ok in H as (? & s0 & _ & H).
    apply bind_inv_ok in H as (? & s1 & _ & H).
    apply bind_inv_ok in H as (? & s2 & _ & H).
    apply bind_inv_ok in H as (? & s3 & _ & H).
    destruct (check_early_stopping_run a s3) as (s4 & E & Hc).
    rewrite H in E. injection E as -> <-. now rewrite Hc.
  - intros epoch rest s b s' H. simpl. unfold bind at 1. rewrite H.
    destruct b; reflexivity.
  - vm_compute. repeat split.
Qed.

(** *** Initialization *)

Lemma init_extends a : respects (extends is_log) (init a).
Proof.
  unfold init, get_lst_name_test_tta, load_model, try_load_state_dict,
    ignore_weight, load_optimizer, load_lr_scheduler, load_data.
  unfold_methods. respects_auto extends_leaf.
Qed.

Lemma load_optimizer_unsupported a s :
  arg.optimizer a <> "SGD" -> arg.optimizer a <> "Adam" ->
  load_optimizer a s
  = (Raise (ValueError ("Unsupported optimizer: " +:+ arg.optimizer a)), s).
Proof.
  intros H1 H2. unfold load_optimizer.
  apply String.eqb_neq in H1, H2. rewrite H1, H2. reflexivity.
Qed.

Lemma init_unsupported_optimizer a s :
  arg.optimizer a <> "SGD" -> arg.optimizer a <> "Adam" ->
  exists e s', init a s = (Raise e, s').
Proof.
  intros H1 H2. unfold init.
  rewrite bind_eq. simpl.
  rewrite bind_eq. destruct (get_lst_name_test_tta a _) as [[[]|e] s1]; [|eauto].
  rewrite bind_eq. destruct (load_model a s1) as [[[]|e] s2]; [|eauto].
  rewrite bind_eq. rewrite load_optimizer_unsupported by assumption. eauto.
Qed.

(** C9, amended.  An optimizer name other than SGD and Adam is fatal:
    [load_optimizer] raises [ValueError] and leaves the object as it was,
    so [main] ends in an exception having done nothing but log, before any
    epoch.  A scheduler name other than the three known ones is not
    rejected: without a checkpoint [load_lr_scheduler] returns normally,
    logs the name and leaves [lr_scheduler] unset. *)
Theorem unsupported_names (a : arg.t) :
  (arg.optimizer a <> "SGD" -> arg.optimizer a <> "Adam" ->
   (forall s,
      load_optimizer a s
      = (Raise (ValueError ("Unsupported optimizer: " +:+ arg.optimizer a)),
         s)) /\
   (forall s, exists e s', main a s = (Raise e, s') /\ extends is_log s s')) /\
  (arg.lr_scheduler a <> "MultiStepLR" ->
   arg.lr_scheduler a <> "ReduceLROnPlateau" ->
   arg.lr_scheduler a <> "CosineAnnealingLR" ->
   arg.checkpoint a = None ->
   forall s, exists s',
     load_lr_scheduler a s = (Ok tt, s') /\
     lr_scheduler s' = None /\
     optimizer s' = optimizer s /\
     trace s' = trace s ++ [Log (LoadingLrScheduler (arg.lr_scheduler a))]).
Proof.
  split.
  - intros H1 H2. split; [intros s; now apply load_optimizer_unsupported|].
    intros s. unfold main. rewrite bind_eq.
    destruct (arg.use_tta a).
    + simpl. rewrite bind_eq.
      destruct (init_unsupported_optimizer a s H1 H2) as (e & s' & E).
      rewrite E. exists e, s'. split; [reflexivity|].
      pose proof (init_extends a s) as X. now rewrite E in X.
    + destruct (arg.tta a) as [|first rest]; simpl.
      * exists IndexError, s. split; [reflexivity|]. reflexivity.
      * rewrite bind_eq.
        destruct (init_unsupported_optimizer (arg.set_tta [first] a) s H1 H2)
          as (e & s' & E).
        rewrite E. exists e, s'. split; [reflexivity|].
        pose proof (init_extends (arg.set_tta [first] a) s) as X.
        now rewrite E in X.
  - intros H1 H2 H3 Hc s. unfold load_lr_scheduler.
    apply String.eqb_neq in H1, H2, H3. rewrite H1, H2, H3, Hc.
    eexists. split; [reflexivity|]. repeat split.
Qed.

(** *** The trace only grows *)

Lemma train_grows_trace a epoch save_model :
  respects (extends any_event) (train a epoch save_model).
Proof.
  unfold train, train_batch, train_split, save_weights, save_checkpoint.
  unfold_methods. respects_auto extends_leaf.
Qed.

Lemma eval_grows_trace a epoch save_score names :
  respects (extends any_event) (eval a epoch save_score names).
Proof.
  unfold eval, eval_views, eval_view, eval_batch, eval_report, track_best.
  unfold_methods. respects_auto extends_leaf.
Qed.

Lemma loop_body_grows_trace a epoch :
  respects (extends any_event) (loop_body a epoch).
Proof.
  unfold loop_body, check_early_stopping. unfold_methods.
  respects_auto ltac:(first [ apply train_grows_trace | apply eval_grows_trace
                            | extends_leaf ]).
Qed.

Lemma epoch_loop_grows_trace a epochs :
  respects (extends any_event) (epoch_loop a epochs).
Proof.
  induction epochs as [|epoch rest IH]; simpl.
  - apply respects_ret. typeclasses eauto.
  - respects_auto ltac:(first [apply loop_body_grows_trace | extends_leaf]).
Qed.

Lemma begins_with_bind {A C} pre (c : M Processor A) (k : A -> M Processor C) s :
  begins_with pre c s ->
  (forall x, respects (extends any_event) (k x)) ->
  begins_with pre (bind c k) s.
Proof.
  intros (t & E) Hk. unfold begins_with. rewrite bind_eq.
  destruct (c s) as [[x|e] s1]; simpl in *; [|eauto].
  destruct (Hk x s1) as (t' & E' & _). exists (t ++ t').
  now rewrite E', E, <- !app_assoc.
Qed.

Lemma begins_with_after {A C} pre (c : M Processor A)
    (k : A -> M Processor C) s x s1 :
  c s = (Ok x, s1) ->
  trace s1 = trace s ->
  begins_with pre (k x) s1 ->
  begins_with pre (bind c k) s.
Proof.
  intros E Ht (t & Hk). exists t. now rewrite bind_eq, E, Hk, Ht.
Qed.

Lemma range_cons lo hi :
  lo < hi -> Py.range lo hi = lo :: Py.range (lo + 1) hi.
Proof.
  intros H. unfold Py.range.
  replace (Z.to_nat (hi - lo)) with (S (Z.to_nat (hi - (lo + 1)))) by lia.
  simpl. f_equal; [lia|].
  rewrite <- seq_shift, map_map. apply map_ext. intros i. lia.
Qed.

Lemma train_begins a epoch save_model s ld :
  data_loader s !! "train" = Some ld ->
  begins_with [ModelMode true;
               Scalar train_writer "epoch" (inject_Z (epoch + 1))
                 (global_step s)]
    (train a epoch save_model) s.
Proof.
  intros Hld. unfold train.
  unfold begins_with. rewrite bind_eq. simpl.
  rewrite bind_eq. unfold get_loader at 1. rewrite bind_eq. simpl. rewrite Hld.
  simpl. rewrite bind_eq. simpl. rewrite bind_eq. simpl.
  match goal with
  | |- context [bind ?c ?k ?s1] =>
      assert (G : respects (extends any_event) (bind c k))
  end.
  { unfold train_batch, train_split, save_weights, save_checkpoint.
    unfold_methods. respects_auto extends_leaf. }
  match goal with
  | |- context [bind ?c ?k ?s1] => destruct (G s1) as (t & E & _)
  end.
  exists t. rewrite E. simpl. rewrite <- !app_assoc. reflexivity.
Qed.


Lemma loop_body_begins a epoch s ld :
  arg.save_interval a <> 0 ->
  data_loader s !! "train" = Some ld ->
  begins_with [ModelMode true;
               Scalar train_writer "epoch" (inject_Z (epoch + 1))
                 (global_step s)]
    (loop_body a epoch) s.
Proof.
  intros Hsi Hld. unfold loop_body.
  apply Z.eqb_neq in Hsi. rewrite Hsi.
  eapply begins_with_after; [reflexivity|reflexivity|].
  apply begins_with_bind; [now apply train_begins with ld|].
  intros ?. unfold check_early_stopping. unfold_methods.
  respects_auto ltac:(first [apply eval_grows_trace | extends_leaf]).
Qed.

Lemma start_begins a s ld :
  arg.phase a = "train" ->
  data_loader s !! "train" = Some ld ->
  arg.batch_size a <> 0 ->
  arg.save_interval a <> 0 ->
  arg.start_epoch a < arg.num_epoch a ->
  begins_with [ModelMode true;
               Scalar train_writer "epoch" (inject_Z (arg.start_epoch a + 1))
                 (inject_Z (arg.start_epoch a * data.len ld)
                  / inject_Z (arg.batch_size a))%Q]
    (start a) s.
Proof.
  intros Hph Hld Hbs Hsi Hlt. unfold start. rewrite Hph. simpl.
  eapply begins_with_after;
    [unfold get_loader, bind, gets; simpl; rewrite Hld; reflexivity
    |reflexivity|].
  apply Z.eqb_neq in Hbs. rewrite Hbs.
  eapply begins_with_after; [reflexivity|reflexivity|].
  eapply begins_with_after; [reflexivity|reflexivity|].
  rewrite range_cons by assumption. cbn [epoch_loop].
  apply begins_with_bind; [now apply loop_body_begins with ld|].
  intros []; [apply respects_ret; typeclasses eauto|].
  apply epoch_loop_grows_trace.
Qed.

Lemma load_optimizer_restores a path epoch o sch s :
  arg.checkpoint a = Some path ->
  disk s !! path = Some (CheckpointFile epoch o sch) ->
  (arg.optimizer a = "SGD" /\
   optimizer_accepts
     (SGD (arg.base_lr a) (9 # 10) (arg.nesterov a) (arg.weight_decay a)) o
   = true) \/
  (arg.optimizer a = "Adam" /\
   optimizer_accepts (Adam (arg.base_lr a) (arg.weight_decay a)) o = true) ->
  exists s',
    load_optimizer a s = (Ok tt, s') /\
    optimizer s' = Some o /\ disk s' = disk s /\
    lr_scheduler s' = lr_scheduler s.
Proof.
  intros Hc Hd Hopt. unfold load_optimizer. rewrite Hc.
  unfold print_log, emit, torch_load, checkpoint_of, get_optimizer.
  destruct Hopt as [[-> Hacc] | [-> Hacc]]; simpl.
  all: unfold bind, modify, gets, ret; simpl; rewrite Hd; simpl.
  all: rewrite Hacc; simpl; eexists; split; [reflexivity|]; repeat split.
Qed.

Lemma load_lr_scheduler_restores a path epoch o sch s o0 :
  arg.checkpoint a = Some path ->
  disk s !! path = Some (CheckpointFile epoch o sch) ->
  optimizer s = Some o0 ->
  arg.lr_scheduler a = "MultiStepLR"
  \/ arg.lr_scheduler a = "ReduceLROnPlateau"
  \/ arg.lr_scheduler a = "CosineAnnealingLR" ->
  exists s',
    load_lr_scheduler a s = (Ok tt, s') /\
    lr_scheduler s' = Some sch /\ optimizer s' = Some o0.
Proof.
  intros Hc Hd Ho Hn. unfold load_lr_scheduler. rewrite Hc.
  unfold print_log, emit, torch_load, checkpoint_of, get_optimizer.
  destruct Hn as [-> | [-> | ->]]; simpl.
  all: unfold bind, modify, gets, ret; simpl; rewrite Ho; simpl; rewrite Hd;
    simpl.
  all: eexists; split; [reflexivity|]; split; [reflexivity|exact Ho].
Qed.

(** C1, amended.  With a checkpoint path supplied, a known optimizer and
    scheduler name and a state the optimizer accepts, [load_optimizer]
    followed by [load_lr_scheduler] returns normally and leaves the
    optimizer and the scheduler holding the states stored in the checkpoint,
    unchanged.  The epoch stored in the checkpoint is not used: whatever the
    file holds, the first thing [start] does is to train epoch
    [arg.start_epoch], reported to the training writer as
    [arg.start_epoch + 1]. *)
Theorem checkpoint_restore (a : arg.t) (path : string) (epoch : Z)
    (o : OptState) (sch : SchedState) :
  arg.checkpoint a = Some path ->
  (forall s,
     disk s !! path = Some (CheckpointFile epoch o sch) ->
     (arg.optimizer a = "SGD" /\
      optimizer_accepts
        (SGD (arg.base_lr a) (9 # 10) (arg.nesterov a) (arg.weight_decay a)) o
      = true) \/
     (arg.optimizer a = "Adam" /\
      optimizer_accepts (Adam (arg.base_lr a) (arg.weight_decay a)) o
      = true) ->
     arg.lr_scheduler a = "MultiStepLR"
     \/ arg.lr_scheduler a = "ReduceLROnPlateau"
     \/ arg.lr_scheduler a = "CosineAnnealingLR" ->
     exists s',
       (load_optimizer a ;; load_lr_scheduler a) s = (Ok tt, s') /\
       optimizer s' = Some o /\
       lr_scheduler s' = Some sch) /\
  (forall s ld,
     arg.phase a = "train" ->
     data_loader s !! "train" = Some ld ->
     arg.batch_size a <> 0 ->
     arg.save_interval a <> 0 ->
     arg.start_epoch a < arg.num_epoch a ->
     begins_with
       [ModelMode true;
        Scalar train_writer "epoch" (inject_Z (arg.start_epoch a + 1))
          (inject_Z (arg.start_epoch a * data.len ld)
           / inject_Z (arg.batch_size a))%Q]
       (start a) s).
Proof.
  intros Hc. split.
  - intros s Hd Hopt Hn.
    destruct (load_optimizer_restores a path epoch o sch s Hc Hd Hopt)
      as (s1 & E1 & Ho & Hd1 & _).
    rewrite <- Hd1 in Hd.
    destruct (load_lr_scheduler_restores a path epoch o sch s1 o Hc Hd Ho Hn)
      as (s2 & E2 & Hs & Ho2).
    exists s2. rewrite bind_eq, E1. auto.
  - intros s ld. apply start_begins.
Qed.

(** *** The global step *)

Lemma Qdiv_is_integer n d z :
  d <> 0 -> (inject_Z n / inject_Z d == inject_Z z)%Q <-> n = z * d.
Proof.
  intros Hd.
  assert (Hq : ~ (inject_Z d == 0)%Q).
  { intros E. apply Hd. unfold Qeq in E. simpl in E. lia. }
  split.
  - intros E.
    assert (E' : (inject_Z n == inject_Z z * inject_Z d)%Q).
    { rewrite <- E. field. exact Hq. }
    rewrite <- inject_Z_mult in E'. unfold Qeq in E'. simpl in E'. lia.
  - intros ->. rewrite inject_Z_mult. field. exact Hq.
Qed.

Lemma int_of_quotient n d :
  0 < d -> Py.int (inject_Z n / inject_Z d) = Z.quot n d.
Proof.
  intros Hd. destruct d as [|p|p]; try lia.
  unfold Py.int, Qdiv, Qinv, Qmult, inject_Z. simpl.
  now rewrite Z.mul_1_r.
Qed.

Lemma init_resets_global_step a s s' :
  init a s = (Ok tt, s') -> global_step s' = 0%Q.
Proof.
  unfold init. intros H.
  do 6 (apply bind_inv_ok in H as (? & ? & _ & H)).
  revert H. unfold bind, modify. simpl. intros [= <-]. reflexivity.
Qed.

(** C10.  [__init__] leaves the global step at 0 whatever [load_model] read
    from the name of the weights file, and in the train phase [start]
    overwrites it, whatever it was, with
    [start_epoch * len(train loader) / batch_size] in real division before
    the first epoch.  That value is an integer only when [batch_size]
    divides [start_epoch * len(train loader)], and when that product is
    positive and [batch_size > 1] it differs from the product, the number of
    macro-batches of the earlier epochs.  The name of a checkpoint file
    embeds the truncation [int(global_step)] of the current value. *)
Theorem global_step_at_start (a : arg.t) :
  (forall s s', init a s = (Ok tt, s') -> global_step s' = 0%Q) /\
  (forall s ld g,
     arg.phase a = "train" ->
     data_loader s !! "train" = Some ld ->
     arg.batch_size a <> 0 ->
     start a (set_global_step g s) = start a s /\
     start a s
     = epoch_loop a (Py.range (arg.start_epoch a) (arg.num_epoch a))
         (set_global_step
            (inject_Z (arg.start_epoch a * data.len ld)
             / inject_Z (arg.batch_size a))%Q s)) /\
  (forall len,
     arg.batch_size a <> 0 ->
     let g0 := (inject_Z (arg.start_epoch a * len)
                / inject_Z (arg.batch_size a))%Q in
     (forall z, (g0 == inject_Z z)%Q
                <-> arg.start_epoch a * len = z * arg.batch_size a) /\
     (0 < arg.start_epoch a * len -> 1 < arg.batch_size a ->
      ~ (g0 == inject_Z (arg.start_epoch a * len))%Q) /\
     (0 < arg.batch_size a ->
      Py.int g0 = Z.quot (arg.start_epoch a * len) (arg.batch_size a))) /\
  (forall epoch s s',
     save_checkpoint a epoch s = (Ok tt, s') ->
     trace s' = trace s ++ [TorchSave
       (Py.path_join (Py.path_join (arg.work_dir a) "checkpoints")
          ("checkpoint-" +:+ Py.str epoch +:+ "-fwbz"
             +:+ Py.str (arg.forward_batch_size a) +:+ "-"
             +:+ Py.str (Py.int (global_step s)) +:+ ".pt"))]).
Proof.
  split; [|split; [|split]].
  - apply init_resets_global_step.
  - intros s ld g Hph Hld Hbs. apply Z.eqb_neq in Hbs.
    unfold start. rewrite Hph. simpl.
    unfold get_loader, bind, gets, modify, ret. simpl.
    rewrite Hld, Hbs. simpl. split; reflexivity.
  - intros len Hbs g0. split; [|split].
    + intros z. now apply Qdiv_is_integer.
    + intros Hpos Hbig E. apply (proj1 (Qdiv_is_integer _ _ _ Hbs)) in E.
      set (n := arg.start_epoch a * len) in *. nia.
    + intros Hpos. now apply int_of_quotient.
  - intros epoch s s' H. now apply (save_checkpoint_trace _ _ _ _ _ H).
Qed.

(** *** Slices and batches *)



Lemma batches_length (perm : list sample -> list sample)
    (ld : data.DataLoader Data) b :
  data.drop_last ld = true ->
  b ∈ data.batches perm ld ->
  Py.len b = Z.of_nat (Z.to_nat (data.batch_size ld)).
Proof.
  unfold data.batches. intros ->. rewrite list_elem_of_filter.
  intros [H _]. unfold Py.len. now rewrite H.
Qed.


(** *** One macro-batch *)

Lemma train_splits_run splits real_batch_size data label idx stats s :
  exists stats' s',
    for_fold idx stats (train_split splits real_batch_size data label) s
    = (Ok stats', s') /\
    trace s' = trace s
      ++ concat (map (micro_batch_events (model s) (global_step s) splits
                        real_batch_size data label) idx) /\
    frame s s' /\
    length stats'.2 = (length stats.2 + length idx)%nat.
Proof.
  revert stats s. induction idx as [|i idx IH]; intros stats s.
  - exists stats, s. simpl. rewrite app_nil_r. unfold frame.
    repeat split; lia.
  - simpl. rewrite bind_eq.
    unfold train_split at 1. unfold bind, gets, emit, modify, ret. simpl.
    match goal with
    | |- context [for_fold idx ?st _ ?s1] =>
        destruct (IH st s1) as (stats' & s' & E & Ht & Hf & Hl)
    end.
    exists stats', s'. rewrite E. split; [reflexivity|].
    simpl in Ht, Hf, Hl. split; [|split].
    + rewrite Ht. unfold micro_batch_events at 2. simpl.
      rewrite <- !app_assoc. reflexivity.
    + exact Hf.
    + rewrite Hl, length_app. simpl. lia.
Qed.

Lemma train_batch_run a stats (b : batch) s o :
  optimizer s = Some o ->
  0 < arg.forward_batch_size a ->
  0 < Py.len b ->
  Py.len b mod arg.forward_batch_size a = 0 ->
  let data := map (fun x : sample => x.1.1) b in
  let label := map (fun x : sample => x.1.2) b in
  let splits := Py.len b / arg.forward_batch_size a in
  exists stats' s' o',
    train_batch a stats b s = (Ok stats', s') /\
    trace s' = trace s ++ [ZeroGrad]
      ++ concat (map (micro_batch_events (model s) (global_step s + 1)%Q
                        splits (arg.forward_batch_size a) data label)
                   (Py.range 0 splits))
      ++ [OptimizerStep; Scalar train_writer "lr" (lr s') (global_step s')] /\
    global_step s' = (global_step s + 1)%Q /\
    optimizer s' = Some o' /\
    lr_scheduler s' = lr_scheduler s /\
    disk s' = disk s /\
    data_loader s' = data_loader s /\
    length stats'.2 = (length stats.2 + Z.to_nat splits)%nat.
Proof.
  intros Ho Hf Hlen Hmod data label splits.
  assert (Hsplits : 0 < splits).
  { subst splits. apply Z.div_exact in Hmod; [|lia]. nia. }
  assert (Hld : Py.len data = Py.len b)
    by (unfold Py.len, data; now rewrite length_map).
  unfold train_batch. fold data label. rewrite Hld. fold splits.
  run. rewrite Ho. run.
  assert (Hz : (arg.forward_batch_size a =? 0) = false) by lia.
  rewrite Hz. run. rewrite Hmod, Z.eqb_refl. run.
  match goal with
  | |- context [for_fold ?idx ?st ?body ?s1] =>
      destruct (train_splits_run splits (arg.forward_batch_size a) data label
                  idx st s1) as (stats' & s' & E & Ht & Hfr & Hl)
  end.
  rewrite E. destruct Hfr as (Hg & Hm & Hopt & Hsch & Hd & Hdl).
  simp_state. run. rewrite Hopt, Ho. run.
  assert (Hs : (splits <=? 0) = false) by lia. rewrite Hs.
  eexists _, _, _. split; [reflexivity|]. run.
  repeat split; try assumption.
  - rewrite Ht, <- !app_assoc. simpl. reflexivity.
  - rewrite Hl. unfold Py.range. rewrite length_map, length_seq. f_equal. lia.
Qed.


Lemma get_loader_ok name s ld :
  data_loader s !! name = Some ld -> get_loader name s = (Ok ld, s).
Proof. intros H. run. now rewrite H. Qed.

Lemma get_optimizer_ok s o :
  optimizer s = Some o -> get_optimizer s = (Ok o, s).
Proof. intros H. run. now rewrite H. Qed.

(** *** One epoch *)

Lemma count_app P t1 t2 : count P (t1 ++ t2) = (count P t1 + count P t2)%nat.
Proof. unfold count. now rewrite List.filter_app, length_app. Qed.

Lemma count_backward_micro w gs splits real_batch_size data label idx :
  count is_backward
    (concat (map (micro_batch_events w gs splits real_batch_size data label)
               idx)) = length idx.
Proof.
  induction idx as [|i idx IH]; [reflexivity|].
  cbn [map concat]. rewrite count_app, IH. reflexivity.
Qed.

Lemma count_zero_grad_micro w gs splits real_batch_size data label idx :
  count is_zero_grad
    (concat (map (micro_batch_events w gs splits real_batch_size data label)
               idx)) = 0%nat.
Proof.
  induction idx as [|i idx IH]; [reflexivity|].
  cbn [map concat]. rewrite count_app, IH. reflexivity.
Qed.

Lemma count_optimizer_step_micro w gs splits real_batch_size data label idx :
  count is_optimizer_step
    (concat (map (micro_batch_events w gs splits real_batch_size data label)
               idx)) = 0%nat.
Proof.
  induction idx as [|i idx IH]; [reflexivity|].
  cbn [map concat]. rewrite count_app, IH. reflexivity.
Qed.

Lemma training_micro w gs splits real_batch_size data label idx :
  forallb training_event
    (concat (map (micro_batch_events w gs splits real_batch_size data label)
               idx)) = true.
Proof.
  induction idx as [|i idx IH]; [reflexivity|].
  cbn [map concat]. rewrite forallb_app, IH. reflexivity.
Qed.

Lemma train_loop_run a (batches : list batch) splits stats s o :
  optimizer s = Some o ->
  0 < arg.forward_batch_size a ->
  0 < splits ->
  Forall (fun b => Py.len b = splits * arg.forward_batch_size a) batches ->
  exists stats' s' o' t,
    for_fold batches stats (train_batch a) s = (Ok stats', s') /\
    trace s' = trace s ++ t /\
    epoch_trace (length batches) (Z.to_nat splits) t /\
    (global_step s' == global_step s + inject_Z (Py.len batches))%Q /\
    optimizer s' = Some o' /\
    lr_scheduler s' = lr_scheduler s /\
    length stats'.2
    = (length stats.2 + length batches * Z.to_nat splits)%nat.
Proof.
  intros Ho Hf Hs Hall. revert stats s o Ho.
  induction Hall as [|b batches Hb Hall IH]; intros stats s o Ho.
  - exists stats, s, o, []. simpl. rewrite app_nil_r.
    repeat split; try reflexivity; try assumption; try lia.
    unfold Py.len. simpl. unfold inject_Z. symmetry. apply Qplus_0_r.
  - assert (Hmod : Py.len b mod arg.forward_batch_size a = 0)
      by (rewrite Hb; apply Z.mod_mul; lia).
    assert (Hdiv : Py.len b / arg.forward_batch_size a = splits)
      by (rewrite Hb; apply Z.div_mul; lia).
    destruct (train_batch_run a stats b s o Ho Hf ltac:(nia) Hmod)
      as (stats1 & s1 & o1 & E1 & Ht1 & Hg1 & Ho1 & Hsch1 & _ & _ & Hl1).
    rewrite Hdiv in *.
    destruct (IH stats1 s1 o1 Ho1)
      as (stats' & s' & o' & t & E & Ht & [Hz Hos Hbw Htr] & Hg & Ho' & Hsch
          & Hl).
    cbn [for_fold]. rewrite bind_eq, E1, E.
    eexists stats', s', o', _. split; [reflexivity|].
    split; [rewrite Ht, Ht1, <- !app_assoc; reflexivity|].
    split; [|split; [|split; [|split]]].
    + split.
      * rewrite !count_app, count_zero_grad_micro, Hz. reflexivity.
      * rewrite !count_app, count_optimizer_step_micro, Hos. simpl. lia.
      * rewrite !count_app, count_backward_micro, Hbw. simpl.
        unfold Py.range. rewrite length_map, length_seq. lia.
      * rewrite !forallb_app, training_micro, Htr. reflexivity.
    + rewrite Hg, Hg1. unfold Py.len. cbn [length].
      rewrite Nat2Z.inj_succ, <- Z.add_1_l, inject_Z_plus. ring.
    + exact Ho'.
    + congruence.
    + rewrite Hl, Hl1. cbn [length]. lia.
Qed.


#[export] Instance quiet_preorder : PreOrder quiet.
Proof.
  split.
  - intros s. split; reflexivity.
  - intros s1 s2 s3 [G1 E1] [G2 E2]. split; [congruence|].
    etransitivity; eassumption.
Qed.




(** *** A forward batch size that does not divide the batch size *)

Lemma train_batch_rejects a stats (b : batch) s o :
  optimizer s = Some o ->
  arg.forward_batch_size a <> 0 ->
  Py.len b mod arg.forward_batch_size a <> 0 ->
  train_batch a stats b s
  = (Raise (AssertionError
              "Real batch size should be a factor of arg.batch_size!"),
     set_trace (trace s ++ [ZeroGrad])
       (set_grad zero_grad (set_global_step (global_step s + 1)%Q s))).
Proof.
  intros Ho Hf Hmod. unfold train_batch.
  apply Z.eqb_neq in Hf, Hmod.
  assert (Hld : Py.len (map (fun x : sample => x.1.1) b) = Py.len b)
    by (unfold Py.len; now rewrite length_map).
  rewrite Hld. run. rewrite Ho. run. rewrite Hf. run. rewrite Hmod.
  reflexivity.
Qed.

(** C3, amended.  With a non-zero forward batch size that does not divide
    the batch size and a train loader that yields at least one macro-batch,
    [start] ends in the [AssertionError] of the first macro-batch of the
    first epoch: the epoch has been announced to the training writer, the
    global step has advanced by one and the gradients have been zeroed once,
    but there has been no forward or backward pass, no optimizer step (the
    model is unchanged), no evaluation and no file written. *)
Theorem indivisible_batch_size (a : arg.t) (s : Processor) (o : OptState)
    (ld : data.DataLoader Data) :
  arg.phase a = "train" ->
  data_loader s !! "train" = Some ld ->
  data.batch_size ld = arg.batch_size a ->
  data.drop_last ld = true ->
  data.batches (randperm (arg.start_epoch a)) ld <> [] ->
  optimizer s = Some o ->
  arg.start_epoch a < arg.num_epoch a ->
  arg.save_interval a <> 0 ->
  0 < arg.batch_size a ->
  arg.forward_batch_size a <> 0 ->
  arg.batch_size a mod arg.forward_batch_size a <> 0 ->
  let g0 := (inject_Z (arg.start_epoch a * data.len ld)
             / inject_Z (arg.batch_size a))%Q in
  let r := start a s in
  r.1 = Raise (AssertionError
                 "Real batch size should be a factor of arg.batch_size!") /\
  trace r.2
  = trace s ++ [ModelMode true;
                Scalar train_writer "epoch"
                  (inject_Z (arg.start_epoch a + 1)) g0;
                ZeroGrad] /\
  global_step r.2 = (g0 + 1)%Q /\
  model r.2 = model s /\
  disk r.2 = disk s.
Proof.
  intros Hph Hld Hlb Hdl Hne Ho Hlt Hsi Hbs Hf Hmod g0 r. subst r.
  unfold start. rewrite Hph. cbn [String.eqb Ascii.eqb Bool.eqb].
  erewrite bind_ok; [|apply get_loader_ok; exact Hld].
  assert (Hbz : (arg.batch_size a =? 0) = false) by lia. rewrite Hbz.
  erewrite bind_ok; [|reflexivity].
  erewrite bind_ok; [|reflexivity].
  rewrite range_cons by assumption. cbn [epoch_loop].
  fold g0.
  match goal with
  | |- context [bind (loop_body a ?e) ?k ?s1] =>
      assert (E : loop_body a e s1
                  = (Raise (AssertionError
                       "Real batch size should be a factor of arg.batch_size!"),
                     set_trace
                       (((trace s ++ [ModelMode true])
                         ++ [Scalar train_writer "epoch"
                               (inject_Z (arg.start_epoch a + 1)) g0])
                        ++ [ZeroGrad])
                       (set_grad zero_grad (set_global_step (g0 + 1)%Q s))))
  end.
  { unfold loop_body. apply Z.eqb_neq in Hsi. rewrite Hsi.
    erewrite bind_ok; [|reflexivity].
    apply bind_raise. unfold train.
    erewrite bind_ok; [|reflexivity].
    erewrite bind_ok; [|apply get_loader_ok; exact Hld].
    erewrite bind_ok; [|reflexivity].
    erewrite bind_ok; [|reflexivity].
    erewrite bind_ok; [|apply get_optimizer_ok; exact Ho].
    apply bind_raise.
    destruct (data.batches (randperm (arg.start_epoch a)) ld)
      as [|b batches] eqn:Eb; [congruence|].
    cbn [for_fold]. apply bind_raise.
    assert (Hb : Py.len b = Z.of_nat (Z.to_nat (data.batch_size ld))).
    { apply (batches_length (randperm (arg.start_epoch a)) ld b Hdl).
      rewrite Eb. left. }
    erewrite train_batch_rejects; [reflexivity|exact Ho|exact Hf|].
    rewrite Hb, Hlb, Z2Nat.id by lia. exact Hmod. }
  erewrite bind_raise by exact E. cbn [fst snd].
  repeat split. simp_state. rewrite <- !app_assoc. reflexivity.
Qed.

(** *** The views of a run *)

Lemma init_rest_same_views a :
  respects same_views
    (load_model a ;; load_optimizer a ;; load_lr_scheduler a ;; load_data a ;;
     modify (set_global_step 0%Q) ;; modify (set_lr (arg.base_lr a)) ;;
     modify (set_best_acc 0%Q) ;; modify (set_best_acc_epoch 0) ;;
     modify (set_best_loss_val (-1)%Q) ;;
     modify (set_counter_early_stopping 0)).
Proof.
  unfold load_model, try_load_state_dict, ignore_weight, load_optimizer,
    load_lr_scheduler, load_data.
  unfold_methods. respects_auto field_leaf.
Qed.





(** *** Restoring weights *)

Lemma ignore_weights_run (ignored : list string) weights s :
  exists s',
    for_fold ignored weights ignore_weight s
    = (Ok (fold_left (fun w k => delete k w) ignored weights), s') /\
    model s' = model s /\ disk s' = disk s /\
    extends loading_event s s'.
Proof.
  revert weights s. induction ignored as [|w ignored IH]; intros weights s.
  - exists s. repeat split. reflexivity.
  - cbn [for_fold fold_left]. unfold ignore_weight at 1.
    destruct (weights !! w) as [tw|] eqn:Ew.
    + erewrite bind_ok; [|reflexivity].
      destruct (IH (delete w weights)
                  (set_trace (trace s ++ [Log (SuccessfullyRemovedWeight w)])
                     s)) as (s' & E & Hm & Hd & t & Ht & Ft).
      exists s'. split; [exact E|]. repeat split; try assumption.
      exists (Log (SuccessfullyRemovedWeight w) :: t).
      split; [rewrite Ht; simpl; now rewrite <- app_assoc|exact Ft].
    + erewrite bind_ok; [|reflexivity]. rewrite (delete_id _ _ Ew).
      destruct (IH weights
                  (set_trace (trace s ++ [Log (CannotRemoveWeight w)]) s))
        as (s' & E & Hm & Hd & t & Ht & Ft).
      exists s'. split; [exact E|]. repeat split; try assumption.
      exists (Log (CannotRemoveWeight w) :: t).
      split; [rewrite Ht; simpl; now rewrite <- app_assoc|exact Ft].
Qed.

Lemma load_model_reads a s path entries :
  arg.weights a = Some path ->
  path <> "" ->
  Py.contains ".pkl" path = false ->
  disk s !! path = Some (WeightsFile entries) ->
  exists s',
    load_model a s = try_load_state_dict (snapshot a entries) s' /\
    model s' = Model /\
    extends loading_event s s'.
Proof.
  intros Hw Hne Hpkl Hd. unfold load_model. rewrite Hw.
  erewrite bind_ok; [|reflexivity].
  destruct path as [|c path]; [congruence|].
  set (p := String c path) in *.
  assert (Hparse : exists s1,
    (match parse_int (Py.split_last "-" (Py.drop_last 3 p)) with
     | Some n => modify (set_global_step (inject_Z n))
     | None => print_log CannotParseGlobalStep ;; modify (set_global_step 0%Q)
     end) (set_model Model s) = (Ok tt, s1) /\
    model s1 = Model /\ disk s1 = disk s /\ extends loading_event s s1).
  { destruct (parse_int _).
    - eexists. split; [reflexivity|]. repeat split. exists [].
      split; [simpl; now rewrite app_nil_r|reflexivity].
    - eexists. split; [reflexivity|]. repeat split.
      exists [Log CannotParseGlobalStep]. split; reflexivity. }
  destruct Hparse as (s1 & E1 & Hm1 & Hd1 & t1 & Ht1 & Ft1).
  erewrite bind_ok; [|exact E1].
  erewrite bind_ok; [|reflexivity].
  rewrite Hpkl.
  erewrite bind_ok;
    [|unfold torch_load; run; rewrite Hd1, Hd; reflexivity].
  erewrite bind_ok; [|reflexivity].
  match goal with
  | |- context [bind (for_fold ?l ?w ignore_weight) _ ?s2] =>
      destruct (ignore_weights_run l w s2)
        as (s3 & E3 & Hm3 & Hd3 & t3 & Ht3 & Ft3)
  end.
  erewrite bind_ok; [|exact E3].
  exists s3. split; [reflexivity|]. simp_state. split; [congruence|].
  exists (t1 ++ [Log (LoadingWeightsFrom p)] ++ t3). split.
  - rewrite Ht3, Ht1, <- !app_assoc. reflexivity.
  - rewrite !forallb_app, Ft1, Ft3. reflexivity.
Qed.

Lemma for_each_missing (names : list string) s :
  exists s',
    for_each names (fun d => print_log (MissingWeight d)) s = (Ok tt, s') /\
    model s' = model s /\
    trace s' = trace s ++ map (fun d => Log (MissingWeight d)) names.
Proof.
  revert s. induction names as [|d names IH]; intros s.
  - exists s. simpl. now rewrite app_nil_r.
  - cbn [for_each]. erewrite bind_ok; [|reflexivity].
    destruct (IH (set_trace (trace s ++ [Log (MissingWeight d)]) s))
      as (s' & E & Hm & Ht).
    exists s'. split; [exact E|]. split; [exact Hm|].
    rewrite Ht. simpl. now rewrite <- app_assoc.
Qed.

Lemma try_load_compatible weights s :
  compatible (model s) weights = true ->
  try_load_state_dict weights s
  = (Ok tt, set_model (nn.copy_params (model s) weights) s).
Proof.
  intros H. unfold try_load_state_dict, try_except.
  now rewrite (load_state_dict_lenient _ _ H).
Qed.

Lemma try_load_mismatch weights s k t p :
  weights !! k = Some t -> model s !! k = Some p -> shape t <> shape p ->
  let r := try_load_state_dict weights s in
  r.1 = Raise (RuntimeError "Error(s) in loading state_dict") /\
  forall d, is_Some (model s !! d) -> weights !! d = None ->
            In (Log (MissingWeight d)) (trace r.2).
Proof.
  intros Ht Hp Hne r. subst r. unfold try_load_state_dict, try_except.
  rewrite (load_state_dict_mismatch _ _ false k t p Ht Hp Hne).
  erewrite bind_ok; [|reflexivity].
  erewrite bind_ok; [|reflexivity].
  erewrite bind_ok; [|reflexivity].
  simp_state.
  match goal with
  | |- context [bind (for_each ?l _) _ ?s1] =>
      destruct (for_each_missing l s1) as (s2 & E2 & Hm2 & Ht2)
  end.
  erewrite bind_ok; [|exact E2].
  simp_state.
  assert (Hstate : nn.copy_params (model s) weights !! k = Some p).
  { rewrite copy_params_lookup, Hp, Ht. now rewrite decide_False. }
  assert (Hunion : (weights ∪ nn.copy_params (model s) weights) !! k = Some t)
    by now apply lookup_union_Some_l.
  erewrite bind_raise.
  2:{ rewrite Hm2.
      rewrite (load_state_dict_mismatch _ _ true k t p Hunion Hstate Hne).
      reflexivity. }
  split; [reflexivity|].
  intros d Hd Hw. simp_state. rewrite Ht2. apply in_or_app. right.
  apply (in_map (fun d => Log (MissingWeight d))).
  apply list_elem_of_In, elem_of_elements, elem_of_difference. split.
  - apply elem_of_dom, copy_params_dom, Hd.
  - now apply not_elem_of_dom.
Qed.


(** Whenever a shape differs, the second load raises as the first one
    did. *)
Lemma load_model_mismatch_raises a s path entries k t p :
  arg.weights a = Some path ->
  path <> "" ->
  Py.contains ".pkl" path = false ->
  disk s !! path = Some (WeightsFile entries) ->
  snapshot a entries !! k = Some t ->
  Model !! k = Some p ->
  shape t <> shape p ->
  (load_model a s).1 = Raise (RuntimeError "Error(s) in loading state_dict").
Proof.
  intros Hw Hne Hpkl Hd Ht Hp Hshape.
  destruct (load_model_reads a s path entries Hw Hne Hpkl Hd)
    as (s' & E & Hm & _).
  rewrite E. rewrite <- Hm in Hp.
  now destruct (try_load_mismatch _ s' k t p Ht Hp Hshape) as [R _].
Qed.

(** C5, amended.  [load_model] first attempts a load that is not strict:
    names missing from the snapshot and names unknown to the model are
    tolerated.  When no entry of the snapshot has another shape than the
    parameter of its name, it returns normally, every parameter named in
    the snapshot is copied exactly and every other parameter is left as the
    model was built, and nothing is logged beyond the loading lines; a
    snapshot that is a strict subset of the model is such a case.  When
    some shape differs, every parameter name present in the model and
    absent from the snapshot is logged. *)
Theorem weights_restore (a : arg.t) (s : Processor) (path : string)
    (entries : list (string * tensor)) :
  arg.weights a = Some path ->
  path <> "" ->
  Py.contains ".pkl" path = false ->
  disk s !! path = Some (WeightsFile entries) ->
  let weights := snapshot a entries in
  let r := load_model a s in
  (compatible Model weights = true ->
   r.1 = Ok tt /\
   (forall k,
      model r.2 !! k
      = match Model !! k with
        | Some p => Some (default p (weights !! k))
        | None => None
        end) /\
   extends loading_event s r.2) /\
  (forall k t p,
     weights !! k = Some t -> Model !! k = Some p -> shape t <> shape p ->
     forall d, is_Some (Model !! d) -> weights !! d = None ->
               In (Log (MissingWeight d)) (trace r.2)).
Proof.
  intros Hw Hne Hpkl Hd weights r.
  destruct (load_model_reads a s path entries Hw Hne Hpkl Hd)
    as (s' & E & Hm & Hext).
  subst r. rewrite E. fold weights. split.
  - intros Hc. rewrite <- Hm in Hc.
    rewrite (try_load_compatible weights s' Hc). cbn [fst snd].
    split; [reflexivity|]. split.
    + intros k. simp_state. rewrite copy_params_lookup, Hm.
      destruct (Model !! k) as [p|] eqn:Ep; [|reflexivity].
      destruct (weights !! k) as [t|] eqn:Et; [|reflexivity].
      rewrite decide_True; [reflexivity|].
      apply (compatible_spec _ _ Hc k t p Et). now rewrite Hm.
    + destruct Hext as (t & Ht & Ft). exists t. split; assumption.
  - intros k t p Ht Hp Hshape d Hdm Hdw. rewrite <- Hm in Hp, Hdm.
    destruct (try_load_mismatch weights s' k t p Ht Hp Hshape) as [_ Hlog].
    now apply Hlog.
Qed.

End Properties.


(** ** The statements at work in the small world *)


Lemma early_stopping_rule_witness :
  let r := @loop_body Run.world Demo.args 0 Run.ready in
  r.1 = Ok false /\
  false = (0 <? arg.early_stopping Demo.args)
          && (arg.early_stopping Demo.args <? counter_early_stopping r.2) /\
  epoch_loop Demo.args [0] Run.ready = epoch_loop Demo.args [] r.2.
Proof.
  assert (H : (@loop_body Run.world Demo.args 0 Run.ready).1 = Ok false)
    by (vm_compute; reflexivity).
  split; [exact H|].
  destruct (@early_stopping_rule Run.world Demo.args) as (H1 & H2 & _).
  split.
  - exact (H1 0 Run.ready false _ (run_ok _ _ _ H)).
  - exact (H2 0 [] Run.ready false _ (run_ok _ _ _ H)).
Defined.

(** With [early_stopping = 2] and the losses 1.0, 1.2, 1.3, 1.1 the fourth
    epoch is trained and evaluated. *)
Lemma fourth_epoch_runs :
  let r := @main Run.world Run.patient (@blank Run.world ∅) in
  validation_losses (trace r.2) = [1; 12 # 10; 13 # 10; 11 # 10]%Q /\
  In 4%Q (epochs_trained (trace r.2)) /\
  In 4 (epochs_evaluated (trace r.2)).
Proof. vm_compute. intuition. Qed.



Lemma checkpoint_restore_witness :
  (exists s',
     (@load_optimizer Run.world Run.resumed ;; load_lr_scheduler Run.resumed)
       (blank Run.resumed_disk) = (Ok tt, s') /\
     optimizer s' = Some 42 /\ lr_scheduler s' = Some 43) /\
  begins_with
    [ModelMode true; Scalar train_writer "epoch" (inject_Z (0 + 1)) (0 # 2)]
    (@start Run.world Run.resumed) Run.ready.
Proof.
  destruct (@checkpoint_restore Run.world Run.resumed "ckpt.pt" 5 42 43 eq_refl)
    as [H1 H2].
  split.
  - apply H1; [reflexivity | left; split; reflexivity | left; reflexivity].
  - apply (H2 Run.ready (data.mkDataLoader (Demo.samples 2) 2 true true));
      try reflexivity; discriminate.
Defined.

(** Resumed from a checkpoint written at the end of epoch 5, the run trains
    the epoch it reports as 1. *)
Lemma resume_restarts_at_start_epoch :
  let r := @main Run.world Run.resumed (blank Run.resumed_disk) in
  r.1 = Ok tt /\ epochs_trained (trace r.2) = [1]%Q.
Proof. vm_compute. split; reflexivity. Qed.

Lemma unsupported_names_witness :
  @load_optimizer Run.world Run.unknown_optimizer (blank ∅)
  = (Raise (ValueError "Unsupported optimizer: RMSprop"), blank ∅) /\
  exists s',
    @load_lr_scheduler Run.world Run.unknown_scheduler (blank ∅)
    = (Ok tt, s') /\
    lr_scheduler s' = None /\
    optimizer s' = optimizer (@blank Run.world ∅) /\
    trace s' = trace (@blank Run.world ∅) ++ [Log (LoadingLrScheduler "StepLR")].
Proof.
  split.
  - destruct (@unsupported_names Run.world Run.unknown_optimizer) as [H _].
    destruct H as [H _]; [discriminate|discriminate|]. apply H.
  - destruct (@unsupported_names Run.world Run.unknown_scheduler) as [_ H].
    apply H; [discriminate|discriminate|discriminate|reflexivity].
Defined.

(** With a scheduler name the program does not know, initialization
    completes without a scheduler and the first epoch is trained. *)
Lemma unknown_scheduler_is_accepted :
  (@init Run.world Run.unknown_scheduler (blank ∅)).1 = Ok tt /\
  lr_scheduler (@init Run.world Run.unknown_scheduler (blank ∅)).2 = None /\
  In KOptimizerStep
    (map kind_of (trace (@main Run.world Run.unknown_scheduler (blank ∅)).2)).
Proof.
  split; [reflexivity|]. split; [reflexivity|]. vm_compute. intuition.
Qed.

Lemma global_step_at_start_witness :
  let s := (@init Run.world3 Run.later (blank Run.later_disk)).2 in
  global_step s = 0%Q /\
  start Run.later (set_global_step 7%Q s) = start Run.later s /\
  ~ (inject_Z (1 * 3) / inject_Z 2 == inject_Z (1 * 3))%Q /\
  trace (@save_checkpoint Run.world Demo.args 1 Run.ready).2
  = trace Run.ready
      ++ [TorchSave "work/checkpoints/checkpoint-1-fwbz1-0.pt"].
Proof.
  destruct (@global_step_at_start Run.world3 Run.later) as (H1 & H2 & H3 & _).
  destruct (@global_step_at_start Run.world Demo.args) as (_ & _ & _ & H4).
  split; [|split; [|split]].
  - apply (H1 (blank Run.later_disk)). apply run_ok. vm_compute. reflexivity.
  - refine (proj1 (H2 _ (data.mkDataLoader (Demo.samples 6) 2 true true)
                     _ _ _ _));
      [reflexivity | vm_compute; reflexivity | discriminate].
  - destruct (H3 3) as (_ & H & _); [discriminate|].
    apply H; reflexivity.
  - assert (E : (@save_checkpoint Run.world Demo.args 1 Run.ready).1 = Ok tt)
      by (vm_compute; reflexivity).
    rewrite (H4 1 Run.ready _ (run_ok _ _ tt E)).
    do 2 f_equal.
Defined.

(** Started at epoch 1 with three macro-batches of two samples per epoch,
    the run begins at global step 3/2, is at 9/2 when the epoch is saved,
    and names the checkpoint after 4. *)
Example checkpoint_name_after_restart :
  let r := @main Run.world3 Run.later (blank Run.later_disk) in
  r.1 = Ok tt /\
  Qred (global_step r.2) = (9 # 2)%Q /\
  In (KTorchSave "work/checkpoints/checkpoint-2-fwbz1-4.pt")
    (map kind_of (trace r.2)).
Proof. vm_compute. intuition. Qed.


Lemma indivisible_batch_size_witness :
  let r := @start Run.odd_world Run.odd Run.odd_ready in
  r.1 = Raise (AssertionError
                 "Real batch size should be a factor of arg.batch_size!") /\
  trace r.2
  = trace Run.odd_ready
      ++ [ModelMode true;
          Scalar train_writer "epoch" (inject_Z (0 + 1))
            (inject_Z (0 * 1) / inject_Z 3);
          ZeroGrad] /\
  global_step r.2 = (inject_Z (0 * 1) / inject_Z 3 + 1)%Q /\
  model r.2 = model Run.odd_ready /\
  disk r.2 = disk Run.odd_ready.
Proof.
  apply (@indivisible_batch_size Run.odd_world Run.odd Run.odd_ready 0
           (data.mkDataLoader (Demo.samples 3) 3 true true));
    try reflexivity; vm_compute; discriminate.
Defined.

(** With a batch size of 3 forwarded 2 at a time, the failure comes inside
    the first epoch, after the gradients were zeroed and the global step
    went from 0 to 1. *)
Lemma assertion_fires_inside_first_batch :
  let r := @main Run.odd_world Run.odd (blank ∅) in
  r.1 = Raise (AssertionError
                 "Real batch size should be a factor of arg.batch_size!") /\
  epochs_trained (trace r.2) = [1]%Q /\
  In KZeroGrad (map kind_of (trace r.2)) /\
  Qred (global_step r.2) = 1%Q.
Proof. vm_compute. intuition. Qed.


(** Two views of one sample and two classes fuse to their mean. *)
Example fuse_two_views :
  fuse [[[1; 2]]; [[3; 6]]]%Q = Ok [[4 # 2; 8 # 2]]%Q.
Proof. reflexivity. Qed.

Lemma weights_restore_witness :
  (let r := @load_model Run.world Run.restored (blank Run.subset_disk) in
   r.1 = Ok tt /\
   model r.2 !! "fc.weight" = Some (Tensor [2] [1; 1]%Q) /\
   model r.2 !! "fc.bias" = Some (Demo.fc_bias 0)) /\
  In (Log (MissingWeight "fc.weight"))
    (trace (@load_model Run.world Run.restored (blank Run.mismatch_disk)).2).
Proof.
  split.
  - destruct (@weights_restore Run.world Run.restored (blank Run.subset_disk)
                "weights-1.pt" _ eq_refl ltac:(discriminate) eq_refl eq_refl)
      as [H _].
    destruct H as (H1 & H2 & _); [vm_compute; reflexivity|].
    split; [exact H1|]. split; rewrite H2; reflexivity.
  - destruct (@weights_restore Run.world Run.restored
                (blank Run.mismatch_disk) "weights-1.pt" _ eq_refl
                ltac:(discriminate) eq_refl eq_refl) as [_ H].
    apply (H "fc.bias" (Tensor [3] [0; 0; 0]%Q) (Demo.fc_bias 0));
      [reflexivity | reflexivity | simpl; discriminate
      | eexists; reflexivity | reflexivity].
Defined.

(** A snapshot that holds the weight only: a strict load of it fails on the
    missing bias, yet [load_model] returns normally and logs no line for the
    bias. *)
Lemma strict_subset_logs_nothing :
  let weights :=
    snapshot Run.restored [("module.fc.weight", Tensor [2] [1; 1]%Q)] in
  let r := @load_model Run.world Run.restored (blank Run.subset_disk) in
  (nn.load_state_dict (@Model Run.world) weights true).1
  = Raise (RuntimeError "Error(s) in loading state_dict") /\
  r.1 = Ok tt /\
  ~ In (KLog (MissingWeight "fc.bias")) (map kind_of (trace r.2)).
Proof. vm_compute. intuition discriminate. Qed.

(** A snapshot whose bias has another shape ends the run in
    initialization. *)
Example mismatched_head_aborts :
  (@main Run.world Run.restored (blank Run.mismatch_disk)).1
  = Raise (RuntimeError "Error(s) in loading state_dict").
Proof. vm_compute. reflexivity. Qed.


(** * Edge cases, invariants and round trips *)

(** ** Strings *)

Lemma str_inj z z' : Py.str z = Py.str z' -> z = z'.
Proof.
  unfold Py.str. intros H. apply to_int_inj.
  assert (N : forall n, NilZero.int_of_string
                          (NilZero.string_of_int (Z.to_int n))
                        = Some (Z.to_int n)).
  { intros n. apply NilZero.isi; intros E.
    all: pose proof (f_equal Z.of_int E) as E'; rewrite of_to in E';
      simpl in E'; subst n; discriminate E. }
  pose proof (N z) as Hz. rewrite H, N in Hz. now injection Hz.
Qed.

Lemma view_names_NoDup n : NoDup (view_names n).
Proof.
  unfold view_names. apply (NoDup_fmap_2_strong _ (seq 0 n)).
  - intros x y _ _ H. simpl in H. injection H as H.
    apply str_inj in H. lia.
  - apply NoDup_ListNoDup, seq_NoDup.
Qed.

Lemma view_names_lookup n (idx : nat) name :
  view_names n !! idx = Some name <->
  (idx < n)%nat /\ name = "test_tta_" +:+ Py.str (Z.of_nat idx).
Proof.
  unfold view_names. rewrite list_lookup_fmap.
  destruct (seq 0 n !! idx) as [j|] eqn:E; simpl.
  - apply lookup_seq in E as [-> Hlt]. simpl. split.
    + intros [= <-]. auto.
    + intros [_ ->]. reflexivity.
  - split; [discriminate|]. intros [Hlt _].
    rewrite lookup_seq_lt in E by exact Hlt. discriminate.
Qed.

Lemma view_names_not_train n : ~ In "train" (view_names n).
Proof.
  unfold view_names. rewrite in_map_iff. intros (idx & H & _).
  simpl in H. discriminate H.
Qed.

Lemma lower_upper_char c : Py.lower_char (upper_char c) = Py.lower_char c.
Proof. destruct c as [[] [] [] [] [] [] [] []]; reflexivity. Qed.

Lemma lower_lower_char c : Py.lower_char (Py.lower_char c) = Py.lower_char c.
Proof. destruct c as [[] [] [] [] [] [] [] []]; reflexivity. Qed.

Lemma lower_recase mask v : Py.lower (recase mask v) = Py.lower v.
Proof.
  revert mask. induction v as [|c v IH]; intros [|[] mask]; simpl;
    try reflexivity.
  - now rewrite lower_upper_char, IH.
  - now rewrite lower_lower_char, IH.
Qed.

Lemma existsb_eqb_In (x : string) (l : list string) :
  existsb (String.eqb x) l = true <-> In x l.
Proof.
  rewrite existsb_exists. split.
  - intros (y & Hy & E). apply String.eqb_eq in E. now subst.
  - intros H. exists x. split; [exact H|apply String.eqb_refl].
Qed.

(** X22.  [str2bool] reads a word whatever the case of its letters: putting
    any letters of the input in upper or lower case does not change the
    result. It returns [True] exactly when the lowered input is one of yes,
    true, t, y, 1, [False] exactly when it is one of no, false, f, n, 0, and
    raises [ArgumentTypeError] for every other input, the empty string among
    them. *)
Theorem str2bool_ignores_case :
  (forall mask v, str2bool (recase mask v) = str2bool v) /\
  (forall v, str2bool v = inl true
             <-> In (Py.lower v) ["yes"; "true"; "t"; "y"; "1"]) /\
  (forall v, str2bool v = inl false
             <-> In (Py.lower v) ["no"; "false"; "f"; "n"; "0"]) /\
  (forall v, (exists b, str2bool v = inl b) \/
             str2bool v
             = inr (argparse.ArgumentTypeError "Boolean value expected.")) /\
  str2bool ""
  = inr (argparse.ArgumentTypeError "Boolean value expected.").
Proof.
  split; [|split; [|split; [|split]]].
  - intros mask v. unfold str2bool. now rewrite lower_recase.
  - intros v. unfold str2bool. rewrite <- existsb_eqb_In.
    destruct (existsb _ ["yes"; _; _; _; _]); [tauto|].
    destruct (existsb _ _); split; discriminate.
  - intros v. unfold str2bool. rewrite <- existsb_eqb_In.
    destruct (existsb _ ["yes"; _; _; _; _]) eqn:Et.
    + split; [discriminate|]. intros Ef. exfalso.
      apply existsb_eqb_In in Et, Ef. simpl in Et, Ef.
      intuition congruence.
    + destruct (existsb (String.eqb (Py.lower v)) ["no"; _; _; _; _]);
        split; intros; (reflexivity || discriminate).
  - intros v. unfold str2bool.
    destruct (existsb _ ["yes"; _; _; _; _]); [left; eauto|].
    destruct (existsb _ _); [left; eauto|now right].
  - reflexivity.
Qed.

(** X25.  [tta_process_ensemble] returns for no input. It raises [IndexError]
    for an empty list and for a list whose first score has no row, and
    [TypeError] in the first turn of its loops otherwise, where it adds the
    pair produced by [enumerate] to an integer. *)
Theorem tta_process_ensemble_never_returns (lst_score : list matrix) :
  tta_process_ensemble lst_score
  = match lst_score with
    | [] | [] :: _ => Raise IndexError
    | (_ :: _) :: _ => Raise TypeError
    end.
Proof.
  destruct lst_score as [|[|row first] rest]; reflexivity.
Qed.

Lemma substring_all s : String.substring 0 (String.length s) s = s.
Proof. induction s as [|a s IH]; simpl; [reflexivity|now rewrite IH]. Qed.

Lemma after_first_here (a : ascii) sep s :
  String.prefix (String a sep) (String a s) = String.prefix sep s.
Proof. simpl. destruct (ascii_dec a a); [reflexivity|contradiction]. Qed.

Lemma contains_false sep s :
  Py.contains sep s = false -> Py.after_first sep s = None.
Proof.
  unfold Py.contains. intros H. apply bool_decide_eq_false in H.
  destruct (Py.after_first sep s); [|reflexivity]. exfalso. apply H. eauto.
Qed.

Lemma contains_true sep s :
  Py.contains sep s = true <-> is_Some (Py.after_first sep s).
Proof. unfold Py.contains. apply bool_decide_eq_true. Qed.

Lemma after_first_cons_eq (a : ascii) s :
  Py.after_first (String a "") (String a s) = Some s.
Proof.
  cbn [Py.after_first]. rewrite after_first_here.
  assert (String.prefix "" s = true) as -> by now destruct s.
  cbn [String.length]. simpl. now rewrite Nat.sub_0_r, substring_all.
Qed.

Lemma after_first_cons_ne (a b : ascii) s :
  a <> b ->
  Py.after_first (String a "") (String b s) = Py.after_first (String a "") s.
Proof.
  intros H. cbn [Py.after_first]. simpl.
  destruct (ascii_dec a b); [contradiction|reflexivity].
Qed.

Lemma after_first_underscore (p c : string) :
  exists rest,
    Py.after_first "_" (p +:+ "_" +:+ c) = Some rest /\
    (rest = c \/
     exists p', rest = p' +:+ "_" +:+ c /\
                (String.length p' < String.length p)%nat).
Proof.
  induction p as [|a p IH].
  - exists c. split; [|now left].
    change ("" +:+ "_" +:+ c) with (String "_" c).
    apply after_first_cons_eq.
  - change (String a p +:+ "_" +:+ c) with (String a (p +:+ "_" +:+ c)).
    destruct (ascii_dec "_" a) as [<-|Hne].
    + exists (p +:+ "_" +:+ c). split; [apply after_first_cons_eq|].
      right. exists p. split; [reflexivity|]. simpl. lia.
    + destruct IH as (rest & E & Hrest). exists rest. split.
      * now rewrite after_first_cons_ne.
      * destruct Hrest as [->|(p' & -> & Hlt)]; [now left|].
        right. exists p'. split; [reflexivity|]. simpl. lia.
Qed.

Lemma split_last_from_clean fuel sep c :
  Py.contains sep c = false -> Py.split_last_from fuel sep c = c.
Proof.
  intros H. destruct fuel; [reflexivity|]. simpl.
  now rewrite (contains_false _ _ H).
Qed.

Lemma split_last_from_underscore (c : string) fuel p :
  Py.contains "_" c = false ->
  (String.length p < fuel)%nat ->
  Py.split_last_from fuel "_" (p +:+ "_" +:+ c) = c.
Proof.
  intros Hc. revert p. induction fuel as [|fuel IH]; intros p Hlt; [lia|].
  cbn [Py.split_last_from].
  destruct (after_first_underscore p c) as (rest & E & Hrest). rewrite E.
  destruct Hrest as [->|(p' & -> & Hlt')].
  - now apply split_last_from_clean.
  - apply IH. lia.
Qed.

Lemma length_append s t :
  String.length (s +:+ t) = (String.length s + String.length t)%nat.
Proof.
  induction s as [|a s IH]; [reflexivity|].
  change (String a s +:+ t) with (String a (s +:+ t)). simpl. now rewrite IH.
Qed.

Lemma prefix_app a b s :
  String.prefix (a +:+ b) s = true -> String.prefix a s = true.
Proof.
  revert s. induction a as [|x a IH]; intros s; [now destruct s|].
  destruct s as [|y s]; simpl; [discriminate|].
  destruct (ascii_dec x y); [apply IH|discriminate].
Qed.

Lemma after_first_app a b s :
  is_Some (Py.after_first (a +:+ b) s) -> is_Some (Py.after_first a s).
Proof.
  induction s as [|y s IH].
  - cbn [Py.after_first].
    destruct (String.prefix (a +:+ b) "") eqn:E.
    + now rewrite (prefix_app _ _ _ E).
    + intros [? [=]].
  - cbn [Py.after_first].
    destruct (String.prefix (a +:+ b) (String y s)) eqn:E.
    + now rewrite (prefix_app _ _ _ E).
    + intros H. destruct (String.prefix a (String y s)); [eauto|auto].
Qed.

(** X24.  The input channels that [main] derives from the stream name. Without
    'angles' in the name, they are the number of characters that follow the
    last underscore, or of the whole name when it has no underscore; with
    'angles_extended' in the name they are 4, and with 'angles' but not
    'angles_extended' they are 1. *)
Theorem channels_of_stream :
  (forall p c,
     Py.contains "_" c = false ->
     Py.contains "angles" (p +:+ "_" +:+ c) = false ->
     in_channels (p +:+ "_" +:+ c) = Z.of_nat (String.length c)) /\
  (forall stream,
     Py.contains "_" stream = false ->
     Py.contains "angles" stream = false ->
     in_channels stream = Z.of_nat (String.length stream)) /\
  (forall stream,
     Py.contains "angles_extended" stream = true -> in_channels stream = 4) /\
  (forall stream,
     Py.contains "angles" stream = true ->
     Py.contains "angles_extended" stream = false -> in_channels stream = 1).
Proof.
  split; [|split; [|split]].
  - intros p c Hc Ha. unfold in_channels. rewrite Ha. simpl.
    unfold Py.split_last. rewrite split_last_from_underscore; [reflexivity| |].
    + exact Hc.
    + rewrite !length_append. simpl. lia.
  - intros stream Hu Ha. unfold in_channels. rewrite Ha. simpl.
    unfold Py.split_last. now rewrite split_last_from_clean.
  - intros stream He. unfold in_channels. rewrite He.
    assert (Ha : Py.contains "angles" stream = true).
    { apply contains_true. apply contains_true in He.
      exact (after_first_app "angles" "_extended" stream He). }
    now rewrite Ha.
  - intros stream Ha He. unfold in_channels. now rewrite Ha, He.
Qed.

(** X23.  The check of the configuration keys passes, printing nothing, when
    every key is a destination of the parser; otherwise it stops at the first
    key that is not, with an [AssertionError], having printed one line that
    names this key. *)
Theorem config_keys_are_checked (key : list string) :
  (forall default_arg out,
     Forall (fun k => In k key) default_arg ->
     check_config_keys key default_arg out = (Ok tt, out)) /\
  (forall known k rest out,
     Forall (fun k => In k key) known ->
     ~ In k key ->
     check_config_keys key (known ++ k :: rest) out
     = (Raise (AssertionError ""), out ++ ["WRONG ARG: " +:+ k])).
Proof.
  assert (Hok : forall default_arg out k,
            Forall (fun k => In k key) default_arg ->
            check_config_keys key (default_arg ++ k) out
            = check_config_keys key k out).
  { intros default_arg out k H. induction H as [|x l Hx Hl IH];
      [reflexivity|].
    cbn [app]. unfold check_config_keys in *. cbn [for_each].
    apply existsb_eqb_In in Hx. rewrite Hx. cbn [negb].
    erewrite bind_ok; [|reflexivity]. exact IH. }
  split.
  - intros default_arg out H.
    rewrite <- (app_nil_r default_arg). now rewrite Hok.
  - intros known k rest out H Hk. rewrite (Hok known out _ H).
    unfold check_config_keys. cbn [for_each].
    assert (E : existsb (String.eqb k) key = false).
    { destruct (existsb _ key) eqn:E; [|reflexivity].
      apply existsb_eqb_In in E. contradiction. }
    rewrite E. reflexivity.
Qed.

Lemma append_inj_l (p s t : string) : p +:+ s = p +:+ t -> s = t.
Proof.
  induction p as [|a p IH]; [auto|].
  change (String a p +:+ ?x) with (String a (p +:+ x)).
  intros [= H]. auto.
Qed.

Lemma append_inj_r (s t q : string) : s +:+ q = t +:+ q -> s = t.
Proof.
  intros H.
  assert (Hlen : String.length s = String.length t).
  { apply (f_equal String.length) in H. rewrite !length_append in H. lia. }
  revert t H Hlen. induction s as [|a s IH]; intros [|b t] H Hlen;
    try discriminate Hlen; [reflexivity|].
  change (String ?x ?y +:+ q) with (String x (y +:+ q)) in H.
  injection H as -> H. f_equal. apply IH; [exact H|]. simpl in Hlen. lia.
Qed.

Lemma path_join_inj (d b b' : string) :
  String.prefix "/" b = false -> String.prefix "/" b' = false ->
  Py.path_join d b = Py.path_join d b' -> b = b'.
Proof.
  unfold Py.path_join. intros -> ->.
  destruct (String.eqb d ""); [auto|].
  destruct (String.eqb _ "/").
  - apply append_inj_l.
  - intros H. apply append_inj_l in H. now apply append_inj_l in H.
Qed.

(** ** Sums *)




Ltac unchanged_leaf :=
  first [ assumption
        | apply respects_modify; intros ?; unfold unchanged; simpl; reflexivity
        | intros ?; unfold unchanged; simpl; reflexivity ].

Ltac unfold_eval :=
  unfold eval, eval_views, eval_view, eval_batch, eval_report, track_best;
  unfold_methods.


Section Further.
Context `{B : Backend}.

(** ** Weights *)

Lemma forallb_false {A} (f : A -> bool) l :
  forallb f l = false -> exists x, In x l /\ f x = false.
Proof.
  induction l as [|x l IH]; simpl; [discriminate|].
  destruct (f x) eqn:E; simpl.
  - intros H. destruct (IH H) as (y & Hy & Fy). eauto.
  - eauto.
Qed.

Lemma compatible_false m sd :
  compatible m sd = false ->
  exists k t p, sd !! k = Some t /\ m !! k = Some p /\ shape t <> shape p.
Proof.
  unfold compatible. intros H.
  apply forallb_false in H as ([k t] & Hin & Hf).
  apply list_elem_of_In, elem_of_map_to_list in Hin.
  unfold fits in Hf. simpl in Hf.
  destruct (m !! k) as [p|] eqn:Ep; [|discriminate].
  apply bool_decide_eq_false in Hf. exists k, t, p. auto.
Qed.

(** The state dict that the second load is given holds the same tensors
    as the snapshot wherever the snapshot has one: loading it copies what
    the first load copied. *)
Lemma copy_params_again m w :
  nn.copy_params (nn.copy_params m w) (w ∪ nn.copy_params m w)
  = nn.copy_params m w.
Proof.
  apply map_eq. intros k. rewrite !copy_params_lookup.
  destruct (m !! k) as [p|] eqn:Ep; [|reflexivity].
  destruct (w !! k) as [t|] eqn:Et.
  - rewrite (lookup_union_Some_l _ _ _ _ Et).
    destruct (decide (shape t = shape p)) as [E|E].
    + now rewrite decide_True.
    + now rewrite decide_False.
  - rewrite lookup_union_r by exact Et.
    rewrite copy_params_lookup, Ep, Et. now rewrite decide_True.
Qed.

Lemma try_load_incompatible weights s :
  compatible (model s) weights = false ->
  let r := try_load_state_dict weights s in
  r.1 = Raise (RuntimeError "Error(s) in loading state_dict") /\
  model r.2 = nn.copy_params (model s) weights /\
  extends not_partial s r.2.
Proof.
  intros Hc r. subst r.
  apply compatible_false in Hc as (k & t & p & Ht & Hp & Hne).
  unfold try_load_state_dict, try_except.
  rewrite (load_state_dict_mismatch _ _ false k t p Ht Hp Hne).
  erewrite bind_ok; [|reflexivity].
  erewrite bind_ok; [|reflexivity].
  erewrite bind_ok; [|reflexivity].
  simp_state.
  match goal with
  | |- context [bind (for_each ?l _) _ ?s1] =>
      destruct (for_each_missing l s1) as (s2 & E2 & Hm2 & Ht2)
  end.
  erewrite bind_ok; [|exact E2].
  simp_state.
  assert (Hstate : nn.copy_params (model s) weights !! k = Some p).
  { rewrite copy_params_lookup, Hp, Ht. now rewrite decide_False. }
  assert (Hunion : (weights ∪ nn.copy_params (model s) weights) !! k = Some t)
    by now apply lookup_union_Some_l.
  erewrite bind_raise.
  2:{ rewrite Hm2.
      rewrite (load_state_dict_mismatch _ _ true k t p Hunion Hstate Hne).
      reflexivity. }
  rewrite copy_params_again. simp_state.
  split; [reflexivity|]. split; [reflexivity|].
  eexists. split; [simpl; rewrite Ht2, <- !app_assoc; reflexivity|].
  rewrite !forallb_app. simpl.
  clear. induction (elements _) as [|d l IH]; [reflexivity|exact IH].
Qed.

(** X1.  The second load of [load_model] cannot succeed where the first one
    failed. [try_load_state_dict] returns normally exactly when no entry of
    the snapshot has another shape than the parameter of its name; otherwise
    it ends in the [RuntimeError] of the strict reload. In both cases the
    entries that fit have been copied into the model, and the line 'Weights
    loaded partially' is never logged. *)
Theorem partial_load_never_completes (weights : gmap string tensor)
    (s : Processor) :
  let r := try_load_state_dict weights s in
  (r.1 = Ok tt <-> compatible (model s) weights = true) /\
  (compatible (model s) weights = false ->
   r.1 = Raise (RuntimeError "Error(s) in loading state_dict")) /\
  model r.2 = nn.copy_params (model s) weights /\
  extends not_partial s r.2.
Proof.
  intros r. subst r.
  destruct (compatible (model s) weights) eqn:Hc.
  - rewrite (try_load_compatible weights s Hc). cbn [fst snd].
    split; [tauto|]. split; [discriminate|]. split; [reflexivity|].
    exists []. split; [simpl; now rewrite app_nil_r|reflexivity].
  - destruct (try_load_incompatible weights s Hc) as (H1 & H2 & H3).
    split; [|auto]. rewrite H1. split; discriminate.
Qed.


(** *** Ignored weights *)

Lemma lookup_fold_delete (l : list string) (m : gmap string tensor) k :
  (In k l -> fold_left (fun w k => delete k w) l m !! k = None) /\
  (~ In k l -> fold_left (fun w k => delete k w) l m !! k = m !! k).
Proof.
  revert m. induction l as [|x l IH]; intros m.
  - split; [intros []|reflexivity].
  - cbn [fold_left]. destruct (IH (delete x m)) as [IH1 IH2]. split.
    + intros Hk. destruct (decide (k ∈ l)) as [Hl|Hl].
      * apply IH1. now apply list_elem_of_In.
      * rewrite IH2 by (intros ?; apply Hl; now apply list_elem_of_In).
        destruct Hk as [->|Hk]; [apply lookup_delete_eq|].
        exfalso. apply Hl. now apply list_elem_of_In.
    + intros Hk. rewrite IH2 by (intros ?; apply Hk; now right).
      apply lookup_delete_ne. intros ->. apply Hk. now left.
Qed.

Lemma extends_In P s s' e :
  extends P s s' -> In e (trace s) -> In e (trace s').
Proof. intros (t & -> & _) H. apply in_or_app. now left. Qed.

Lemma ignore_weight_run weights w s :
  exists line,
    ignore_weight weights w s
    = (Ok (delete w weights), set_trace (trace s ++ [Log line]) s) /\
    ((line = SuccessfullyRemovedWeight w /\ is_Some (weights !! w)) \/
     (line = CannotRemoveWeight w /\ weights !! w = None)).
Proof.
  unfold ignore_weight. destruct (weights !! w) as [tw|] eqn:Ew.
  - eexists. split; [reflexivity|]. left. eauto.
  - rewrite (delete_id _ _ Ew). eexists. split; [reflexivity|]. now right.
Qed.

Lemma ignore_weights_logs (ignored : list string) weights s k :
  In k ignored ->
  let r := for_fold ignored weights ignore_weight s in
  (is_Some (weights !! k) ->
   In (Log (SuccessfullyRemovedWeight k)) (trace r.2)) /\
  (weights !! k = None -> In (Log (CannotRemoveWeight k)) (trace r.2)).
Proof.
  revert weights s. induction ignored as [|w ignored IH]; intros weights s Hk;
    [destruct Hk|].
  cbv zeta in *. cbn [for_fold].
  destruct (ignore_weight_run weights w s) as (line & E & Hline).
  rewrite bind_eq, E.
  destruct (decide (w = k)) as [->|Hne].
  - destruct (ignore_weights_run ignored (delete k weights)
                (set_trace (trace s ++ [Log line]) s))
      as (sx & Ex & _ & _ & Hx).
    rewrite Ex. cbn [snd].
    assert (Hin : In (Log line) (trace sx)).
    { apply (extends_In _ _ _ _ Hx). simpl. apply in_or_app. right. now left. }
    destruct Hline as [[-> Hs]|[-> Hn]].
    + split; [intros _; exact Hin|]. intros Hn. rewrite Hn in Hs.
      now destruct Hs.
    + split; [|intros _; exact Hin]. intros Hs. rewrite Hn in Hs.
      now destruct Hs.
  - destruct Hk as [?|Hk]; [contradiction|].
    rewrite <- (lookup_delete_ne weights w k Hne). now apply IH.
Qed.

Lemma load_model_steps a s path entries :
  arg.weights a = Some path ->
  path <> "" ->
  Py.contains ".pkl" path = false ->
  disk s !! path = Some (WeightsFile entries) ->
  exists s1,
    load_model a s
    = try_load_state_dict (snapshot a entries)
        (for_fold (arg.ignore_weights a) (strip_module entries)
           ignore_weight s1).2 /\
    model s1 = Model.
Proof.
  intros Hw Hne Hpkl Hd. unfold load_model. rewrite Hw.
  erewrite bind_ok; [|reflexivity].
  destruct path as [|c path]; [congruence|].
  set (p := String c path) in *.
  assert (Hparse : exists s1,
    (match parse_int (Py.split_last "-" (Py.drop_last 3 p)) with
     | Some n => modify (set_global_step (inject_Z n))
     | None => print_log CannotParseGlobalStep ;; modify (set_global_step 0%Q)
     end) (set_model Model s) = (Ok tt, s1) /\
    model s1 = Model /\ disk s1 = disk s).
  { destruct (parse_int _); eexists; (split; [reflexivity|]); split;
      reflexivity. }
  destruct Hparse as (s1 & E1 & Hm1 & Hd1).
  erewrite bind_ok; [|exact E1].
  erewrite bind_ok; [|reflexivity].
  rewrite Hpkl.
  erewrite bind_ok;
    [|unfold torch_load; run; rewrite Hd1, Hd; reflexivity].
  erewrite bind_ok; [|reflexivity].
  match goal with
  | |- context [bind (for_fold ?l ?w ignore_weight) _ ?s2] =>
      destruct (ignore_weights_run l w s2) as (s3 & E3 & _);
      exists s2
  end.
  erewrite bind_ok; [|exact E3]. rewrite E3. split; [reflexivity|exact Hm1].
Qed.

(** X2.  When the weights file, at a non-empty path without '.pkl', is on disk
    and every entry of it whose shape differs from the parameter of its name
    is listed in [arg.ignore_weights], [load_model] returns normally: every
    ignored name keeps the parameter the model was built with, every other
    entry of the file that names a parameter is copied, and each ignored name
    gets its line in the log, 'Successfully removed' when the file held it and
    'Cannot remove' when it did not. *)
Theorem ignored_weights_are_skipped (a : arg.t) (s : Processor)
    (path : string) (entries : list (string * tensor)) :
  arg.weights a = Some path ->
  path <> "" ->
  Py.contains ".pkl" path = false ->
  disk s !! path = Some (WeightsFile entries) ->
  (forall k t p,
     strip_module entries !! k = Some t -> Model !! k = Some p ->
     shape t <> shape p -> In k (arg.ignore_weights a)) ->
  let r := load_model a s in
  r.1 = Ok tt /\
  (forall k, In k (arg.ignore_weights a) -> model r.2 !! k = Model !! k) /\
  (forall k t,
     ~ In k (arg.ignore_weights a) ->
     strip_module entries !! k = Some t -> is_Some (Model !! k) ->
     model r.2 !! k = Some t) /\
  (forall k,
     In k (arg.ignore_weights a) ->
     (is_Some (strip_module entries !! k) ->
      In (Log (SuccessfullyRemovedWeight k)) (trace r.2)) /\
     (strip_module entries !! k = None ->
      In (Log (CannotRemoveWeight k)) (trace r.2))).
Proof.
  intros Hw Hne Hpkl Hd Hign r. subst r.
  destruct (load_model_steps a s path entries Hw Hne Hpkl Hd) as (s1 & E & Hm1).
  rewrite E.
  destruct (ignore_weights_run (arg.ignore_weights a) (strip_module entries) s1)
    as (s2 & E2 & Hm2 & _ & _).
  pose proof (ignore_weights_logs (arg.ignore_weights a)
                (strip_module entries) s1) as Hlogs.
  cbv zeta in Hlogs. rewrite E2 in *. cbn [snd] in *.
  assert (Hms : model s2 = Model) by congruence.
  assert (Hc : compatible (model s2) (snapshot a entries) = true).
  { destruct (compatible (model s2) (snapshot a entries)) eqn:Hc;
      [reflexivity|exfalso].
    apply compatible_false in Hc as (k & t & p & Ht & Hp & Hshape).
    rewrite Hms in Hp. unfold snapshot in Ht.
    destruct (lookup_fold_delete (arg.ignore_weights a)
                (strip_module entries) k) as [H1 H2].
    destruct (decide (k ∈ arg.ignore_weights a)) as [Hin|Hin].
    - rewrite H1 in Ht by now apply list_elem_of_In. discriminate.
    - rewrite H2 in Ht by (intros ?; apply Hin; now apply list_elem_of_In).
      apply Hin, list_elem_of_In. eapply Hign; eassumption. }
  rewrite (try_load_compatible _ s2 Hc). cbn [fst snd]. simp_state.
  split; [reflexivity|]. split; [|split].
  - intros k Hk. rewrite copy_params_lookup, Hms.
    destruct (Model !! k) as [p|]; [|reflexivity].
    unfold snapshot.
    now rewrite (proj1 (lookup_fold_delete _ (strip_module entries) k) Hk).
  - intros k t Hk Ht [p Hp]. rewrite copy_params_lookup, Hms, Hp.
    unfold snapshot in *.
    assert (Hk' : fold_left (fun w k => delete k w) (arg.ignore_weights a)
                    (strip_module entries) !! k = Some t)
      by now rewrite (proj2 (lookup_fold_delete _ (strip_module entries) k) Hk).
    rewrite Hk'. rewrite decide_True; [reflexivity|].
    apply (compatible_spec _ _ Hc k t p Hk'). now rewrite Hms.
  - intros k Hk. exact (Hlogs k Hk).
Qed.

(** *** Saving weights and loading them back *)

Lemma split_last_clean sep k :
  Py.contains sep k = false -> Py.split_last sep k = k.
Proof.
  unfold Py.contains, Py.split_last. intros H.
  apply bool_decide_eq_false in H.
  destruct (String.length k); [reflexivity|]. simpl.
  destruct (Py.after_first sep k); [|reflexivity].
  exfalso. apply H. eauto.
Qed.

Lemma fold_insert_lookup (f : string -> string) (l : list (string * tensor))
    (m0 : gmap string tensor) k :
  NoDup l.*1 ->
  (forall kv, In kv l -> f kv.1 = kv.1) ->
  fold_left (fun w kv => <[f kv.1 := kv.2]> w) l m0 !! k
  = match (list_to_map l : gmap string tensor) !! k with
    | Some v => Some v
    | None => m0 !! k
    end.
Proof.
  revert m0. induction l as [|x l IH]; intros m0 Hnd Hf; [reflexivity|].
  cbn [fold_left]. apply NoDup_cons in Hnd as [Hx Hnd].
  rewrite IH; [|exact Hnd|intros kv Hkv; apply Hf; now right].
  rewrite (Hf x) by now left. cbn [list_to_map foldr].
  destruct (decide (x.1 = k)) as [<-|Hne].
  - rewrite (not_elem_of_list_to_map_1 _ _ Hx).
    now rewrite !lookup_insert_eq.
  - rewrite !(lookup_insert_ne _ _ _ _ Hne). reflexivity.
Qed.

Lemma strip_module_saved (m : gmap string tensor) :
  (forall k, is_Some (m !! k) -> Py.contains "module." k = false) ->
  strip_module
    (map (fun kv : string * tensor => (Py.split_last "module." kv.1, kv.2))
       (map_to_list m)) = m.
Proof.
  intros Hclean.
  assert (Hk : forall kv, In kv (map_to_list m) ->
                 Py.split_last "module." kv.1 = kv.1).
  { intros [k t] Hin. apply split_last_clean, Hclean. exists t.
    now apply elem_of_map_to_list, list_elem_of_In. }
  rewrite (map_ext_in _ (fun kv => kv)), map_id
    by (intros [k t] Hin; simpl; f_equal; exact (Hk _ Hin)).
  apply map_eq. intros k. unfold strip_module.
  rewrite (fold_insert_lookup _ _ _ _ (NoDup_fst_map_to_list m) Hk).
  rewrite list_to_map_to_list. now destruct (m !! k).
Qed.

Lemma compatible_intro m sd :
  (forall k t p, sd !! k = Some t -> m !! k = Some p -> shape t = shape p) ->
  compatible m sd = true.
Proof.
  intros H. destruct (compatible m sd) eqn:Hc; [reflexivity|exfalso].
  apply compatible_false in Hc as (k & t & p & Ht & Hp & Hne). eauto.
Qed.

Lemma path_join_nonempty a b : b <> "" -> Py.path_join a b <> "".
Proof.
  intros Hb. unfold Py.path_join.
  destruct (String.prefix "/" b); [exact Hb|].
  destruct (String.eqb a "") eqn:Ea; [exact Hb|].
  apply String.eqb_neq in Ea.
  destruct (String.eqb _ "/"); destruct a; try congruence; discriminate.
Qed.

(** X3.  Weights written by [save_weights] are read back by [load_model]. For
    a model whose parameters have the names and shapes of the freshly built
    one, no name containing 'module.', loading the file that [save_weights]
    wrote, at a path without '.pkl' and with nothing ignored, returns normally
    and leaves the model with exactly the parameters that were saved. *)
Theorem weights_round_trip (a a' : arg.t) (epoch : Z) (s s0 : Processor) :
  let path :=
    Py.path_join (Py.path_join (arg.work_dir a) "weights")
      ("weights-" +:+ Py.str epoch +:+ ".pt") in
  (forall k, is_Some (model s !! k) -> Py.contains "module." k = false) ->
  (forall k, shape <$> model s !! k = shape <$> Model !! k) ->
  Py.contains ".pkl" path = false ->
  arg.weights a' = Some path ->
  arg.ignore_weights a' = [] ->
  disk s0 !! path = disk (save_weights a epoch s).2 !! path ->
  let r := load_model a' s0 in
  r.1 = Ok tt /\ model r.2 = model s.
Proof.
  intros path Hclean Hshape Hpkl Hw Hig Hdisk r. subst r.
  assert (Hfile : disk s0 !! path
                  = Some (WeightsFile
                      (map (fun kv : string * tensor =>
                              (Py.split_last "module." kv.1, kv.2))
                         (map_to_list (model s))))).
  { rewrite Hdisk. unfold save_weights, save_states. run.
    apply lookup_insert_eq. }
  assert (Hne : path <> "") by (apply path_join_nonempty; discriminate).
  destruct (load_model_steps a' s0 path _ Hw Hne Hpkl Hfile) as (s1 & E & Hm1).
  rewrite E. unfold snapshot. rewrite Hig. cbn [for_fold fold_left].
  unfold ret. cbn [snd]. rewrite (strip_module_saved _ Hclean).
  assert (Hc : compatible (model s1) (model s) = true).
  { apply compatible_intro. intros k t p Ht Hp. rewrite Hm1 in Hp.
    specialize (Hshape k). rewrite Ht, Hp in Hshape. now injection Hshape. }
  rewrite (try_load_compatible _ s1 Hc). cbn [fst snd]. simp_state.
  split; [reflexivity|]. apply map_eq. intros k.
  rewrite copy_params_lookup, Hm1. specialize (Hshape k).
  destruct (Model !! k) as [p|], (model s !! k) as [t|]; try discriminate;
    [|reflexivity].
  injection Hshape as Hs. now rewrite decide_True.
Qed.

(** *** Pickled weights *)

(** X4.  A weights path that contains '.pkl' can never be loaded: the pickle
    being opened in text mode, [load_model] raises whether the file exists or
    not, [FileNotFoundError] when it is missing, and the model stays as it was
    built. *)
Theorem pickled_weights_never_load (a : arg.t) (s : Processor)
    (path : string) :
  arg.weights a = Some path ->
  Py.contains ".pkl" path = true ->
  let r := load_model a s in
  (exists e, r.1 = Raise e) /\
  model r.2 = Model /\
  (disk s !! path = None -> r.1 = Raise (FileNotFoundError path)).
Proof.
  intros Hw Hpkl r. subst r. unfold load_model. rewrite Hw.
  erewrite bind_ok; [|reflexivity].
  destruct path as [|c path]; [discriminate Hpkl|].
  set (p := String c path) in *.
  assert (Hparse : exists s1,
    (match parse_int (Py.split_last "-" (Py.drop_last 3 p)) with
     | Some n => modify (set_global_step (inject_Z n))
     | None => print_log CannotParseGlobalStep ;; modify (set_global_step 0%Q)
     end) (set_model Model s) = (Ok tt, s1) /\
    model s1 = Model /\ disk s1 = disk s).
  { destruct (parse_int _); eexists; (split; [reflexivity|]); split;
      reflexivity. }
  destruct Hparse as (s1 & E1 & Hm1 & Hd1).
  erewrite bind_ok; [|exact E1].
  erewrite bind_ok; [|reflexivity].
  rewrite Hpkl. unfold torch_load. run. rewrite Hd1.
  destruct (disk s !! p) as [f|] eqn:Ef; simpl.
  - repeat split; eauto. intros [=].
  - repeat split; eauto.
Qed.

(** ** Checkpoints *)

#[export] Instance unchanged_preorder {A} (f : Processor -> A) :
  PreOrder (unchanged f).
Proof.
  split.
  - intros s. reflexivity.
  - intros s1 s2 s3 H1 H2. unfold unchanged in *. congruence.
Qed.

Lemma train_batch_keeps_disk a stats b :
  respects (unchanged disk) (train_batch a stats b).
Proof.
  unfold train_batch, train_split. unfold_methods.
  respects_auto unchanged_leaf.
Qed.

Lemma save_checkpoint_inv a epoch s s' :
  save_checkpoint a epoch s = (Ok tt, s') ->
  exists o sch,
    optimizer s = Some o /\ lr_scheduler s = Some sch /\
    disk s'
    = <[Py.path_join (Py.path_join (arg.work_dir a) "checkpoints")
          ("checkpoint-" +:+ Py.str epoch +:+ "-fwbz"
             +:+ Py.str (arg.forward_batch_size a) +:+ "-"
             +:+ Py.str (Py.int (global_step s)) +:+ ".pt")
        := CheckpointFile epoch o sch]> (disk s).
Proof.
  unfold save_checkpoint, get_optimizer, save_states. run.
  destruct (optimizer s) as [o|] eqn:Ho; [|discriminate].
  destruct (lr_scheduler s) as [sch|] eqn:Hsch; [|discriminate].
  simpl. intros [= <-]. simp_state. eauto.
Qed.

(** X5.  A checkpoint written by [save_checkpoint] can be resumed from. The
    file holds the epoch and the states that the optimizer and the scheduler
    had when it was written, and [load_optimizer] followed by
    [load_lr_scheduler], given its path, a known optimizer that accepts the
    state and a known scheduler name, return normally and leave the optimizer
    and the scheduler in the states that were saved. *)
Theorem checkpoint_round_trip (a a' : arg.t) (epoch : Z)
    (s s' s0 : Processor) :
  let path :=
    Py.path_join (Py.path_join (arg.work_dir a) "checkpoints")
      ("checkpoint-" +:+ Py.str epoch +:+ "-fwbz"
         +:+ Py.str (arg.forward_batch_size a) +:+ "-"
         +:+ Py.str (Py.int (global_step s)) +:+ ".pt") in
  save_checkpoint a epoch s = (Ok tt, s') ->
  arg.checkpoint a' = Some path ->
  disk s0 !! path = disk s' !! path ->
  (forall o,
     optimizer s = Some o ->
     (arg.optimizer a' = "SGD" /\
      optimizer_accepts
        (SGD (arg.base_lr a') (9 # 10) (arg.nesterov a') (arg.weight_decay a'))
        o = true) \/
     (arg.optimizer a' = "Adam" /\
      optimizer_accepts (Adam (arg.base_lr a') (arg.weight_decay a')) o
      = true)) ->
  arg.lr_scheduler a' = "MultiStepLR"
  \/ arg.lr_scheduler a' = "ReduceLROnPlateau"
  \/ arg.lr_scheduler a' = "CosineAnnealingLR" ->
  exists o sch s1,
    disk s' !! path = Some (CheckpointFile epoch o sch) /\
    (load_optimizer a' ;; load_lr_scheduler a') s0 = (Ok tt, s1) /\
    optimizer s1 = optimizer s /\
    lr_scheduler s1 = lr_scheduler s /\
    optimizer s = Some o /\ lr_scheduler s = Some sch.
Proof.
  intros path Hsave Hc Hdisk Hacc Hname.
  destruct (save_checkpoint_inv a epoch s s' Hsave) as (o & sch & Ho & Hsch & Hd).
  fold path in Hd.
  assert (Hfile' : disk s' !! path = Some (CheckpointFile epoch o sch))
    by (rewrite Hd; apply lookup_insert_eq).
  assert (Hfile : disk s0 !! path = Some (CheckpointFile epoch o sch))
    by congruence.
  destruct (load_optimizer_restores a' path epoch o sch s0 Hc Hfile
              (Hacc o Ho)) as (s1 & E1 & Ho1 & Hd1 & _).
  rewrite <- Hd1 in Hfile.
  destruct (load_lr_scheduler_restores a' path epoch o sch s1 o Hc Hfile Ho1
              Hname) as (s2 & E2 & Hs2 & Ho2).
  exists o, sch, s2. split; [exact Hfile'|].
  split; [now rewrite bind_eq, E1|].
  rewrite Hs2, Ho2. auto.
Qed.

(** X7.  A run without a scheduler fails at the first epoch that is to be
    saved. With [lr_scheduler] unset, a positive forward batch size that
    divides the batch size and a train loader that yields at least one
    macro-batch, [train] with [save_model] set writes the weights of the epoch
    and then raises [AttributeError] in [save_checkpoint]: the weights file is
    the only file written, it holds the parameters as the epoch left them, and
    writing it is the last thing the epoch did. *)
Theorem unset_scheduler_fails_at_save (a : arg.t) (epoch : Z)
    (s : Processor) (o : OptState) (ld : data.DataLoader Data) :
  0 < arg.forward_batch_size a ->
  0 < arg.batch_size a ->
  arg.batch_size a mod arg.forward_batch_size a = 0 ->
  optimizer s = Some o ->
  lr_scheduler s = None ->
  data_loader s !! "train" = Some ld ->
  data.batch_size ld = arg.batch_size a ->
  data.drop_last ld = true ->
  data.batches (randperm epoch) ld <> [] ->
  let wpath :=
    Py.path_join (Py.path_join (arg.work_dir a) "weights")
      ("weights-" +:+ Py.str (epoch + 1) +:+ ".pt") in
  let r := train a epoch true s in
  r.1 = Raise AttributeError /\
  disk r.2
  = <[wpath := WeightsFile
                 (map (fun kv : string * tensor =>
                         (Py.split_last "module." kv.1, kv.2))
                    (map_to_list (model r.2)))]> (disk s) /\
  List.last (trace r.2) EmptyCache = TorchSave wpath.
Proof.
  intros Hf Hbs Hmod Ho Hsch Hld Hlb Hdl Hne wpath r.
  set (splits := arg.batch_size a / arg.forward_batch_size a).
  assert (Hsplits : 0 < splits).
  { subst splits. apply Z.div_exact in Hmod; [|lia]. nia. }
  assert (Hprod : arg.batch_size a = splits * arg.forward_batch_size a).
  { subst splits. apply Z.div_exact in Hmod; lia. }
  set (batches := data.batches (randperm epoch) ld) in *.
  assert (Hall : Forall (fun b : list (Data * Z * Z) =>
                   Py.len b = splits * arg.forward_batch_size a) batches).
  { apply Forall_forall. intros b Hb.
    rewrite (batches_length _ ld b Hdl Hb), Hlb. lia. }
  subst r. unfold train.
  erewrite bind_ok; [|reflexivity].
  erewrite bind_ok; [|apply get_loader_ok; exact Hld].
  erewrite bind_ok; [|reflexivity].
  erewrite bind_ok; [|reflexivity].
  erewrite bind_ok; [|apply get_optimizer_ok; exact Ho].
  fold batches. rewrite bind_eq.
  match goal with
  | |- context [for_fold batches ?st _ ?s1] =>
      destruct (train_loop_run a batches splits st s1 o Ho Hf Hsplits Hall)
        as (stats' & s' & o' & t & E & Ht & _ & _ & Ho' & Hsch' & Hl);
      pose proof (respects_for_fold (unchanged disk) batches st
                    (train_batch a) (train_batch_keeps_disk a) s1) as Hd
  end.
  rewrite E in *. cbn [snd] in Hd. unfold unchanged in Hd. simp_state.
  assert (Hstats : stats'.2 <> []).
  { intros Hnil. rewrite Hnil in Hl. destruct batches; [congruence|].
    simpl in Hl. lia. }
  assert (Hz0 : (arg.forward_batch_size a =? 0) = false) by lia.
  unfold save_weights, save_checkpoint, save_states. run.
  destruct stats'.2; [congruence|]. rewrite Hz0, Hsch', Hsch. run.
  rewrite Ho'. run. rewrite Hsch', Hsch. cbn [fst snd]. simp_state.
  split; [reflexivity|]. split; [now rewrite Hd|].
  now rewrite last_last.
Qed.

(** *** Checkpoints that cannot be resumed from *)

(** X6.  With a checkpoint path supplied and a known optimizer name,
    [load_optimizer] raises [FileNotFoundError] when the file is missing and
    [KeyError] when the file holds weights; and with a scheduler name other
    than the three known ones, [load_lr_scheduler] raises [AttributeError] on
    a checkpoint that is there: the scheduler is unset when its state is to be
    loaded. *)
Theorem unusable_checkpoints (a : arg.t) (path : string) :
  arg.checkpoint a = Some path ->
  (arg.optimizer a = "SGD" \/ arg.optimizer a = "Adam" ->
   forall s,
     (disk s !! path = None ->
      (load_optimizer a s).1 = Raise (FileNotFoundError path)) /\
     (forall entries,
        disk s !! path = Some (WeightsFile entries) ->
        (load_optimizer a s).1 = Raise (KeyError "optimizer_states"))) /\
  (arg.lr_scheduler a <> "MultiStepLR" ->
   arg.lr_scheduler a <> "ReduceLROnPlateau" ->
   arg.lr_scheduler a <> "CosineAnnealingLR" ->
   forall s epoch o sch,
     disk s !! path = Some (CheckpointFile epoch o sch) ->
     let r := load_lr_scheduler a s in
     r.1 = Raise AttributeError /\ lr_scheduler r.2 = None).
Proof.
  intros Hc. split.
  - intros Hname s. unfold load_optimizer. rewrite Hc.
    unfold print_log, emit, torch_load, checkpoint_of, get_optimizer.
    split.
    + intros Hd. destruct Hname as [-> | ->]; simpl; run; now rewrite Hd.
    + intros entries Hd.
      destruct Hname as [-> | ->]; simpl; run; now rewrite Hd.
  - intros H1 H2 H3 s epoch o sch Hd r. subst r. unfold load_lr_scheduler.
    apply String.eqb_neq in H1, H2, H3. rewrite H1, H2, H3, Hc.
    unfold print_log, emit, torch_load, checkpoint_of. run.
    rewrite Hd. split; reflexivity.
Qed.

Lemma weights_path_inj a e e' : weights_path a e = weights_path a e' -> e = e'.
Proof.
  unfold weights_path. intros H.
  apply path_join_inj in H; [|reflexivity|reflexivity].
  apply append_inj_l, append_inj_r in H. now apply str_inj.
Qed.

(** X8.  [save_weights] always returns normally, writes the parameters of the
    model under their normalized names to the file of the epoch and touches no
    other file; different epochs have different files, so saving an epoch
    never overwrites the weights of another one. *)
Theorem saved_weights_do_not_collide (a : arg.t) :
  (forall e e', weights_path a e = weights_path a e' -> e = e') /\
  (forall e s,
     let r := save_weights a e s in
     r.1 = Ok tt /\
     disk r.2 !! weights_path a e
     = Some (WeightsFile
               (map (fun kv : string * tensor =>
                       (Py.split_last "module." kv.1, kv.2))
                  (map_to_list (model s)))) /\
     forall path, path <> weights_path a e -> disk r.2 !! path = disk s !! path) /\
  (forall e e' s,
     e <> e' ->
     disk (save_weights a e' s).2 !! weights_path a e
     = disk s !! weights_path a e).
Proof.
  assert (S : forall e s,
            let r := save_weights a e s in
            r.1 = Ok tt /\
            disk r.2 !! weights_path a e
            = Some (WeightsFile
                      (map (fun kv : string * tensor =>
                              (Py.split_last "module." kv.1, kv.2))
                         (map_to_list (model s)))) /\
            forall path, path <> weights_path a e ->
                         disk r.2 !! path = disk s !! path).
  { intros e s. unfold save_weights, save_states. run.
    fold (weights_path a e).
    split; [reflexivity|]. split; [apply lookup_insert_eq|].
    intros path Hne. now apply lookup_insert_ne. }
  split; [apply weights_path_inj|]. split; [exact S|].
  intros e e' s Hne. destruct (S e' s) as (_ & _ & H). apply H.
  intros E. apply weights_path_inj in E. congruence.
Qed.

(** ** Views and loaders *)

Lemma set_lst_name_test_tta_same s :
  set_lst_name_test_tta (lst_name_test_tta s) s = s.
Proof. now destruct s. Qed.

Lemma append_names_run (f : nat -> string) (l : list nat) s :
  for_each l (fun idx =>
    modify (fun s =>
      set_lst_name_test_tta (lst_name_test_tta s ++ [f idx]) s)) s
  = (Ok tt, set_lst_name_test_tta (lst_name_test_tta s ++ map f l) s).
Proof.
  revert s. induction l as [|i l IH]; intros s.
  - simpl. now rewrite app_nil_r, set_lst_name_test_tta_same.
  - cbn [for_each]. erewrite bind_ok; [|reflexivity]. rewrite IH.
    simpl. now rewrite <- app_assoc.
Qed.

Lemma get_lst_name_test_tta_run a s :
  get_lst_name_test_tta a s
  = (Ok tt,
     set_lst_name_test_tta
       (lst_name_test_tta s ++ view_names (length (arg.tta a))) s).
Proof.
  unfold get_lst_name_test_tta.
  rewrite (imap_seq_0 (arg.tta a) (fun idx => idx)), list_fmap_id.
  apply (append_names_run
           (fun idx => "test_tta_" +:+ Py.str (Z.of_nat idx))).
Qed.

Lemma init_views a s :
  lst_name_test_tta (init a s).2 = view_names (length (arg.tta a)).
Proof.
  unfold init.
  erewrite bind_ok; [|reflexivity].
  erewrite bind_ok; [|apply get_lst_name_test_tta_run].
  rewrite (init_rest_same_views a _). reflexivity.
Qed.

(** X9.  [get_lst_name_test_tta] always returns normally and appends one name
    per TTA entry, 'test_tta_0', 'test_tta_1', ..., to the names the object
    already has. [__init__] empties the list first, so when it returns
    normally the object has exactly these names: as many as there are TTA
    entries, without duplicates, the name at index [idx] being 'test_tta_'
    followed by [idx]. *)
Theorem views_are_named_in_order (a : arg.t) :
  (forall s,
     get_lst_name_test_tta a s
     = (Ok tt,
        set_lst_name_test_tta
          (lst_name_test_tta s ++ view_names (length (arg.tta a))) s)) /\
  (forall s s',
     init a s = (Ok tt, s') ->
     lst_name_test_tta s' = view_names (length (arg.tta a)) /\
     Py.len (lst_name_test_tta s') = Py.len (arg.tta a) /\
     NoDup (lst_name_test_tta s') /\
     forall (idx : nat) name,
       lst_name_test_tta s' !! idx = Some name <->
       (idx < length (arg.tta a))%nat /\
       name = "test_tta_" +:+ Py.str (Z.of_nat idx)).
Proof.
  split.
  - apply get_lst_name_test_tta_run.
  - intros s s' E.
    assert (V : lst_name_test_tta s' = view_names (length (arg.tta a))).
    { rewrite <- (init_views a s), E. reflexivity. }
    rewrite V. split; [reflexivity|]. split; [|split].
    + unfold Py.len, view_names. now rewrite length_map, length_seq.
    + apply view_names_NoDup.
    + intros idx name. apply view_names_lookup.
Qed.

(** *** The loaders *)

(** The loader of a view. *)
Lemma view_loaders_run a (l : list (nat * string)) s s' :
  for_each l (fun p =>
    print_log (LoadDataset p.2) ;;
    tta_idx <- match arg.tta a !! p.1 with
               | Some c => ret c
               | None => raise IndexError
               end ;;
    ld <- new_DataLoader (test_feeder tta_idx) (arg.test_batch_size a)
            false false ;;
    modify (fun s => set_data_loader (<[p.2 := ld]> (data_loader s)) s)) s
  = (Ok tt, s') ->
  NoDup l.*2 ->
  (forall idx name, In (idx, name) l ->
     exists c, arg.tta a !! idx = Some c /\
       data_loader s' !! name
       = Some (data.mkDataLoader (test_feeder c) (arg.test_batch_size a)
                 false false)) /\
  (forall k, ~ In k l.*2 -> data_loader s' !! k = data_loader s !! k) /\
  (l <> [] -> 0 < arg.test_batch_size a).
Proof.
  revert s. induction l as [|[i n] l IH]; intros s H Hnd.
  - injection H as <-. split; [intros ? ? []|]. split; [reflexivity|congruence].
  - cbn [for_each] in H. apply bind_inv_ok in H as ([] & s1 & H1 & H).
    apply NoDup_cons in Hnd as [Hn Hnd].
    destruct (IH s1 H Hnd) as (IH1 & IH2 & _).
    revert H1. unfold print_log, emit, new_DataLoader. run. simpl.
    destruct (arg.tta a !! i) as [c|] eqn:Ec; simpl; [|discriminate].
    destruct (arg.test_batch_size a <=? 0) eqn:Eb; simpl; [discriminate|].
    intros [= <-]. simp_state.
    split; [|split].
    + intros idx name [[= <- <-]|Hin].
      * exists c. split; [exact Ec|].
        rewrite IH2 by (intros X; apply Hn; now apply list_elem_of_In).
        simpl. apply lookup_insert_eq.
      * now apply IH1.
    + intros k Hk. rewrite IH2 by (intros X; apply Hk; now right).
      simpl. apply lookup_insert_ne. intros ->. apply Hk. now left.
    + intros _. lia.
Qed.

Lemma indexed_names (names : list string) :
  (imap (fun (idx : nat) (name : string) => (idx, name)) names).*2 = names.
Proof.
  rewrite fmap_imap. rewrite (imap_ext _ (const (fun x => x))).
  - rewrite imap_const. apply list_fmap_id.
  - reflexivity.
Qed.

Lemma load_data_run a s s' :
  load_data a s = (Ok tt, s') ->
  NoDup (lst_name_test_tta s) ->
  ~ In "train" (lst_name_test_tta s) ->
  lst_name_test_tta s' = lst_name_test_tta s /\
  (forall (idx : nat) name,
     lst_name_test_tta s !! idx = Some name ->
     exists c, arg.tta a !! idx = Some c /\
       data_loader s' !! name
       = Some (data.mkDataLoader (test_feeder c) (arg.test_batch_size a)
                 false false)) /\
  data_loader s' !! "train"
  = (if String.eqb (arg.phase a) "train"
     then Some (data.mkDataLoader train_feeder (arg.batch_size a) true true)
     else None) /\
  (forall k, is_Some (data_loader s' !! k) ->
             k = "train" \/ In k (lst_name_test_tta s)) /\
  (arg.phase a = "train" -> 0 < arg.batch_size a) /\
  (lst_name_test_tta s <> [] -> 0 < arg.test_batch_size a).
Proof.
  intros H Hnd Htrain.
  assert (Hviews : lst_name_test_tta s' = lst_name_test_tta s).
  { assert (R : respects same_views (load_data a)).
    { unfold load_data. unfold_methods. respects_auto field_leaf. }
    specialize (R s). now rewrite H in R. }
  unfold load_data in H.
  apply bind_inv_ok in H as ([] & s0 & H0 & H). injection H0 as <-.
  apply bind_inv_ok in H as ([] & s1 & H1 & H).
  apply bind_inv_ok in H as (names & s1' & Hn & H). injection Hn as <- <-.
  assert (Hs1 : lst_name_test_tta s1 = lst_name_test_tta s /\
                data_loader s1
                = (if String.eqb (arg.phase a) "train"
                   then <["train" := data.mkDataLoader train_feeder
                                       (arg.batch_size a) true true]> ∅
                   else ∅) /\
                (arg.phase a = "train" -> 0 < arg.batch_size a)).
  { revert H1. unfold new_DataLoader. run.
    destruct (String.eqb (arg.phase a) "train") eqn:Eph.
    - destruct (arg.batch_size a <=? 0) eqn:Eb; simpl; [discriminate|].
      intros [= <-]. simpl. repeat split. lia.
    - intros [= <-]. simpl. repeat split. intros E.
      apply String.eqb_neq in Eph. contradiction. }
  destruct Hs1 as (Hl1 & Hd1 & Hpos). rewrite Hl1 in H.
  destruct (view_loaders_run a _ s1 s' H) as (V1 & V2 & V3).
  { rewrite indexed_names. exact Hnd. }
  rewrite indexed_names in V2.
  split; [exact Hviews|]. split; [|split; [|split; [|split]]].
  - intros idx name Hidx. apply V1.
    apply list_elem_of_In.
    apply (elem_of_lookup_imap_2 (fun (i : nat) (n : string) => (i, n))
             _ _ _ Hidx).
  - rewrite (V2 _ Htrain), Hd1.
    destruct (String.eqb (arg.phase a) "train"); [apply lookup_insert_eq|].
    apply lookup_empty.
  - intros k Hk. destruct (decide (k ∈ lst_name_test_tta s)) as [Hin|Hin].
    + right. now apply list_elem_of_In.
    + left. rewrite V2 in Hk by (intros X; apply Hin; now apply list_elem_of_In).
      rewrite Hd1 in Hk.
      destruct (String.eqb (arg.phase a) "train").
      * destruct (decide (k = "train")) as [->|Hne]; [reflexivity|].
        rewrite lookup_insert_ne in Hk by congruence.
        rewrite lookup_empty in Hk. now destruct Hk.
      * rewrite lookup_empty in Hk. now destruct Hk.
  - exact Hpos.
  - intros Hne. apply V3. intros E. apply Hne.
    rewrite <- (indexed_names (lst_name_test_tta s)), E. reflexivity.
Qed.

Lemma init_inv a s s' :
  init a s = (Ok tt, s') ->
  exists s4 s5,
    lst_name_test_tta s4 = view_names (length (arg.tta a)) /\
    load_data a s4 = (Ok tt, s5) /\
    data_loader s' = data_loader s5 /\
    lst_name_test_tta s' = lst_name_test_tta s5.
Proof.
  unfold init. intros H.
  apply bind_inv_ok in H as ([] & s0 & H0 & H). injection H0 as <-.
  apply bind_inv_ok in H as ([] & s1 & H1 & H).
  rewrite get_lst_name_test_tta_run in H1. injection H1 as <-.
  apply bind_inv_ok in H as ([] & s2 & H2 & H).
  apply bind_inv_ok in H as ([] & s3 & H3 & H).
  apply bind_inv_ok in H as ([] & s4 & H4 & H).
  apply bind_inv_ok in H as ([] & s5 & H5 & H).
  exists s4, s5.
  assert (R2 : respects same_views (load_model a)).
  { unfold load_model, try_load_state_dict, ignore_weight. unfold_methods.
    respects_auto field_leaf. }
  assert (R3 : respects same_views (load_optimizer a)).
  { unfold load_optimizer. unfold_methods. respects_auto field_leaf. }
  assert (R4 : respects same_views (load_lr_scheduler a)).
  { unfold load_lr_scheduler. unfold_methods. respects_auto field_leaf. }
  match type of H2 with
  | load_model a ?x = _ => pose proof (R2 x) as Q2
  end.
  rewrite H2 in Q2.
  pose proof (R3 s2) as Q3. rewrite H3 in Q3.
  pose proof (R4 s3) as Q4. rewrite H4 in Q4.
  unfold same_views in Q2, Q3, Q4. simpl in Q2, Q3, Q4.
  split; [congruence|]. split; [exact H5|].
  revert H. unfold bind, modify. simpl. intros [= <-]. split; reflexivity.
Qed.

(** X10.  When [__init__] returns normally, every TTA entry has its view: its
    name is in [lst_name_test_tta] and [data_loader] holds under that name a
    loader over the test feeder of the entry, with the test batch size, not
    shuffled and keeping the last batch. The key 'train' holds the shuffled,
    last-batch-dropping training loader in the train phase and nothing
    otherwise, and there is no other key. The batch sizes the loaders were
    built with are positive. *)
Theorem every_view_has_a_loader (a : arg.t) (s s' : Processor) :
  init a s = (Ok tt, s') ->
  (forall (idx : nat) c,
     arg.tta a !! idx = Some c ->
     In ("test_tta_" +:+ Py.str (Z.of_nat idx)) (lst_name_test_tta s') /\
     data_loader s' !! ("test_tta_" +:+ Py.str (Z.of_nat idx))
     = Some (data.mkDataLoader (test_feeder c) (arg.test_batch_size a)
               false false)) /\
  data_loader s' !! "train"
  = (if String.eqb (arg.phase a) "train"
     then Some (data.mkDataLoader train_feeder (arg.batch_size a) true true)
     else None) /\
  (forall k, is_Some (data_loader s' !! k) ->
             k = "train" \/ In k (lst_name_test_tta s')) /\
  (arg.phase a = "train" -> 0 < arg.batch_size a) /\
  (arg.tta a <> [] -> 0 < arg.test_batch_size a).
Proof.
  intros H. destruct (init_inv a s s' H) as (s4 & s5 & Hn & Hld & Hd & Hl).
  destruct (load_data_run a s4 s5 Hld) as (L0 & L1 & L2 & L3 & L4 & L5).
  { rewrite Hn. apply view_names_NoDup. }
  { rewrite Hn. apply view_names_not_train. }
  rewrite Hd, Hl, L0, Hn. rewrite Hn in L1, L3, L5.
  split; [|split; [|split; [|split]]]; try assumption.
  - intros idx c Hc.
    assert (Hidx : view_names (length (arg.tta a)) !! idx
                   = Some ("test_tta_" +:+ Py.str (Z.of_nat idx))).
    { apply view_names_lookup. split; [|reflexivity].
      now apply lookup_lt_Some in Hc. }
    split.
    + apply list_elem_of_In. eapply list_elem_of_lookup_2, Hidx.
    + destruct (L1 idx _ Hidx) as (c' & Hc' & Hload). congruence.
  - intros Hne. apply L5. destruct (arg.tta a); [congruence|discriminate].
Qed.

(** ** Evaluation *)

Lemma eval_keeps_disk a epoch names :
  respects (unchanged disk) (eval a epoch false names).
Proof. unfold_eval. respects_auto unchanged_leaf. Qed.

Lemma eval_keeps_optimizer a epoch save_score names :
  arg.lr_scheduler a <> "ReduceLROnPlateau" ->
  respects (unchanged (fun s => (optimizer s, lr_scheduler s)))
    (eval a epoch save_score names).
Proof.
  intros H. apply String.eqb_neq in H. unfold_eval. rewrite H.
  respects_auto unchanged_leaf.
Qed.

Lemma eval_no_write a epoch names :
  respects (extends no_write) (eval a epoch false names).
Proof. unfold_eval. respects_auto extends_leaf. Qed.

Lemma extends_weaken (P Q : event -> bool) s s' :
  (forall e, P e = true -> Q e = true) ->
  extends P s s' -> extends Q s s'.
Proof.
  intros HPQ (t & Et & Ht). exists t. split; [exact Et|].
  apply forallb_forall. intros e He. apply HPQ.
  rewrite forallb_forall in Ht. now apply Ht.
Qed.

Lemma extends_same P (s : Processor) : extends P s s.
Proof. exists []. now rewrite app_nil_r. Qed.

Lemma evaluation_not_training e :
  evaluation_event e = true -> not_training e = true.
Proof. intros He. now destruct e as [| | [|] | | | | | | | |]. Qed.

Lemma eval_not_training a epoch save_score names :
  respects (extends not_training) (eval a epoch save_score names).
Proof.
  intros s. apply (extends_weaken evaluation_event);
    [exact evaluation_not_training | apply eval_extends].
Qed.

Lemma evaluation_is_read_only_aux a epoch save_score names s :
  let s' := (eval a epoch save_score names s).2 in
  model s' = model s /\ grad s' = grad s /\ global_step s' = global_step s.
Proof.
  intros s'. subst s'.
  assert (R : respects
                (unchanged (fun s => (model s, grad s, global_step s)))
                (eval a epoch save_score names)).
  { unfold_eval. respects_auto unchanged_leaf. }
  specialize (R s). unfold unchanged in R. now injection R.
Qed.

(** X11.  Whatever [eval], called without report files as the epoch loop calls
    it, returns or raises, it leaves the parameters, the gradient buffers, the
    global step, the learning rate, the loaders and the view names as they
    were, and does nothing that training does: it does not put the model in
    training mode, reset gradients, run a backward pass, step the optimizer or
    call [torch.save]. Unless the scheduler is ReduceLROnPlateau, the
    optimizer and the scheduler are untouched as well; unless [save_score] is
    set, no file is saved: the saved files are as they were and there is no
    [pickle.dump] either. *)
Theorem evaluation_is_read_only (a : arg.t) (epoch : Z) (save_score : bool)
    (names : list string) (s : Processor) :
  let s' := (eval a epoch save_score names s).2 in
  model s' = model s /\
  grad s' = grad s /\
  global_step s' = global_step s /\
  lr s' = lr s /\
  data_loader s' = data_loader s /\
  lst_name_test_tta s' = lst_name_test_tta s /\
  (arg.lr_scheduler a <> "ReduceLROnPlateau" ->
   optimizer s' = optimizer s /\ lr_scheduler s' = lr_scheduler s) /\
  (save_score = false -> disk s' = disk s /\ extends no_write s s') /\
  extends not_training s s'.
Proof.
  intros s'. subst s'.
  assert (R : respects
                (unchanged (fun s => (model s, grad s, global_step s, lr s,
                                      data_loader s, lst_name_test_tta s)))
                (eval a epoch save_score names)).
  { unfold_eval. respects_auto unchanged_leaf. }
  specialize (R s). unfold unchanged in R. injection R as -> -> -> -> -> ->.
  repeat split.
  - pose proof (eval_keeps_optimizer a epoch save_score names H s) as R.
    unfold unchanged in R. now injection R.
  - pose proof (eval_keeps_optimizer a epoch save_score names H s) as R.
    unfold unchanged in R. now injection R.
  - subst save_score. apply (eval_keeps_disk a epoch names s).
  - subst save_score. apply (eval_no_write a epoch names s).
  - apply eval_not_training.
Qed.

(** *** The test phase *)

(** X12.  Outside the train phase [start] never trains: whatever it returns or
    raises, the parameters, the gradient buffers and the global step are as
    they were, and the model is not put in training mode, no gradient is
    reset, there is no backward pass, no optimizer step and no [torch.save].
    With a phase that is neither 'train' nor 'test', [start] does nothing at
    all and returns normally. *)
Theorem test_phase_never_trains (a : arg.t) :
  arg.phase a <> "train" ->
  forall s,
    let s' := (start a s).2 in
    model s' = model s /\
    grad s' = grad s /\
    global_step s' = global_step s /\
    extends not_training s s' /\
    (arg.phase a <> "test" -> start a s = (Ok tt, s)).
Proof.
  intros Htrain s s'. subst s'. unfold start.
  apply String.eqb_neq in Htrain. rewrite Htrain.
  destruct (String.eqb (arg.phase a) "test") eqn:Htest.
  - apply String.eqb_eq in Htest.
    destruct (arg.weights a) as [w|].
    + change ((names <- gets lst_name_test_tta ;;
               eval a 0 (arg.save_score a) names) s)
        with (eval a 0 (arg.save_score a) (lst_name_test_tta s) s).
      destruct (evaluation_is_read_only_aux a 0 (arg.save_score a)
                  (lst_name_test_tta s) s) as (H1 & H2 & H3).
      split; [exact H1|]. split; [exact H2|]. split; [exact H3|].
      split; [|congruence].
      apply eval_not_training.
    + split; [reflexivity|]. split; [reflexivity|]. split; [reflexivity|].
      split; [apply extends_same | congruence].
  - split; [reflexivity|]. split; [reflexivity|]. split; [reflexivity|].
    split; [apply extends_same | reflexivity].
Qed.

(** *** Epochs that do not save *)

Lemma train_keeps_disk a epoch :
  respects (unchanged disk) (train a epoch false).
Proof.
  unfold train, train_batch, train_split. unfold_methods.
  respects_auto unchanged_leaf.
Qed.

Lemma train_no_write a epoch :
  respects (extends no_write) (train a epoch false).
Proof.
  unfold train, train_batch, train_split. unfold_methods.
  respects_auto extends_leaf.
Qed.

(** X14.  An epoch that is neither a multiple of a non-zero [save_interval]
    nor the last one, in a run that does not save scores, saves nothing:
    whatever the epoch returns or raises, the saved files are as they were and
    the trace holds no [torch.save] and no [pickle.dump]. *)
Theorem nothing_written_unless_due (a : arg.t) (epoch : Z) (s : Processor) :
  arg.save_interval a <> 0 ->
  (epoch + 1) mod arg.save_interval a <> 0 ->
  epoch + 1 <> arg.num_epoch a ->
  arg.save_score a = false ->
  let s' := (loop_body a epoch s).2 in
  disk s' = disk s /\ extends no_write s s'.
Proof.
  intros Hsi Hmod Hlast Hss s'. subst s'.
  assert (R : respects (unchanged disk) (loop_body a epoch) /\
              respects (extends no_write) (loop_body a epoch)).
  { unfold loop_body. apply Z.eqb_neq in Hsi, Hmod, Hlast.
    rewrite Hsi, Hmod, Hlast, Hss. simpl.
    unfold check_early_stopping. unfold_methods. split.
    - respects_auto ltac:(first [ apply train_keeps_disk
                                 | apply eval_keeps_disk | unchanged_leaf ]).
    - respects_auto ltac:(first [ apply train_no_write
                                 | apply eval_no_write | extends_leaf ]). }
  destruct R as [R1 R2]. split; [apply (R1 s)|apply (R2 s)].
Qed.

Lemma batches_empty_dataset (ld : data.DataLoader Data) :
  data.dataset ld = [] ->
  data.batches (fun x => x) ld = [].
Proof.
  intros H. unfold data.batches. rewrite H.
  destruct (data.shuffle ld), (data.drop_last ld); reflexivity.
Qed.

(** X13.  An evaluation that is not skipped raises [IndexError] when there is
    no view to evaluate, [KeyError] when the first view has no loader and
    [ValueError] when the loader of the first view has no sample. With TTA
    disabled and an empty TTA list, [main] raises [IndexError] before anything
    is initialized. *)
Theorem evaluation_needs_views (a : arg.t) :
  (forall epoch save_score s,
     arg.eval_start a <= epoch + 1 ->
     (eval a epoch save_score [] s).1 = Raise IndexError /\
     (forall ln names,
        data_loader s !! ln = None ->
        (eval a epoch save_score (ln :: names) s).1 = Raise (KeyError ln)) /\
     (forall ln names ld,
        data_loader s !! ln = Some ld ->
        data.dataset ld = [] ->
        (eval a epoch save_score (ln :: names) s).1
        = Raise (ValueError "need at least one array to concatenate"))) /\
  (arg.use_tta a = false -> arg.tta a = [] ->
   forall s, main a s = (Raise IndexError, s)).
Proof.
  split.
  - intros epoch save_score s Hrun. apply Z.ltb_ge in Hrun.
    split; [|split].
    + unfold eval. rewrite Hrun. reflexivity.
    + intros ln names Hld. unfold eval. rewrite Hrun.
      erewrite bind_ok; [|reflexivity].
      erewrite bind_ok; [|reflexivity].
      erewrite bind_raise; [reflexivity|].
      unfold eval_views. cbn [for_fold].
      apply bind_raise. apply bind_raise. unfold eval_view.
      apply bind_raise. unfold get_loader. run. rewrite Hld. reflexivity.
    + intros ln names ld Hld Hempty. unfold eval. rewrite Hrun.
      erewrite bind_ok; [|reflexivity].
      erewrite bind_ok; [|reflexivity].
      erewrite bind_raise; [reflexivity|].
      unfold eval_views. cbn [for_fold].
      apply bind_raise. apply bind_raise. unfold eval_view.
      erewrite bind_ok; [|apply get_loader_ok; exact Hld].
      rewrite (batches_empty_dataset ld Hempty). reflexivity.
  - intros Huse Htta s. unfold main. rewrite Huse, Htta. reflexivity.
Qed.

(** ** Training *)

Lemma chunks_nil {A} fuel n : @data.chunks A fuel n [] = [].
Proof. now destruct fuel. Qed.

Lemma batches_short (perm : list (Data * Z * Z) -> list (Data * Z * Z))
    (ld : data.DataLoader Data) :
  data.drop_last ld = true ->
  Py.len (data.dataset ld) < data.batch_size ld ->
  length (perm (data.dataset ld)) = length (data.dataset ld) ->
  data.batches perm ld = [].
Proof.
  intros Hdl Hlt Hperm. unfold data.batches. rewrite Hdl.
  set (samples := if data.shuffle ld then perm (data.dataset ld)
                  else data.dataset ld).
  assert (Hlen : (length samples < Z.to_nat (data.batch_size ld))%nat).
  { assert (length samples = length (data.dataset ld))
      by (subst samples; destruct (data.shuffle ld); auto).
    unfold Py.len in Hlt. lia. }
  destruct samples as [|x samples]; [reflexivity|].
  cbn [length data.chunks].
  rewrite drop_ge by (simpl in Hlen; simpl; lia).
  rewrite chunks_nil, take_ge by (simpl in Hlen; simpl; lia).
  cbn [filter list_filter]. rewrite decide_False by lia. reflexivity.
Qed.

(** X15.  When the training set has fewer samples than a macro-batch, the
    loader, which drops the last batch, yields nothing, and [train] raises the
    [RuntimeError] of [torch.stack] on an empty list: the epoch has been
    announced to the training writer, but there was no forward pass, no
    optimizer step, no scheduler step and no file saved, and the global step,
    the parameters, the optimizer and the scheduler are as they were. *)
Theorem short_training_set_fails (a : arg.t) (epoch : Z) (save_model : bool)
    (s : Processor) (o : OptState) (ld : data.DataLoader Data) :
  optimizer s = Some o ->
  data_loader s !! "train" = Some ld ->
  data.drop_last ld = true ->
  Py.len (data.dataset ld) < data.batch_size ld ->
  length (randperm epoch (data.dataset ld)) = length (data.dataset ld) ->
  let r := train a epoch save_model s in
  r.1 = Raise (RuntimeError "stack expects a non-empty TensorList") /\
  (exists t,
     trace r.2 = trace s ++ t /\
     epochs_trained t = [inject_Z (epoch + 1)] /\
     count is_forward t = 0%nat /\
     count is_optimizer_step t = 0%nat /\
     count is_scheduler_step t = 0%nat /\
     count is_write t = 0%nat) /\
  global_step r.2 = global_step s /\
  model r.2 = model s /\
  optimizer r.2 = optimizer s /\
  lr_scheduler r.2 = lr_scheduler s /\
  disk r.2 = disk s.
Proof.
  intros Ho Hld Hdl Hlt Hperm r. subst r. unfold train.
  erewrite bind_ok; [|reflexivity].
  erewrite bind_ok; [|apply get_loader_ok; exact Hld].
  erewrite bind_ok; [|reflexivity].
  erewrite bind_ok; [|reflexivity].
  erewrite bind_ok; [|apply get_optimizer_ok; exact Ho].
  rewrite (batches_short _ ld Hdl Hlt Hperm). cbn [for_fold].
  erewrite bind_ok; [|reflexivity]. cbn [snd].
  erewrite bind_raise; [|reflexivity]. cbn [fst snd]. simp_state.
  rewrite <- !app_assoc. split; [reflexivity|].
  split; [|repeat split].
  eexists. split; [reflexivity|]. repeat split.
Qed.

(** X16.  With a forward batch size that is not positive no macro-batch
    completes: on a non-empty batch, with the optimizer set, [train_batch]
    raises [ZeroDivisionError] when it is zero, the [AssertionError] when it
    is negative and does not divide the size of the batch, and
    [UnboundLocalError] when it is negative and divides it; in this last case
    the optimizer has taken a step on zeroed gradients. In no case is there a
    forward or a backward pass. *)
Theorem nonpositive_forward_batch_size (a : arg.t) (stats : list Q * list Q)
    (b : list (Data * Z * Z)) (s : Processor) (o : OptState) :
  optimizer s = Some o ->
  arg.forward_batch_size a <= 0 ->
  b <> [] ->
  let r := train_batch a stats b s in
  (exists e, r.1 = Raise e) /\
  (arg.forward_batch_size a = 0 -> r.1 = Raise ZeroDivisionError) /\
  (arg.forward_batch_size a < 0 ->
   Py.len b mod arg.forward_batch_size a <> 0 ->
   r.1 = Raise (AssertionError
                  "Real batch size should be a factor of arg.batch_size!")) /\
  (arg.forward_batch_size a < 0 ->
   Py.len b mod arg.forward_batch_size a = 0 ->
   r.1 = Raise UnboundLocalError /\
   model r.2 = (optimizer_step o (model s) zero_grad).2) /\
  (exists t, trace r.2 = trace s ++ t /\
             count is_backward t = 0%nat /\
             count is_forward t = 0%nat).
Proof.
  intros Ho Hf Hb r.
  assert (Hlen : 0 < Py.len b).
  { unfold Py.len. destruct b; [congruence|]. simpl. lia. }
  assert (Hld : Py.len (map (fun x : Data * Z * Z => x.1.1) b) = Py.len b)
    by (unfold Py.len; now rewrite length_map).
  destruct (Z.eq_dec (arg.forward_batch_size a) 0) as [Hz|Hnz].
  - assert (E : train_batch a stats b s
                = (Raise ZeroDivisionError,
                   set_trace (trace s ++ [ZeroGrad])
                     (set_grad zero_grad
                        (set_global_step (global_step s + 1)%Q s)))).
    { unfold train_batch. run. rewrite Ho. run. rewrite Hz. reflexivity. }
    subst r. rewrite E. cbn [fst snd]. simp_state.
    split; [eauto|]. split; [reflexivity|]. split; [lia|]. split; [lia|].
    exists [ZeroGrad]. repeat split.
  - destruct (Z.eq_dec (Py.len b mod arg.forward_batch_size a) 0) as [Hm|Hm].
    + assert (Hsplits : Py.len b / arg.forward_batch_size a < 0).
      { apply Z.div_exact in Hm; [|exact Hnz].
        set (q := Py.len b / arg.forward_batch_size a) in *. nia. }
      assert (E : train_batch a stats b s
                  = (Raise UnboundLocalError,
                     let ow := optimizer_step o (model s) zero_grad in
                     let s1 := set_model ow.2
                                 (set_optimizer (Some ow.1)
                                    (set_trace (trace s ++ [ZeroGrad])
                                       (set_grad zero_grad
                                          (set_global_step
                                             (global_step s + 1)%Q s)))) in
                     let s2 := set_lr (optimizer_lr ow.1)
                                 (set_trace (trace s1 ++ [OptimizerStep]) s1) in
                     set_trace
                       (trace s2
                        ++ [Scalar train_writer "lr" (lr s2) (global_step s2)])
                       s2)).
      { unfold train_batch. rewrite Hld. run. rewrite Ho. run.
        apply Z.eqb_neq in Hnz. rewrite Hnz. run.
        rewrite Hm, Z.eqb_refl. run.
        unfold Py.range.
        replace (Z.to_nat (Py.len b / arg.forward_batch_size a - 0))
          with 0%nat by lia.
        cbn [seq map for_fold]. run. rewrite Ho. run.
        assert (Hs : (Py.len b / arg.forward_batch_size a <=? 0) = true) by lia.
        rewrite Hs. reflexivity. }
      subst r. rewrite E. cbn [fst snd]. simp_state.
      split; [eauto|]. split; [contradiction|]. split; [contradiction|].
      split; [auto|].
      eexists. split; [rewrite <- !app_assoc; reflexivity|]. repeat split.
    + assert (E : train_batch a stats b s
                  = (Raise (AssertionError
                       "Real batch size should be a factor of arg.batch_size!"),
                     set_trace (trace s ++ [ZeroGrad])
                       (set_grad zero_grad
                          (set_global_step (global_step s + 1)%Q s))))
        by now apply train_batch_rejects with o.
      subst r. rewrite E. cbn [fst snd]. simp_state.
      split; [eauto|]. split; [contradiction|]. split; [auto|].
      split; [contradiction|].
      exists [ZeroGrad]. repeat split.
Qed.

(** *** Runs that train nothing *)

Lemma range_empty lo hi : hi <= lo -> Py.range lo hi = [].
Proof.
  intros H. unfold Py.range.
  replace (Z.to_nat (hi - lo)) with 0%nat by lia. reflexivity.
Qed.

Lemma start_without_epochs (a : arg.t) (s : Processor)
    (ld : data.DataLoader Data) :
  arg.phase a = "train" ->
  data_loader s !! "train" = Some ld ->
  arg.batch_size a <> 0 ->
  let g0 := (inject_Z (arg.start_epoch a * data.len ld)
             / inject_Z (arg.batch_size a))%Q in
  (arg.num_epoch a <= arg.start_epoch a ->
   start a s = (Ok tt, set_global_step g0 s)) /\
  (arg.start_epoch a < arg.num_epoch a -> arg.save_interval a = 0 ->
   start a s = (Raise ZeroDivisionError, set_global_step g0 s)).
Proof.
  intros Hph Hld Hbs g0.
  assert (E : start a s
              = epoch_loop a (Py.range (arg.start_epoch a) (arg.num_epoch a))
                  (set_global_step g0 s)).
  { unfold start. rewrite Hph. cbn [String.eqb Ascii.eqb Bool.eqb].
    erewrite bind_ok; [|apply get_loader_ok; exact Hld].
    apply Z.eqb_neq in Hbs. rewrite Hbs.
    erewrite bind_ok; [|reflexivity].
    erewrite bind_ok; [|reflexivity]. reflexivity. }
  rewrite E. split.
  - intros Hle. now rewrite range_empty.
  - intros Hlt Hsi. rewrite range_cons by exact Hlt. cbn [epoch_loop].
    apply bind_raise. unfold loop_body. rewrite Hsi. reflexivity.
Qed.

(** X17.  In the train phase, with a train loader and a non-zero batch size:
    when [num_epoch] does not exceed [start_epoch], [start] returns normally,
    and when there is an epoch to run and [save_interval] is zero it raises
    [ZeroDivisionError]. In both cases no epoch trains: the global step is
    [start_epoch] times the number of macro-batches divided by the batch size,
    the parameters, the optimizer, the scheduler and the saved files are as
    they were, and the trace grows by log lines at most. *)
Theorem runs_that_train_nothing (a : arg.t) (s : Processor)
    (ld : data.DataLoader Data) :
  arg.phase a = "train" ->
  data_loader s !! "train" = Some ld ->
  arg.batch_size a <> 0 ->
  arg.num_epoch a <= arg.start_epoch a \/ arg.save_interval a = 0 ->
  let r := start a s in
  (arg.num_epoch a <= arg.start_epoch a -> r.1 = Ok tt) /\
  (arg.start_epoch a < arg.num_epoch a -> r.1 = Raise ZeroDivisionError) /\
  (global_step r.2
   == inject_Z (arg.start_epoch a * data.len ld)
      / inject_Z (arg.batch_size a))%Q /\
  model r.2 = model s /\
  optimizer r.2 = optimizer s /\
  lr_scheduler r.2 = lr_scheduler s /\
  disk r.2 = disk s /\
  extends is_log s r.2.
Proof.
  intros Hph Hld Hbs Hcase r. subst r.
  assert (Hlog : forall g, extends is_log s (set_global_step g s)).
  { intros g. exists []. split; [|reflexivity].
    now rewrite app_nil_r. }
  destruct (start_without_epochs a s ld Hph Hld Hbs) as [H1 H2].
  destruct (Z_le_gt_dec (arg.num_epoch a) (arg.start_epoch a)) as [Hle|Hgt].
  - rewrite (H1 Hle). cbn [fst snd].
    split; [reflexivity|]. split; [lia|].
    split; [reflexivity|]. do 4 (split; [reflexivity|]). apply Hlog.
  - destruct Hcase as [Hle|Hsi]; [lia|].
    rewrite (H2 ltac:(lia) Hsi). cbn [fst snd].
    split; [lia|]. split; [reflexivity|].
    split; [reflexivity|]. do 4 (split; [reflexivity|]). apply Hlog.
Qed.

(** *** The epochs of a run *)

Lemma epochs_trained_app t1 t2 :
  epochs_trained (t1 ++ t2) = epochs_trained t1 ++ epochs_trained t2.
Proof. unfold epochs_trained. apply omap_app. Qed.

Lemma epochs_trained_none t :
  forallb not_epoch t = true -> epochs_trained t = [].
Proof.
  induction t as [|e t IH]; [reflexivity|].
  cbn [forallb]. intros [He Ht]%andb_true_iff.
  change (e :: t) with ([e] ++ t). rewrite epochs_trained_app, (IH Ht).
  unfold not_epoch in He. now destruct (epochs_trained [e]).
Qed.

Lemma eval_not_epoch a epoch save_score names :
  respects (extends not_epoch) (eval a epoch save_score names).
Proof.
  unfold eval, eval_views, eval_view, eval_batch, eval_report, track_best.
  unfold_methods. respects_auto extends_leaf.
Qed.

(** An epoch announces itself once, or fails before it does. *)
Lemma train_announces a epoch save_model s :
  let r := train a epoch save_model s in
  exists t,
    trace r.2 = trace s ++ t /\
    (epochs_trained t = [inject_Z (epoch + 1)] \/
     (epochs_trained t = [] /\ exists e, r.1 = Raise e)).
Proof.
  intros r. subst r. unfold train.
  erewrite bind_ok; [|reflexivity].
  destruct (data_loader s !! "train") as [ld|] eqn:Hld.
  - erewrite bind_ok;
      [|apply get_loader_ok; simp_state; exact Hld].
    erewrite bind_ok; [|reflexivity].
    erewrite bind_ok; [|reflexivity].
    match goal with
    | |- context [trace (bind ?c ?k ?s1).2] =>
        assert (Q : respects (extends not_epoch) (bind c k));
        [|destruct (Q s1) as (t & Et & Ft)]
    end.
    { unfold train_batch, train_split, save_weights, save_checkpoint.
      unfold_methods. respects_auto extends_leaf. }
    eexists. split; [rewrite Et; simpl; rewrite <- !app_assoc; reflexivity|].
    left. cbn [app]. 
    change (?x :: ?y :: t) with ([x; y] ++ t).
    rewrite epochs_trained_app, (epochs_trained_none t Ft). reflexivity.
  - erewrite bind_raise;
      [|unfold get_loader; run; rewrite Hld; reflexivity].
    cbn [fst snd]. simp_state. eexists. split; [reflexivity|].
    right. split; [reflexivity|eauto].
Qed.

Lemma loop_body_announces a epoch s :
  let r := loop_body a epoch s in
  exists t,
    trace r.2 = trace s ++ t /\
    (epochs_trained t = [inject_Z (epoch + 1)] \/
     (epochs_trained t = [] /\ exists e, r.1 = Raise e)).
Proof.
  intros r. subst r. unfold loop_body.
  destruct (arg.save_interval a =? 0) eqn:Hsi.
  { exists []. rewrite bind_eq. cbn. rewrite app_nil_r. eauto. }
  erewrite bind_ok; [|reflexivity].
  set (sm := (_ || _)).
  destruct (train_announces a epoch sm s) as (t & Et & Ht).
  rewrite bind_eq.
  destruct (train a epoch sm s) as [[[]|e] s1]; cbn [fst snd] in *.
  - destruct Ht as [Ht|[_ [e [=]]]].
    match goal with
    | |- context [trace (bind ?c ?k ?s1).2] =>
        assert (Q : respects (extends not_epoch) (bind c k));
        [|destruct (Q s1) as (t' & Et' & Ft')]
    end.
    { unfold check_early_stopping. unfold_methods.
      respects_auto ltac:(first [apply eval_not_epoch | extends_leaf]). }
    exists (t ++ t'). split; [now rewrite Et', Et, app_assoc|].
    left. now rewrite epochs_trained_app, Ht, (epochs_trained_none t' Ft').
  - exists t. split; [exact Et|]. destruct Ht as [Ht|Ht]; [now left|].
    right. split; [apply Ht|eauto].
Qed.

Lemma loop_body_break a epoch s b s' :
  loop_body a epoch s = (Ok b, s') ->
  b = (0 <? arg.early_stopping a)
      && (arg.early_stopping a <? counter_early_stopping s').
Proof.
  intros H. unfold loop_body in H.
  apply bind_inv_ok in H as (? & s0 & _ & H).
  apply bind_inv_ok in H as (? & s1 & _ & H).
  apply bind_inv_ok in H as (? & s2 & _ & H).
  apply bind_inv_ok in H as (? & s3 & _ & H).
  destruct (check_early_stopping_run a s3) as (s4 & E & Hc).
  rewrite H in E. injection E as -> <-. now rewrite Hc.
Qed.

Lemma epoch_loop_announces a epochs s :
  let r := epoch_loop a epochs s in
  exists done rest t,
    epochs = done ++ rest /\
    trace r.2 = trace s ++ t /\
    epochs_trained t = map (fun e => inject_Z (e + 1)) done /\
    (r.1 = Ok tt ->
     rest = [] \/
     (0 < arg.early_stopping a /\
      arg.early_stopping a < counter_early_stopping r.2)).
Proof.
  revert s. induction epochs as [|e es IH]; intros s; cbv zeta.
  - exists [], [], []. cbn. rewrite app_nil_r. auto.
  - cbn [epoch_loop]. rewrite bind_eq.
    destruct (loop_body_announces a e s) as (t1 & Et1 & Ht1).
    destruct (loop_body a e s) as [[b|x] s1] eqn:Hbody; cbn [fst snd] in *.
    + destruct Ht1 as [Ht1|[_ [x [=]]]]. destruct b.
      * exists [e], es, t1. cbn [fst snd]. repeat split; try assumption.
        intros _. right. apply loop_body_break in Hbody.
        symmetry in Hbody. apply andb_true_iff in Hbody as [H1 H2].
        apply Z.ltb_lt in H1, H2. auto.
      * destruct (IH s1) as (done & rest & t & -> & Et & Ht & Hok).
        exists (e :: done), rest, (t1 ++ t). split; [reflexivity|].
        split; [now rewrite Et, Et1, app_assoc|].
        split; [|exact Hok].
        now rewrite epochs_trained_app, Ht1, Ht.
    + destruct Ht1 as [Ht1|[Ht1 _]].
      * exists [e], es, t1. repeat split; try assumption. discriminate.
      * exists [], (e :: es), t1. repeat split; try assumption. discriminate.
Qed.

Lemma range_prefix lo hi (done rest : list Z) :
  Py.range lo hi = done ++ rest ->
  done = map (fun i : nat => lo + Z.of_nat i) (seq 0 (length done)) /\
  (length done <= Z.to_nat (hi - lo))%nat.
Proof.
  unfold Py.range. intros H.
  assert (Hlen : (length done <= Z.to_nat (hi - lo))%nat).
  { apply (f_equal (@length Z)) in H.
    rewrite length_map, length_seq, length_app in H. lia. }
  split; [|exact Hlen].
  apply (f_equal (take (length done))) in H.
  rewrite take_app_length in H.
  change (map ?f ?l) with (f <$> l) in H. rewrite <- fmap_take, take_seq in H.
  rewrite <- H at 1. change (?f <$> ?l) with (map f l). do 2 f_equal. lia.
Qed.

(** X18.  The epoch loop runs its epochs in order, each at most once: the
    epochs announced to the training writer are those of an initial part of
    the list, each as its number plus one, and a loop that returns normally
    has run the whole list unless the early-stopping counter exceeds its
    non-zero threshold. So whatever a train-phase [start] returns or raises,
    it announces [start_epoch + 1], [start_epoch + 2], ... without a gap, at
    most [num_epoch - start_epoch] of them. *)
Theorem epochs_run_in_order (a : arg.t) :
  (forall epochs s,
     let r := epoch_loop a epochs s in
     exists done rest t,
       epochs = done ++ rest /\
       trace r.2 = trace s ++ t /\
       epochs_trained t = map (fun e => inject_Z (e + 1)) done /\
       (r.1 = Ok tt ->
        rest = [] \/
        (0 < arg.early_stopping a /\
         arg.early_stopping a < counter_early_stopping r.2))) /\
  (forall s,
     arg.phase a = "train" ->
     let r := start a s in
     exists (n : nat) t,
       trace r.2 = trace s ++ t /\
       epochs_trained t
       = map (fun i : nat => inject_Z (arg.start_epoch a + Z.of_nat i + 1))
           (seq 0 n) /\
       (n <= Z.to_nat (arg.num_epoch a - arg.start_epoch a))%nat /\
       (r.1 = Ok tt ->
        n = Z.to_nat (arg.num_epoch a - arg.start_epoch a) \/
        (0 < arg.early_stopping a /\
         arg.early_stopping a < counter_early_stopping r.2))).
Proof.
  split; [apply epoch_loop_announces|].
  intros s Hph r. subst r. unfold start. rewrite Hph.
  cbn [String.eqb Ascii.eqb Bool.eqb].
  destruct (data_loader s !! "train") as [ld|] eqn:Hld.
  2:{ erewrite bind_raise;
        [|unfold get_loader; run; rewrite Hld; reflexivity].
      exists 0%nat, []. cbn. rewrite app_nil_r.
      repeat split; [lia|discriminate]. }
  erewrite bind_ok; [|apply get_loader_ok; exact Hld].
  destruct (arg.batch_size a =? 0) eqn:Hbs.
  { erewrite bind_raise; [|reflexivity].
    exists 0%nat, []. cbn. rewrite app_nil_r.
    repeat split; [lia|discriminate]. }
  erewrite bind_ok; [|reflexivity].
  erewrite bind_ok; [|reflexivity].
  match goal with
  | |- context [epoch_loop a ?l ?s1] =>
      destruct (epoch_loop_announces a l s1)
        as (done & rest & t & Hsplit & Et & Ht & Hok)
  end.
  destruct (range_prefix _ _ _ _ Hsplit) as [Hdone Hlen].
  exists (length done), t. split; [exact Et|]. split; [|split].
  - rewrite Ht, Hdone at 1. rewrite map_map. apply map_ext.
    intros i. reflexivity.
  - exact Hlen.
  - intros Hr. destruct (Hok Hr) as [->|Hstop]; [left|now right].
    rewrite app_nil_r in Hsplit. rewrite <- Hsplit. unfold Py.range.
    now rewrite length_map, length_seq.
Qed.

(** *** The early-stopping counter *)

Lemma train_keeps_counter a epoch save_model :
  respects (unchanged counter_early_stopping) (train a epoch save_model).
Proof.
  unfold train, train_batch, train_split, save_weights, save_checkpoint.
  unfold_methods. respects_auto unchanged_leaf.
Qed.

Lemma track_best_counter epoch accuracy loss s :
  let s' := (track_best epoch accuracy loss s).2 in
  counter_early_stopping s' = counter_early_stopping s + 1 \/
  counter_early_stopping s' = 0.
Proof.
  unfold track_best, bind, gets, modify, ret.
  destruct (Py.gt accuracy (best_acc s)); simpl; destruct (_ && _); simpl;
    auto.
Qed.

Lemma eval_counter a epoch save_score names s s' :
  eval a epoch save_score names s = (Ok tt, s') ->
  counter_early_stopping s' = counter_early_stopping s \/
  counter_early_stopping s' = counter_early_stopping s + 1 \/
  counter_early_stopping s' = 0.
Proof.
  unfold eval. destruct (epoch + 1 <? arg.eval_start a).
  { intros [= <-]. now left. }
  intros H. right.
  apply bind_inv_ok in H as (? & s1 & H1 & H).
  apply bind_inv_ok in H as (? & s2 & H2 & H).
  apply bind_inv_ok in H as (v & s3 & H3 & H).
  apply bind_inv_ok in H as (ld & s4 & H4 & H).
  apply bind_inv_ok in H as (? & s5 & H5 & H).
  assert (E4 : counter_early_stopping s4 = counter_early_stopping s).
  { pose proof (eval_views_same_book names s2) as E. rewrite H3 in E.
    unfold print_log, emit, modify in H1, H2. inversion H1; inversion H2; subst.
    unfold get_loader, bind, gets in H4. simpl in H4.
    destruct (_ !! _); inversion H4; subst.
    unfold same_book, book in E. simpl in E. now injection E. }
  assert (E5 : counter_early_stopping s' = counter_early_stopping s5).
  { pose proof (eval_report_same_book a epoch save_score v.1.1
                  (top_k (data.dataset ld) v.1.1 1) v.1.2 v.2 s5) as E.
    rewrite H in E. unfold same_book, book in E. now injection E. }
  pose proof (track_best_counter epoch (top_k (data.dataset ld) v.1.1 1)
                v.1.2 s4) as T.
  cbv zeta in T. rewrite H5 in T. cbn [snd] in T.
  rewrite E5, <- E4. exact T.
Qed.

Lemma loop_body_counter a epoch s b s' :
  loop_body a epoch s = (Ok b, s') ->
  counter_early_stopping s' = counter_early_stopping s \/
  counter_early_stopping s' = counter_early_stopping s + 1 \/
  counter_early_stopping s' = 0.
Proof.
  intros H. unfold loop_body in H.
  apply bind_inv_ok in H as (? & s0 & H0 & H).
  assert (s0 = s) as ->.
  { destruct (arg.save_interval a =? 0); [discriminate|]. now injection H0. }
  apply bind_inv_ok in H as ([] & s1 & H1 & H).
  apply bind_inv_ok in H as (names & s2 & H2 & H). injection H2 as <- <-.
  apply bind_inv_ok in H as ([] & s3 & H3 & H).
  match type of H1 with
  | train a epoch ?sm s = _ =>
      pose proof (train_keeps_counter a epoch sm s) as T
  end.
  rewrite H1 in T. unfold unchanged in T. cbn [snd] in T.
  destruct (check_early_stopping_run a s3) as (s4 & E & Hc).
  rewrite H in E. injection E as _ <-.
  rewrite Hc, <- T. exact (eval_counter _ _ _ _ _ _ H3).
Qed.

Lemma init_resets_counter a s s' :
  init a s = (Ok tt, s') -> counter_early_stopping s' = 0.
Proof.
  unfold init. intros H.
  do 6 (apply bind_inv_ok in H as (? & ? & _ & H)).
  revert H. unfold bind, modify. simpl. intros [= <-]. reflexivity.
Qed.

Lemma epoch_loop_counter a epochs s s' :
  0 < arg.early_stopping a ->
  0 <= counter_early_stopping s <= arg.early_stopping a ->
  epoch_loop a epochs s = (Ok tt, s') ->
  0 <= counter_early_stopping s' <= arg.early_stopping a + 1.
Proof.
  intros HE. revert s. induction epochs as [|e es IH]; intros s Hs H.
  - injection H as <-. lia.
  - cbn [epoch_loop] in H. apply bind_inv_ok in H as (b & s1 & Hb & H).
    pose proof (loop_body_counter _ _ _ _ _ Hb) as Hc.
    pose proof (loop_body_break _ _ _ _ _ Hb) as Hbreak.
    destruct b.
    + injection H as <-. lia.
    + apply (IH s1); [|exact H].
      symmetry in Hbreak. apply andb_false_iff in Hbreak as [Hx|Hx]; lia.
Qed.

(** X19.  With early stopping enabled, an epoch that starts with the counter
    between 0 and the threshold and completes ends with it between 0 and the
    threshold plus one, and leaves the loop exactly when the counter is the
    threshold plus one. So the counter never exceeds the threshold by more
    than one: in a loop, and in a whole run from [__init__] to the end of
    [start]. *)
Theorem early_stop_after_patience (a : arg.t) :
  0 < arg.early_stopping a ->
  (forall epoch s b s',
     0 <= counter_early_stopping s <= arg.early_stopping a ->
     loop_body a epoch s = (Ok b, s') ->
     0 <= counter_early_stopping s' <= arg.early_stopping a + 1 /\
     (b = true <-> counter_early_stopping s' = arg.early_stopping a + 1)) /\
  (forall epochs s s',
     0 <= counter_early_stopping s <= arg.early_stopping a ->
     epoch_loop a epochs s = (Ok tt, s') ->
     0 <= counter_early_stopping s' <= arg.early_stopping a + 1) /\
  (forall s s' s'',
     init a s = (Ok tt, s') ->
     start a s' = (Ok tt, s'') ->
     0 <= counter_early_stopping s'' <= arg.early_stopping a + 1).
Proof.
  intros HE. split; [|split].
  - intros epoch s b s' Hs Hb.
    pose proof (loop_body_counter _ _ _ _ _ Hb) as Hc.
    pose proof (loop_body_break _ _ _ _ _ Hb) as Hbreak.
    split; [lia|]. rewrite Hbreak. rewrite andb_true_iff. lia.
  - intros epochs s s'. now apply epoch_loop_counter.
  - intros s s' s'' Hinit Hstart.
    pose proof (init_resets_counter a s s' Hinit) as H0.
    unfold start in Hstart.
    destruct (String.eqb (arg.phase a) "train").
    + apply bind_inv_ok in Hstart as (ld & s1 & H1 & Hstart).
      apply bind_inv_ok in Hstart as (? & s2 & H2 & Hstart).
      apply bind_inv_ok in Hstart as (? & s3 & H3 & Hstart).
      refine (epoch_loop_counter a _ s3 s'' HE _ Hstart).
      assert (counter_early_stopping s3 = counter_early_stopping s') as ->;
        [|lia].
      unfold get_loader, bind, gets in H1. simpl in H1.
      destruct (_ !! _); inversion H1; subst.
      destruct (arg.batch_size a =? 0); inversion H2; subst.
      inversion H3; subst. reflexivity.
    + destruct (String.eqb (arg.phase a) "test").
      * destruct (arg.weights a); [|discriminate].
        apply bind_inv_ok in Hstart as (names & s1 & H1 & Hstart).
        injection H1 as <- <-.
        pose proof (eval_counter _ _ _ _ _ _ Hstart). lia.
      * injection Hstart as <-. lia.
Qed.

(** ** The scheduler *)

#[export] Instance calm_preorder : PreOrder calm.
Proof.
  split.
  - intros s. split; reflexivity.
  - intros s1 s2 s3 [G1 E1] [G2 E2]. split; [congruence|].
    etransitivity; eassumption.
Qed.






End Further.

(** ** The further statements at work in the small world *)

(** A snapshot that holds a bias of three entries: the strict load fails and
    leaves the model as the copies made it. *)
Lemma partial_load_never_completes_witness :
  let weights : gmap string tensor :=
    {["fc.bias" := Tensor [3] [0; 0; 0]%Q]} in
  let r := @try_load_state_dict Run.world weights Run.ready in
  r.1 = Raise (RuntimeError "Error(s) in loading state_dict") /\
  model r.2 = nn.copy_params (model Run.ready) weights.
Proof.
  intros weights r.
  destruct (@partial_load_never_completes Run.world weights Run.ready)
    as (_ & H & Hm & _).
  split; [apply H; vm_compute; reflexivity | exact Hm].
Defined.

(** The same file with the bias ignored: the load succeeds, the bias keeps
    its initial value and the removal is logged. *)
Lemma ignored_weights_are_skipped_witness :
  let r := @load_model Run.world Edge.ignoring (blank Run.mismatch_disk) in
  r.1 = Ok tt /\
  model r.2 !! "fc.bias" = @Model Run.world !! "fc.bias" /\
  In (Log (SuccessfullyRemovedWeight "fc.bias")) (trace r.2).
Proof.
  assert (Hign : forall k (t p : tensor),
            strip_module [("fc.bias", Tensor [3] [0; 0; 0]%Q)] !! k = Some t ->
            @Model Run.world !! k = Some p -> shape t <> shape p ->
            In k (arg.ignore_weights Edge.ignoring)).
  { intros k t p Ht _ _.
    destruct (decide (k = "fc.bias")) as [->|Hne]; [now left|].
    unfold strip_module in Ht. cbn [fold_left fst snd] in Ht.
    change (Py.split_last "module." "fc.bias") with "fc.bias" in Ht.
    rewrite lookup_insert_ne, lookup_empty in Ht by congruence.
    discriminate Ht. }
  destruct (@ignored_weights_are_skipped Run.world Edge.ignoring
              (blank Run.mismatch_disk) "weights-1.pt"
              [("fc.bias", Tensor [3] [0; 0; 0]%Q)]
              eq_refl ltac:(discriminate) eq_refl eq_refl Hign)
    as (H1 & H2 & _ & H4).
  split; [exact H1|]. split; [exact (H2 "fc.bias" (or_introl eq_refl))|].
  destruct (H4 "fc.bias" (or_introl eq_refl)) as [H _].
  apply H. eexists. reflexivity.
Defined.

(** The weights saved after the first epoch, loaded by a later run. *)
Lemma weights_round_trip_witness :
  let r := @load_model Run.world Edge.reloading (blank (disk Edge.saved)) in
  r.1 = Ok tt /\ model r.2 = Edge.trained.
Proof.
  refine (@weights_round_trip Run.world Demo.args Edge.reloading 1
            (set_model Edge.trained (blank ∅)) (blank (disk Edge.saved))
            _ _ _ _ _ _).
  - intros k [t Hk]. change (Edge.trained !! k = Some t) in Hk.
    unfold Edge.trained in Hk.
    destruct (decide (k = "fc.weight")) as [->|H1]; [reflexivity|].
    destruct (decide (k = "fc.bias")) as [->|H2]; [reflexivity|].
    rewrite !lookup_insert_ne, lookup_empty in Hk by congruence.
    discriminate Hk.
  - intros k.
    change (shape <$> Edge.trained !! k
            = shape <$> (<["fc.weight" := Demo.fc_weight]>
                           (<["fc.bias" := Demo.fc_bias 0]> ∅)
                         : gmap string tensor) !! k).
    unfold Edge.trained.
    destruct (decide (k = "fc.weight")) as [->|H1];
      [now rewrite !lookup_insert_eq|].
    rewrite !(lookup_insert_ne _ "fc.weight") by congruence.
    destruct (decide (k = "fc.bias")) as [->|H2];
      [now rewrite !lookup_insert_eq|].
    now rewrite !lookup_insert_ne by congruence.
  - vm_compute. reflexivity.
  - reflexivity.
  - reflexivity.
  - reflexivity.
Defined.

(** Pickled weights on an empty file system. *)
Lemma pickled_weights_never_load_witness :
  (@load_model Run.world Edge.pickled (blank ∅)).1
  = Raise (FileNotFoundError "weights.pkl").
Proof.
  destruct (@pickled_weights_never_load Run.world Edge.pickled (blank ∅)
              "weights.pkl" eq_refl eq_refl) as (_ & _ & H).
  apply H. reflexivity.
Defined.

(** The checkpoint written after [__init__], resumed by a later run. *)
Lemma checkpoint_round_trip_witness :
  exists o sch s1,
    disk Edge.checkpointed !! "work/checkpoints/checkpoint-1-fwbz1-0.pt"
    = Some (@CheckpointFile Run.world 1 o sch) /\
    (load_optimizer Edge.resuming ;; load_lr_scheduler Edge.resuming)
      (blank (disk Edge.checkpointed)) = (Ok tt, s1) /\
    optimizer s1 = optimizer Run.ready /\
    lr_scheduler s1 = lr_scheduler Run.ready /\
    optimizer Run.ready = Some o /\ lr_scheduler Run.ready = Some sch.
Proof.
  assert (E : (@save_checkpoint Run.world Demo.args 1 Run.ready).1 = Ok tt)
    by (vm_compute; reflexivity).
  refine (@checkpoint_round_trip Run.world Demo.args Edge.resuming 1
            Run.ready Edge.checkpointed (blank (disk Edge.checkpointed))
            (run_ok _ _ _ E) _ _ _ _).
  - reflexivity.
  - reflexivity.
  - intros o _. left. split; reflexivity.
  - left. reflexivity.
Defined.

(** A checkpoint that is not there, and a checkpoint under a scheduler name
    that the program does not know. *)
Lemma unusable_checkpoints_witness :
  (@load_optimizer Run.world Run.resumed (blank ∅)).1
  = Raise (FileNotFoundError "ckpt.pt") /\
  (let r := @load_lr_scheduler Run.world Edge.unknown_resumed
              (blank Run.resumed_disk) in
   r.1 = Raise AttributeError /\ lr_scheduler r.2 = None).
Proof.
  split.
  - destruct (@unusable_checkpoints Run.world Run.resumed "ckpt.pt" eq_refl)
      as [H _].
    destruct (H (or_introl eq_refl) (blank ∅)) as [H1 _].
    apply H1. reflexivity.
  - destruct (@unusable_checkpoints Run.world Edge.unknown_resumed "ckpt.pt"
                eq_refl) as [_ H].
    refine (H _ _ _ (blank Run.resumed_disk) 5 42 43 _);
      [discriminate | discriminate | discriminate | reflexivity].
Defined.

(** The first epoch of a run whose scheduler name is unknown: the weights are
    on disk when the checkpoint fails. *)
Lemma unset_scheduler_fails_at_save_witness :
  let wpath :=
    Py.path_join (Py.path_join (arg.work_dir Run.unknown_scheduler) "weights")
      ("weights-" +:+ Py.str (0 + 1) +:+ ".pt") in
  let r := @train Run.world Run.unknown_scheduler 0 true Edge.unscheduled in
  r.1 = Raise AttributeError /\
  disk r.2
  = <[wpath := WeightsFile
                 (map (fun kv : string * tensor =>
                         (Py.split_last "module." kv.1, kv.2))
                    (map_to_list (model r.2)))]> (disk Edge.unscheduled) /\
  List.last (trace r.2) EmptyCache = TorchSave wpath.
Proof.
  refine (@unset_scheduler_fails_at_save Run.world Run.unknown_scheduler 0
            Edge.unscheduled 0
            (data.mkDataLoader (Demo.samples 2) 2 true true)
            eq_refl eq_refl eq_refl eq_refl eq_refl eq_refl eq_refl eq_refl _).
  vm_compute. discriminate.
Defined.

(** Saving the second epoch leaves the file of the first one alone. *)
Lemma saved_weights_do_not_collide_witness :
  disk (@save_weights Run.world Demo.args 2 Run.ready).2
    !! weights_path Demo.args 1
  = disk Run.ready !! weights_path Demo.args 1.
Proof.
  destruct (@saved_weights_do_not_collide Run.world Demo.args) as (_ & _ & H).
  apply H. discriminate.
Defined.

(** The single view of the defaults. *)
Lemma views_are_named_in_order_witness :
  lst_name_test_tta Run.ready = ["test_tta_0"] /\
  lst_name_test_tta Run.ready !! 0%nat = Some "test_tta_0".
Proof.
  assert (E : (@init Run.world Demo.args (blank ∅)).1 = Ok tt)
    by (vm_compute; reflexivity).
  destruct (@views_are_named_in_order Run.world Demo.args) as [_ H].
  destruct (H (blank ∅) Run.ready (run_ok _ _ _ E)) as (H1 & _ & _ & H4).
  split; [exact H1|]. apply H4. split; [simpl; lia | reflexivity].
Defined.

(** The loaders of the small world after [__init__]. *)
Lemma every_view_has_a_loader_witness :
  data_loader Run.ready !! "test_tta_0"
  = Some (data.mkDataLoader (Demo.samples 2) 256 false false) /\
  data_loader Run.ready !! "train"
  = Some (data.mkDataLoader (Demo.samples 2) 2 true true) /\
  0 < arg.batch_size Demo.args.
Proof.
  assert (E : (@init Run.world Demo.args (blank ∅)).1 = Ok tt)
    by (vm_compute; reflexivity).
  destruct (@every_view_has_a_loader Run.world Demo.args (blank ∅) Run.ready
              (run_ok _ _ _ E)) as (H1 & H2 & _ & H4 & _).
  split; [|split].
  - destruct (H1 0%nat (false, 1) eq_refl) as [_ H]. exact H.
  - exact H2.
  - apply H4. reflexivity.
Defined.

(** An evaluation of the single view in the state after [__init__]. *)
Lemma evaluation_is_read_only_witness :
  let s' := (@eval Run.world Demo.args 0 false ["test_tta_0"] Run.ready).2 in
  model s' = model Run.ready /\
  global_step s' = global_step Run.ready /\
  optimizer s' = optimizer Run.ready /\
  lr_scheduler s' = lr_scheduler Run.ready /\
  disk s' = disk Run.ready.
Proof.
  destruct (@evaluation_is_read_only Run.world Demo.args 0 false
              ["test_tta_0"] Run.ready)
    as (H1 & _ & H3 & _ & _ & _ & H7 & H8 & _).
  destruct (H7 ltac:(discriminate)) as [Ho Hs].
  destruct (H8 eq_refl) as [Hd _].
  repeat split; assumption.
Defined.

(** The test phase, and a phase that is neither. *)
Lemma test_phase_never_trains_witness :
  model (@start Run.world Edge.testing_restored Run.ready).2
  = model Run.ready /\
  global_step (@start Run.world Edge.testing_restored Run.ready).2
  = global_step Run.ready /\
  @start Run.world Edge.idle Run.ready = (Ok tt, Run.ready).
Proof.
  destruct (@test_phase_never_trains Run.world Edge.testing_restored
              ltac:(discriminate) Run.ready) as (H1 & _ & H3 & _).
  destruct (@test_phase_never_trains Run.world Edge.idle
              ltac:(discriminate) Run.ready) as (_ & _ & _ & _ & H5).
  split; [exact H1|]. split; [exact H3|]. apply H5. discriminate.
Defined.

(** The first epoch of a run that saves every other epoch. *)
Lemma nothing_written_unless_due_witness :
  disk (@loop_body Run.world Edge.sparse 0 Run.ready).2 = disk Run.ready.
Proof.
  refine (proj1 (@nothing_written_unless_due Run.world Edge.sparse 0
                   Run.ready _ _ _ _));
    [discriminate | discriminate | discriminate | reflexivity].
Defined.

(** No view at all, and a view without a loader. *)
Lemma evaluation_needs_views_witness :
  (@eval Run.world Demo.args 0 false [] Run.ready).1 = Raise IndexError /\
  (@eval Run.world Demo.args 0 false ["test_tta_1"] Run.ready).1
  = Raise (KeyError "test_tta_1").
Proof.
  destruct (@evaluation_needs_views Run.world Demo.args) as [H _].
  assert (L : arg.eval_start Demo.args <= 0 + 1) by (simpl; lia).
  destruct (H 0 false Run.ready L) as (H1 & H2 & _).
  split; [exact H1|]. apply H2. vm_compute. reflexivity.
Defined.

(** One training sample for macro-batches of two. *)
Lemma short_training_set_fails_witness :
  let r := @train Edge.short_world Run.single 0 true Edge.short_ready in
  r.1 = Raise (RuntimeError "stack expects a non-empty TensorList") /\
  model r.2 = model Edge.short_ready /\
  disk r.2 = disk Edge.short_ready.
Proof.
  destruct (@short_training_set_fails Edge.short_world Run.single 0 true
              Edge.short_ready 0
              (data.mkDataLoader (Demo.samples 1) 2 true true)
              eq_refl eq_refl eq_refl eq_refl eq_refl)
    as (H1 & _ & _ & H4 & _ & _ & H7).
  repeat split; assumption.
Defined.

(** Two samples forwarded minus two at a time. *)
Lemma nonpositive_forward_batch_size_witness :
  (@train_batch Run.world Edge.negative ([], []) (Demo.samples 2)
     Run.ready).1 = Raise UnboundLocalError.
Proof.
  assert (L : arg.forward_batch_size Edge.negative <= 0)
    by (vm_compute; discriminate).
  destruct (@nonpositive_forward_batch_size Run.world Edge.negative ([], [])
              (Demo.samples 2) Run.ready 0 eq_refl L ltac:(discriminate))
    as (_ & _ & _ & H & _).
  destruct (H eq_refl eq_refl) as [H1 _]. exact H1.
Defined.

(** A run that starts at its last epoch, and a run that never saves. *)
Lemma runs_that_train_nothing_witness :
  (@start Run.world Edge.finished Run.ready).1 = Ok tt /\
  model (@start Run.world Edge.finished Run.ready).2 = model Run.ready /\
  (@start Run.world Edge.unsaved Run.ready).1 = Raise ZeroDivisionError /\
  disk (@start Run.world Edge.unsaved Run.ready).2 = disk Run.ready.
Proof.
  assert (L : arg.num_epoch Edge.finished <= arg.start_epoch Edge.finished)
    by (vm_compute; discriminate).
  assert (L' : arg.start_epoch Edge.unsaved < arg.num_epoch Edge.unsaved)
    by reflexivity.
  destruct (@runs_that_train_nothing Run.world Edge.finished Run.ready
              (data.mkDataLoader (Demo.samples 2) 2 true true)
              eq_refl eq_refl ltac:(discriminate) (or_introl L))
    as (H1 & _ & _ & H4 & _).
  destruct (@runs_that_train_nothing Run.world Edge.unsaved Run.ready
              (data.mkDataLoader (Demo.samples 2) 2 true true)
              eq_refl eq_refl ltac:(discriminate) (or_intror eq_refl))
    as (_ & H2 & _ & _ & _ & _ & H7 & _).
  split; [exact (H1 L)|]. split; [exact H4|].
  split; [exact (H2 L') | exact H7].
Defined.

(** The three epochs of the defaults. *)
Lemma epochs_run_in_order_witness :
  exists (n : nat) t,
    trace (@start Run.world Demo.args Run.ready).2 = trace Run.ready ++ t /\
    epochs_trained t
    = map (fun i : nat => inject_Z (0 + Z.of_nat i + 1)) (seq 0 n) /\
    (n <= 3)%nat.
Proof.
  destruct (@epochs_run_in_order Run.world Demo.args) as [_ H].
  destruct (H Run.ready eq_refl) as (n & t & H1 & H2 & H3 & _).
  exists n, t. split; [exact H1|]. split; [exact H2 | exact H3].
Defined.

(** The first epoch of a run with a patience of two. *)
Lemma early_stop_after_patience_witness :
  0 <= counter_early_stopping (@loop_body Run.world Run.patient 0 Run.ready).2
  <= arg.early_stopping Run.patient + 1.
Proof.
  assert (P : 0 < arg.early_stopping Run.patient) by reflexivity.
  assert (E : (@loop_body Run.world Run.patient 0 Run.ready).1 = Ok false)
    by (vm_compute; reflexivity).
  assert (C : 0 <= counter_early_stopping Run.ready
              <= arg.early_stopping Run.patient)
    by (vm_compute; split; discriminate).
  destruct (@early_stop_after_patience Run.world Run.patient P) as [H _].
  destruct (H 0 Run.ready false _ C (run_ok _ _ _ E)) as [H1 _].
  exact H1.
Defined.



(** Upper case and mixed case. *)
Lemma str2bool_ignores_case_witness :
  str2bool "TRUE" = inl true /\ str2bool "No" = inl false.
Proof.
  destruct str2bool_ignores_case as (_ & H1 & H2 & _).
  split.
  - apply H1. right. left. reflexivity.
  - apply H2. left. reflexivity.
Defined.

(** A configuration file that spells [work_dir] with a dash. *)
Lemma config_keys_are_checked_witness :
  check_config_keys ["work_dir"; "phase"] ["phase"; "work-dir"] []
  = (Raise (AssertionError ""), ["WRONG ARG: work-dir"]).
Proof.
  destruct (config_keys_are_checked ["work_dir"; "phase"]) as [_ H].
  refine (H ["phase"] "work-dir" [] [] _ _).
  - constructor; [right; left; reflexivity | constructor].
  - intros [E|[E|[]]]; discriminate E.
Defined.

(** Three coordinates, and angles. *)
Lemma channels_of_stream_witness :
  in_channels "joints_xyz" = 3 /\ in_channels "bones_angles" = 1.
Proof.
  destruct channels_of_stream as (H1 & _ & _ & H4).
  split.
  - exact (H1 "joints" "xyz" eq_refl eq_refl).
  - exact (H4 "bones_angles" eq_refl eq_refl).
Defined.
